(** * BrainSAIT OCR backend: the orchestration core of [brainsait_ocr_backend.py]

    A shallow embedding of the document pipeline ([process_file]), of the
    retrying call to the extraction service ([_call_mistral_ocr_api]), of the
    admission check ([_validate_file]), of the batch dispatcher
    ([process_batch]) and of the statistics snapshot ([get_statistics]),
    followed by the properties the specification states about them; then of
    the reports ([export_results] and its generators), of the system prompt,
    of the digest loop, of [clear_cache] and of the commands of [main], with
    the properties the code shows of them.

    Python values are dynamically typed; a field of a dataclass instance can
    hold a dataclass instance, an enumeration member or plain data read back
    from a JSON file, which is what the type [value] below records. *)

From Stdlib Require Import ZArith QArith Lia.
From stdpp Require Import base option list strings pretty gmap.

Set Warnings "-register-all".

Local Open Scope string_scope.
Local Open Scope list_scope.
Local Open Scope Z_scope.

(** ** Data model *)

(** [class ProcessingStatus(Enum)] *)
Inductive ProcessingStatus : Type :=
| PENDING | PROCESSING | COMPLETED | FAILED | CACHED.

(** Plain data: what [json.loads] returns and what [json.dumps] accepts. *)
Inductive json : Type :=
| JNull
| JBool (b : bool)
| JInt (n : Z)
| JFloat (q : Q)
| JStr (s : string)
| JList (xs : list json)
| JDict (kvs : list (string * json)).

(** Exceptions: the provider's [MistralException] and every other subclass of
    [Exception], with the class name and the text [str(e)] returns. *)
Inductive exn : Type :=
| MistralException (msg : string)
| PyException (cls : string) (msg : string).

Definition str_exn (e : exn) : string :=
  match e with
  | MistralException msg => msg
  | PyException _ msg => msg
  end.

(** The result of running a piece of Python: a value or a raised exception. *)
Inductive outcome (A : Type) : Type :=
| Returned (a : A)
| Raised (e : exn).
Arguments Returned {A} a.
Arguments Raised {A} e.

(** [@dataclass class DocumentMetadata] *)
Record DocumentMetadata : Type := mkDocumentMetadata {
  file_name : string;
  file_size : Z;
  file_type : string;
  file_hash : string;
  language : option string;
  page_count : json;
  processing_time : option Q;
  created_at : string
}.

(** [@dataclass class OCRResult]; [text] is [None] only if the retry loop
    could end without returning, see [_call_mistral_ocr_api]. *)
Record OCRResult : Type := mkOCRResult {
  text : option string;
  confidence : option Q;
  ocr_language : option string;
  images : list string;
  tables : list json;
  structure : list (string * json)
}.

(** What an attribute of a [ProcessingResult] can hold. *)
Inductive value : Type :=
| VJson (j : json)
| VStatus (s : ProcessingStatus)
| VMetadata (m : DocumentMetadata)
| VOCR (r : OCRResult).

(** [@dataclass class ProcessingResult] *)
Record ProcessingResult : Type := mkProcessingResult {
  metadata : value;
  ocr_result : value;
  status : value;
  error_message : value;
  processing_options : value
}.

(** [self.stats] *)
Record Stats : Type := mkStats {
  total_processed : Z;
  successful : Z;
  failed : Z;
  cached : Z
}.

(** An entry of the file system as the pipeline sees it: [st_size] is what
    [stat()] reports, [content] what [open(path, "rb").read()] returns, with
    [None] for an entry that exists but cannot be opened for reading (a
    directory, a file without read permission). *)
Record File : Type := mkFile {
  st_size : Z;
  content : option string
}.

Inductive level : Type := INFO | WARNING | ERROR.

(** The state the pipeline reads and writes: the documents, the cache
    directory (the text of each entry, keyed by its name [<file_hash>.json]),
    the counters, the number of calls made to the extraction service so far, the
    delays slept, and the log. *)
Record World : Type := mkWorld {
  files : gmap string File;
  cache : gmap string string;
  stats : Stats;
  api_calls : nat;
  sleeps : list Z;
  log_records : list (level * string)
}.

(** A PDF as PyMuPDF opens it. *)
Record PdfDoc : Type := mkPdfDoc {
  doc_len : Z;
  doc_metadata : list (string * string)
}.

(** A request to the extraction service: the document's bytes, its guessed
    MIME type and the caller's options, from which the data URI and the system
    prompt are built. *)
Record Request : Type := mkRequest {
  req_data : string;
  req_mime : option string;
  req_options : list (string * json)
}.

(** The collaborators outside the orchestration core. [client n req] is the
    answer of the extraction service to the [n]-th call made to it.
    [os_error path] is the exception the operating system gives for a path
    that cannot be read: [FileNotFoundError] for one that does not exist,
    [IsADirectoryError] or [PermissionError] for one that cannot be opened,
    with the text of its [errno]. *)
Record Env : Type := mkEnv {
  sha256_hexdigest : string -> string;
  guess_type : string -> option string;
  path_name : string -> string;
  path_suffix_lower : string -> string;
  fitz_open : string -> outcome PdfDoc;
  detect : string -> outcome string;
  strip : string -> string;
  json_loads : string -> outcome json;
  json_encode : json -> string;
  client : nat -> Request -> outcome string;
  now_isoformat : string;
  elapsed_seconds : Q;
  format_2f : Q -> string;
  dir_exists : string -> bool;
  glob : string -> string -> list string;
  os_error : string -> exn
}.

(** ** Constants *)

Definition SUPPORTED_FORMATS : list (string * string) :=
  [("pdf", "application/pdf"); ("png", "image/png");
   ("jpg", "image/jpeg"); ("jpeg", "image/jpeg")].

Definition MAX_FILE_SIZE : Z := 50 * 1024 * 1024.
Definition API_RETRY_ATTEMPTS : nat := 3.
Definition API_RETRY_DELAY : Z := 2.

(** ** A state and exception monad *)

Definition M (A : Type) : Type := World -> outcome A * World.

Definition ret {A} (a : A) : M A := fun w => (Returned a, w).

Definition bind {A B} (m : M A) (k : A -> M B) : M B :=
  fun w => match m w with
           | (Returned a, w') => k a w'
           | (Raised e, w') => (Raised e, w')
           end.

Definition raise {A} (e : exn) : M A := fun w => (Raised e, w).

(** [try: m except Exception as e: h e]; what [m] did to the state before it
    raised stays done. *)
Definition try_except {A} (m : M A) (h : exn -> M A) : M A :=
  fun w => match m w with
           | (Returned a, w') => (Returned a, w')
           | (Raised e, w') => h e w'
           end.

Definition lift {A} (o : outcome A) : M A := fun w => (o, w).
Definition gets {A} (f : World -> A) : M A := fun w => (Returned (f w), w).
Definition modify (f : World -> World) : M unit := fun w => (Returned tt, f w).

Notation "'do' x <- m ; k" := (bind m (fun x => k))
  (at level 10, x name, m at level 99, k at level 200).
Notation "m ;; k" := (bind m (fun _ => k))
  (at level 100, k at level 200, right associativity).

(** ** The backend, [class BrainSAITOCR] *)

Section Backend.

Context (env : Env).

(** *** State accessors *)

Definition set_stats (s : Stats) (w : World) : World :=
  mkWorld (files w) (cache w) s (api_calls w) (sleeps w) (log_records w).

Definition set_cache (c : gmap string string) (w : World) : World :=
  mkWorld (files w) c (stats w) (api_calls w) (sleeps w) (log_records w).

Definition logger (l : level) (msg : string) : M unit :=
  modify (fun w => mkWorld (files w) (cache w) (stats w) (api_calls w)
                           (sleeps w) (log_records w ++ [(l, msg)])).

(** [await asyncio.sleep(delay)] *)
Definition asyncio_sleep (delay : Z) : M unit :=
  modify (fun w => mkWorld (files w) (cache w) (stats w) (api_calls w)
                           (sleeps w ++ [delay]) (log_records w)).

(** One invocation of [self.client.chat.complete]. *)
Definition chat_complete (req : Request) : M string :=
  fun w => (client env (api_calls w) req,
            mkWorld (files w) (cache w) (stats w) (S (api_calls w))
                    (sleeps w) (log_records w)).

(** [self.stats[key] += 1] for each of the four keys. *)
Definition incr_total_processed : M unit :=
  modify (fun w => let s := stats w in
    set_stats (mkStats (total_processed s + 1) (successful s) (failed s) (cached s)) w).
Definition incr_successful : M unit :=
  modify (fun w => let s := stats w in
    set_stats (mkStats (total_processed s) (successful s + 1) (failed s) (cached s)) w).
Definition incr_failed : M unit :=
  modify (fun w => let s := stats w in
    set_stats (mkStats (total_processed s) (successful s) (failed s + 1) (cached s)) w).
Definition incr_cached : M unit :=
  modify (fun w => let s := stats w in
    set_stats (mkStats (total_processed s) (successful s) (failed s) (cached s + 1)) w).

(** [file_path.stat()] *)
Definition path_stat (file_path : string) : M File :=
  do entry <- gets (fun w => files w !! file_path);
  match entry with
  | Some f => ret f
  | None => raise (os_error env file_path)
  end.

(** [open(file_path, "rb")] followed by reading the whole file. *)
Definition read_bytes (file_path : string) : M string :=
  do f <- path_stat file_path;
  match content f with
  | Some data => ret data
  | None => raise (os_error env file_path)
  end.

(** Reading, truncating and writing a file of the cache directory. *)
Definition read_text (cache_path : string) : M string :=
  do entry <- gets (fun w => cache w !! cache_path);
  match entry with
  | Some s => ret s
  | None => raise (os_error env cache_path)
  end.

Definition open_w (cache_path : string) : M unit :=
  modify (fun w => set_cache (<[cache_path := ""]> (cache w)) w).

Definition write_text (cache_path : string) (s : string) : M unit :=
  modify (fun w => set_cache (<[cache_path := s]> (cache w)) w).

(** *** Dictionaries and dataclasses *)

Fixpoint dict_get (k : string) (kvs : list (string * json)) : option json :=
  match kvs with
  | [] => None
  | (k', v) :: rest => if bool_decide (k' = k) then Some v else dict_get k rest
  end.

(** [d.get(k, dflt)] *)
Definition dict_get_default (k : string) (dflt : json)
    (kvs : list (string * json)) : json :=
  default dflt (dict_get k kvs).

Definition opt_str (o : option string) : json :=
  match o with Some s => JStr s | None => JNull end.

Definition opt_float (o : option Q) : json :=
  match o with Some q => JFloat q | None => JNull end.

(** How an f-string renders an optional string. *)
Definition fmt_opt (o : option string) : string :=
  match o with Some s => s | None => "None" end.

(** [options or {}] *)
Definition options_or_empty (options : option (list (string * json)))
    : list (string * json) :=
  default [] options.

(** [dataclasses.asdict]: dataclass instances become dictionaries, every
    other value is copied as it is, enumeration members included. *)
Definition asdict_metadata (m : DocumentMetadata) : json :=
  JDict [("file_name", JStr (file_name m)); ("file_size", JInt (file_size m));
         ("file_type", JStr (file_type m)); ("file_hash", JStr (file_hash m));
         ("language", opt_str (language m)); ("page_count", page_count m);
         ("processing_time", opt_float (processing_time m));
         ("created_at", JStr (created_at m))].

Definition asdict_ocr (r : OCRResult) : json :=
  JDict [("text", opt_str (text r)); ("confidence", opt_float (confidence r));
         ("language", opt_str (ocr_language r));
         ("images", JList (JStr <$> images r)); ("tables", JList (tables r));
         ("structure", JDict (structure r))].

Definition asdict_value (v : value) : value :=
  match v with
  | VMetadata m => VJson (asdict_metadata m)
  | VOCR r => VJson (asdict_ocr r)
  | VJson j => VJson j
  | VStatus s => VStatus s
  end.

Definition asdict (r : ProcessingResult) : list (string * value) :=
  [("metadata", asdict_value (metadata r));
   ("ocr_result", asdict_value (ocr_result r));
   ("status", asdict_value (status r));
   ("error_message", asdict_value (error_message r));
   ("processing_options", asdict_value (processing_options r))].

(** [json.dumps] of a dictionary: the default encoder raises [TypeError] at
    the first value that is not plain data. *)
Fixpoint encodable (kvs : list (string * value)) : outcome (list (string * json)) :=
  match kvs with
  | [] => Returned []
  | (k, VJson j) :: rest =>
      match encodable rest with
      | Returned js => Returned ((k, j) :: js)
      | Raised e => Raised e
      end
  | (_, VStatus _) :: _ =>
      Raised (PyException "TypeError"
                "Object of type ProcessingStatus is not JSON serializable")
  | (_, VMetadata _) :: _ =>
      Raised (PyException "TypeError"
                "Object of type DocumentMetadata is not JSON serializable")
  | (_, VOCR _) :: _ =>
      Raised (PyException "TypeError"
                "Object of type OCRResult is not JSON serializable")
  end.

Definition json_dumps (kvs : list (string * value)) : outcome string :=
  match encodable kvs with
  | Returned js => Returned (json_encode env (JDict js))
  | Raised e => Raised e
  end.

Definition field_names : list string :=
  ["metadata"; "ocr_result"; "status"; "error_message"; "processing_options"].

(** The constructor [ProcessingResult] applied to the keyword arguments
    unpacked from [cached_data], [__post_init__] included: the argument
    has to be a mapping whose keys are field names and which gives the three
    fields without a default; no field is converted or checked. *)
Definition ProcessingResult_kwargs (cached_data : json) : outcome ProcessingResult :=
  match cached_data with
  | JDict kvs =>
      if negb (forallb (fun kv => bool_decide (kv.1 ∈ field_names)) kvs) then
        Raised (PyException "TypeError" "got an unexpected keyword argument")
      else
        match dict_get "metadata" kvs, dict_get "ocr_result" kvs,
              dict_get "status" kvs with
        | Some m, Some o, Some s =>
            Returned (mkProcessingResult (VJson m) (VJson o) (VJson s)
              (VJson (dict_get_default "error_message" JNull kvs))
              (VJson (match dict_get_default "processing_options" JNull kvs with
                      | JNull => JDict []
                      | j => j
                      end)))
        | _, _, _ =>
            Raised (PyException "TypeError" "missing required positional argument")
        end
  | _ => Raised (PyException "TypeError" "argument after ** must be a mapping")
  end.

Definition set_status (s : value) (r : ProcessingResult) : ProcessingResult :=
  mkProcessingResult (metadata r) (ocr_result r) s (error_message r)
                     (processing_options r).

Definition set_page_count (n : json) (m : DocumentMetadata) : DocumentMetadata :=
  mkDocumentMetadata (file_name m) (file_size m) (file_type m) (file_hash m)
                     (language m) n (processing_time m) (created_at m).

Definition set_language (l : option string) (m : DocumentMetadata) : DocumentMetadata :=
  mkDocumentMetadata (file_name m) (file_size m) (file_type m) (file_hash m)
                     l (page_count m) (processing_time m) (created_at m).

Definition set_processing_time (t : option Q) (m : DocumentMetadata) : DocumentMetadata :=
  mkDocumentMetadata (file_name m) (file_size m) (file_type m) (file_hash m)
                     (language m) (page_count m) t (created_at m).

(** [DocumentMetadata(file_name=, file_size=, file_type=, file_hash=)] and
    [OCRResult(text=)], the other fields at their defaults. *)
Definition new_metadata (name : string) (size : Z) (type hash : string)
    : DocumentMetadata :=
  mkDocumentMetadata name size type hash None JNull None (now_isoformat env).

Definition new_ocr_result (t : option string) (c : option Q) (l : option string)
    : OCRResult :=
  mkOCRResult t c l [] [] [].

(** *** Helpers of the pipeline *)

(** The digest does not depend on the 4096-byte chunks the file is read in. *)
Definition _calculate_file_hash (file_path : string) : M string :=
  do data <- read_bytes file_path;
  ret (sha256_hexdigest env data).

(** The name of the entry inside [self.cache_dir]. *)
Definition _get_cache_path (file_hash : string) : string :=
  file_hash +:+ ".json".

(** [mime_type in SUPPORTED_FORMATS.values()] *)
Definition supported_mime (mime_type : option string) : bool :=
  match mime_type with
  | Some m => bool_decide (m ∈ (snd <$> SUPPORTED_FORMATS))
  | None => false
  end.

Definition _validate_file (file_path : string) : M bool :=
  do entry <- gets (fun w => files w !! file_path);
  match entry with
  | None =>
      logger ERROR ("File not found: " +:+ file_path);;
      ret false
  | Some f =>
      if bool_decide (st_size f > MAX_FILE_SIZE) then
        logger ERROR ("File too large: " +:+ file_path +:+ " ("
                      +:+ pretty (st_size f) +:+ " bytes)");;
        ret false
      else
        let mime_type := guess_type env file_path in
        if negb (supported_mime mime_type) then
          logger ERROR ("Unsupported file format: " +:+ file_path +:+ " ("
                        +:+ fmt_opt mime_type +:+ ")");;
          ret false
        else ret true
  end.

(** [doc.metadata.get(k, "")] *)
Fixpoint metadata_get (k : string) (kvs : list (string * string)) : json :=
  match kvs with
  | [] => JStr ""
  | (k', v) :: rest => if bool_decide (k' = k) then JStr v else metadata_get k rest
  end.

Definition _extract_pdf_info (file_path : string) : M (list (string * json)) :=
  match fitz_open env file_path with
  | Returned doc =>
      ret [("page_count", JInt (doc_len doc));
           ("title", metadata_get "title" (doc_metadata doc));
           ("author", metadata_get "author" (doc_metadata doc));
           ("subject", metadata_get "subject" (doc_metadata doc));
           ("creator", metadata_get "creator" (doc_metadata doc));
           ("producer", metadata_get "producer" (doc_metadata doc));
           ("creation_date", metadata_get "creationDate" (doc_metadata doc));
           ("modification_date", metadata_get "modDate" (doc_metadata doc))]
  | Raised e =>
      logger WARNING ("Could not extract PDF info: " +:+ str_exn e);;
      ret []
  end.

(** [len(text)]: the number of code points of a text, which a [string]
    holds in UTF-8. Every byte starts a code point but those of the form
    [10xxxxxx], which continue one. *)
Definition is_continuation_byte (c : Ascii.ascii) : bool :=
  match c with
  | Ascii.Ascii _ _ _ _ _ _ b6 b7 => b7 && negb b6
  end.

Fixpoint len (text : string) : nat :=
  match text with
  | EmptyString => 0
  | String c rest => if is_continuation_byte c then len rest else S (len rest)
  end.

(** [None] has no [strip]; the [AttributeError] is caught like any other. *)
Definition _detect_language (t : option string) : string :=
  match t with
  | Some t =>
      if bool_decide (len (strip env t) < 10)%nat then "unknown"
      else match detect env t with
           | Returned l => l
           | Raised _ => "unknown"
           end
  | None => "unknown"
  end.

(** *** The retrying call *)

(** The body of [for attempt in range(API_RETRY_ATTEMPTS)], over the attempts
    that are left; a loop that ends without returning makes the function
    return [None]. *)
Fixpoint retry_loop (req : Request) (attempts : list nat) : M (option string) :=
  match attempts with
  | [] => ret None
  | attempt :: rest =>
      try_except
        (logger INFO ("Calling Mistral OCR API (attempt " +:+ pretty (attempt + 1)%nat
                      +:+ "/" +:+ pretty API_RETRY_ATTEMPTS +:+ ")");;
         do response <- chat_complete req;
         ret (Some response))
        (fun e =>
           logger ERROR
             (match e with
              | MistralException _ => "Mistral API error (attempt "
              | PyException _ _ => "Unexpected error (attempt "
              end +:+ pretty (attempt + 1)%nat +:+ "): " +:+ str_exn e);;
           if bool_decide (attempt < API_RETRY_ATTEMPTS - 1)%nat then
             asyncio_sleep (API_RETRY_DELAY * Z.of_nat (attempt + 1));;
             retry_loop req rest
           else raise e)
  end.

Definition _call_mistral_ocr_api (file_path : string)
    (options : option (list (string * json))) : M (option string) :=
  let options := options_or_empty options in
  do file_data <- read_bytes file_path;
  let mime_type := guess_type env file_path in
  retry_loop (mkRequest file_data mime_type options) (seq 0 API_RETRY_ATTEMPTS).

(** *** One document *)

(** [mimetypes.guess_type(str(file_path))[0] or "unknown"] *)
Definition mime_or_unknown (mime_type : option string) : string :=
  match mime_type with
  | Some "" | None => "unknown"
  | Some m => m
  end.

(** The [Check cache] block; [Some result] stands for its [return result]. *)
Definition load_cached (file_path cache_path : string) (use_cache : bool)
    : M (option ProcessingResult) :=
  do present <- gets (fun w => bool_decide (is_Some (cache w !! cache_path)));
  if use_cache && present then
    logger INFO ("Loading cached result for: " +:+ file_path);;
    try_except
      (do contents <- read_text cache_path;
       do cached_data <- lift (json_loads env contents);
       do result <- lift (ProcessingResult_kwargs cached_data);
       let result := set_status (VStatus CACHED) result in
       incr_cached;;
       ret (Some result))
      (fun e =>
         logger WARNING ("Failed to load cache: " +:+ str_exn e);;
         ret None)
  else ret None.

(** The [Cache result] block. Opening the file for writing creates or
    truncates it before [json.dumps] is evaluated. *)
Definition store_cached (file_path cache_path : string) (use_cache : bool)
    (result : ProcessingResult) : M unit :=
  if use_cache then
    try_except
      (open_w cache_path;;
       let cache_data := asdict result in
       do encoded <- lift (json_dumps cache_data);
       write_text cache_path encoded;;
       logger INFO ("Cached result for: " +:+ file_path))
      (fun e => logger WARNING ("Failed to cache result: " +:+ str_exn e))
  else ret tt.

(** The rest of [process_file] once the cache has given nothing, from
    [# Create metadata] to the end. [except] sees the [metadata] object as the
    [try] block left it; the block changes it only after the call to the
    service has returned, and nothing after that call raises, so the handler
    gets it as it was built. *)
Definition process_uncached (file_path : string)
    (options : option (list (string * json))) (use_cache : bool)
    (file_hash cache_path : string) : M ProcessingResult :=
  do file_stat <- path_stat file_path;
  let metadata := new_metadata (path_name env file_path) (st_size file_stat)
                    (mime_or_unknown (guess_type env file_path)) file_hash in
  do metadata <-
    (if bool_decide (path_suffix_lower env file_path = ".pdf") then
       do pdf_info <- _extract_pdf_info file_path;
       ret (set_page_count (dict_get_default "page_count" (JInt 0) pdf_info)
                           metadata)
     else ret metadata);
  try_except
    (do extracted_text <- _call_mistral_ocr_api file_path options;
     let detected_language := _detect_language extracted_text in
     let metadata := set_language (Some detected_language) metadata in
     let metadata := set_processing_time (Some (elapsed_seconds env)) metadata in
     let ocr_result := new_ocr_result extracted_text (Some (95 # 100)%Q)
                                      (Some detected_language) in
     let result := mkProcessingResult (VMetadata metadata) (VOCR ocr_result)
                     (VStatus COMPLETED) (VJson JNull)
                     (VJson (JDict (options_or_empty options))) in
     store_cached file_path cache_path use_cache result;;
     incr_successful;;
     incr_total_processed;;
     logger INFO ("Successfully processed: " +:+ file_path +:+ " in "
                  +:+ format_2f env (elapsed_seconds env) +:+ "s");;
     ret result)
    (fun e =>
       logger ERROR ("Failed to process " +:+ file_path +:+ ": " +:+ str_exn e);;
       incr_failed;;
       incr_total_processed;;
       ret (mkProcessingResult (VMetadata metadata)
              (VOCR (new_ocr_result (Some "") None None))
              (VStatus FAILED)
              (VJson (JStr (str_exn e)))
              (VJson (JDict (options_or_empty options))))).

Definition process_file (file_path : string)
    (options : option (list (string * json))) (use_cache : bool)
    : M ProcessingResult :=
  logger INFO ("Processing file: " +:+ file_path);;
  do valid <- _validate_file file_path;
  if negb valid then
    ret (mkProcessingResult
           (VMetadata (new_metadata (path_name env file_path) 0 "unknown" ""))
           (VOCR (new_ocr_result (Some "") None None))
           (VStatus FAILED)
           (VJson (JStr "File validation failed"))
           (VJson (JDict [])))
  else
    do file_hash <- _calculate_file_hash file_path;
    let cache_path := _get_cache_path file_hash in
    do hit <- load_cached file_path cache_path use_cache;
    match hit with
    | Some result => ret result
    | None => process_uncached file_path options use_cache file_hash cache_path
    end.

(** *** Statistics *)

(** The dictionary [get_statistics] returns: the four counters of
    [self.stats] and the two rates. *)
Record Snapshot : Type := mkSnapshot {
  snap_total_processed : Z;
  snap_successful : Z;
  snap_failed : Z;
  snap_cached : Z;
  success_rate : Q;
  cache_hit_rate : Q
}.

(** [a / b] on integers raises [ZeroDivisionError] when [b] is zero; the
    quotient is kept exact, the rounding to a float is not modelled. *)
Definition truediv (a b : Z) : outcome Q :=
  if bool_decide (b = 0) then Raised (PyException "ZeroDivisionError" "division by zero")
  else Returned (inject_Z a / inject_Z b)%Q.

Definition get_statistics : M Snapshot :=
  do s <- gets stats;
  do r1 <- lift (truediv (successful s) (Z.max (total_processed s) 1));
  do r2 <- lift (truediv (cached s) (Z.max (total_processed s) 1));
  ret (mkSnapshot (total_processed s) (successful s) (failed s) (cached s)
                  (r1 * 100)%Q (r2 * 100)%Q).

(** *** A batch of documents

    [process_batch] creates one task per path and awaits them with
    [asyncio.gather]. A task is [process_with_semaphore]: it waits for the
    semaphore, runs the pipeline while it holds it, and releases it. The order
    in which the event loop admits and completes tasks is a parameter, the
    [schedule]; the effects of one pipeline on the shared state are taken to
    happen together, when it completes. *)

Inductive task_state : Type :=
| Waiting
| InFlight
| Done (o : outcome ProcessingResult).

Record Batch : Type := mkBatch {
  tasks : list task_state;
  semaphore : Z;
  world : World
}.

Inductive event : Type :=
| Acquire (i : nat)
| Complete (i : nat).

(** [return await self.process_file(file_path, options)]: [use_cache] is not
    passed and takes its default, [True]. *)
Definition use_cache_default : bool := true.

Definition process_with_semaphore (options : option (list (string * json)))
    (file_path : string) : M ProcessingResult :=
  process_file file_path options use_cache_default.

(** [Acquire i]: task [i] enters [async with semaphore], which needs a
    positive value and decrements it. [Complete i]: the pipeline of task [i]
    ends, by returning or by raising, and the semaphore is released. *)
Definition batch_step (file_paths : list string)
    (options : option (list (string * json))) (ev : event) (b : Batch)
    : option Batch :=
  match ev with
  | Acquire i =>
      match tasks b !! i with
      | Some Waiting =>
          if bool_decide (0 < semaphore b) then
            Some (mkBatch (<[i := InFlight]> (tasks b)) (semaphore b - 1) (world b))
          else None
      | _ => None
      end
  | Complete i =>
      match tasks b !! i, file_paths !! i with
      | Some InFlight, Some file_path =>
          let '(o, w) := process_with_semaphore options file_path (world b) in
          Some (mkBatch (<[i := Done o]> (tasks b)) (semaphore b + 1) w)
      | _, _ => None
      end
  end.

Fixpoint run_schedule (file_paths : list string)
    (options : option (list (string * json))) (schedule : list event) (b : Batch)
    : option Batch :=
  match schedule with
  | [] => Some b
  | ev :: rest =>
      match batch_step file_paths options ev b with
      | Some b' => run_schedule file_paths options rest b'
      | None => None
      end
  end.

(** [asyncio.gather( *tasks, return_exceptions=True)] yields its list once
    every task is done, in the order of the tasks. *)
Fixpoint gather (ts : list task_state) : option (list (outcome ProcessingResult)) :=
  match ts with
  | [] => Some []
  | Done o :: rest =>
      match gather rest with
      | Some os => Some (o :: os)
      | None => None
      end
  | _ :: _ => None
  end.

(** The [Handle exceptions] loop over [enumerate(results)], from index [i]. *)
Fixpoint handle_exceptions (file_paths : list string) (i : nat)
    (results : list (outcome ProcessingResult)) : M (list ProcessingResult) :=
  match results with
  | [] => ret []
  | result :: rest =>
      do r <-
        match result with
        | Raised e =>
            match file_paths !! i with
            | Some file_path =>
                logger ERROR ("Exception processing " +:+ file_path +:+ ": "
                              +:+ str_exn e);;
                ret (mkProcessingResult
                       (VMetadata (new_metadata (path_name env file_path) 0 "unknown" ""))
                       (VOCR (new_ocr_result (Some "") None None))
                       (VStatus FAILED)
                       (VJson (JStr (str_exn e)))
                       (VJson (JDict [])))
            | None => raise (PyException "IndexError" "list index out of range")
            end
        | Returned r => ret r
        end;
      do processed_results <- handle_exceptions file_paths (S i) rest;
      ret (r :: processed_results)
  end.

Definition batch_init (file_paths : list string) (max_concurrent : Z) (w : World)
    : Batch :=
  mkBatch (replicate (length file_paths) Waiting) max_concurrent w.

(** [None]: the schedule is not one the event loop can follow, or it leaves a
    task that is not done, so that [gather] does not return. *)
Definition process_batch (file_paths : list string)
    (options : option (list (string * json))) (max_concurrent : Z)
    (schedule : list event) (w : World)
    : option (outcome (list ProcessingResult) * World) :=
  match logger INFO ("Starting batch processing of "
                     +:+ pretty (length file_paths) +:+ " files") w with
  | (_, w) =>
      if bool_decide (max_concurrent < 0) then
        Some (Raised (PyException "ValueError" "Semaphore initial value must be >= 0"), w)
      else
        match run_schedule file_paths options schedule
                (batch_init file_paths max_concurrent w) with
        | Some b =>
            match gather (tasks b) with
            | Some results =>
                Some ((do processed_results <- handle_exceptions file_paths 0 results;
                       do s <- gets stats;
                       logger INFO ("Batch processing completed. Success: "
                                    +:+ pretty (successful s) +:+ ", Failed: "
                                    +:+ pretty (failed s));;
                       ret processed_results) (world b))
            | None => None
            end
        | None => None
        end
  end.

(** *** The [batch] command of the command line *)

Record BatchArgs : Type := mkBatchArgs {
  arg_directory : string;
  arg_api_key : string;
  arg_max_concurrent : Z;
  arg_no_cache : bool;
  arg_extract_images : bool;
  arg_auto_translate : bool
}.

(** [BrainSAITOCR(api_key)]: the counters of the new instance start at zero;
    the cache directory is kept as it is found. *)
Definition BrainSAITOCR_init : M unit :=
  modify (set_stats (mkStats 0 0 0 0));;
  logger INFO "BrainSAIT OCR initialized successfully".

(** The branch [args.command == "batch"] of [main], up to the results it
    hands to [export_results]; [None] when it returns before processing. *)
Definition main_batch (args : BatchArgs) (schedule : list event) (w : World)
    : option (outcome (option (list ProcessingResult)) * World) :=
  let directory := arg_directory args in
  if negb (dir_exists env directory) then
    Some ((logger ERROR ("Directory not found: " +:+ directory);; ret None) w)
  else
    let file_paths :=
      concat ((fun ext => glob env directory ("*." +:+ ext)) <$> (fst <$> SUPPORTED_FORMATS)) in
    match file_paths with
    | [] => Some ((logger ERROR "No supported files found in directory";; ret None) w)
    | _ =>
        match (logger INFO ("Found " +:+ pretty (length file_paths)
                            +:+ " files to process");;
               BrainSAITOCR_init) w with
        | (_, w) =>
            let options :=
              [("extract_images", JBool (arg_extract_images args));
               ("preserve_formatting", JBool true);
               ("auto_translate", JBool (arg_auto_translate args))] in
            match process_batch file_paths (Some options) (arg_max_concurrent args)
                    schedule w with
            | Some (Returned results, w) => Some (Returned (Some results), w)
            | Some (Raised e, w) => Some (Raised e, w)
            | None => None
            end
        end
    end.

End Backend.

(** ** Vocabulary of the specification *)

(** The invariant of a [ProcessingResult]. *)
Definition text_is_empty (r : ProcessingResult) : Prop :=
  exists o, ocr_result r = VOCR o /\ text o = Some "".

Definition error_is_set (r : ProcessingResult) : Prop :=
  exists msg, error_message r = VJson (JStr msg).

Definition error_is_unset (r : ProcessingResult) : Prop :=
  error_message r = VJson JNull.

Definition result_invariant (r : ProcessingResult) : Prop :=
  (status r = VStatus FAILED -> text_is_empty r /\ error_is_set r) /\
  (status r = VStatus COMPLETED \/ status r = VStatus CACHED -> error_is_unset r).

(** Every entry of the cache directory that can be read back is a result
    without an error message, as a result stored after a successful
    extraction is. *)
Definition cache_entries_ok (env : Env) (c : gmap string string) : Prop :=
  forall k s d r,
    c !! k = Some s -> json_loads env s = Returned d ->
    ProcessingResult_kwargs d = Returned r -> error_is_unset r.

(** [json.loads] rejects the empty document. *)
Definition loads_rejects_empty (env : Env) : Prop :=
  exists e, json_loads env "" = Raised e.

(** The admission policy of [_validate_file], as a predicate on the state. *)
Definition admissible (env : Env) (w : World) (file_path : string) : Prop :=
  exists f, files w !! file_path = Some f /\ st_size f <= 52428800 /\
    (guess_type env file_path = Some "application/pdf" \/
     guess_type env file_path = Some "image/png" \/
     guess_type env file_path = Some "image/jpeg").

(** The three grounds on which [_validate_file] turns a document down. *)
Definition rejected (env : Env) (w : World) (file_path : string) : Prop :=
  files w !! file_path = None \/
  (exists f, files w !! file_path = Some f /\ st_size f > 52428800) \/
  ~ (guess_type env file_path = Some "application/pdf" \/
     guess_type env file_path = Some "image/png" \/
     guess_type env file_path = Some "image/jpeg").

(** No usable entry: caching is off, or there is no entry under the name, or
    the entry cannot be read back as a [ProcessingResult]. *)
Definition cache_miss (env : Env) (use_cache : bool) (c : gmap string string)
    (cache_path : string) : Prop :=
  use_cache = false \/ c !! cache_path = None \/
  exists s e, c !! cache_path = Some s /\
    (json_loads env s = Raised e \/
     exists d, json_loads env s = Returned d /\ ProcessingResult_kwargs d = Raised e).

(** The record [process_file] returns for a document it does not admit. *)
Definition validation_failure (env : Env) (file_path : string) : ProcessingResult :=
  mkProcessingResult
    (VMetadata (new_metadata env (path_name env file_path) 0 "unknown" ""))
    (VOCR (new_ocr_result (Some "") None None))
    (VStatus FAILED) (VJson (JStr "File validation failed")) (VJson (JDict [])).

(** The counters [s], each increased by the given amount. *)
Definition plus_stats (s : Stats) (dt ds df dc : Z) : Stats :=
  mkStats (total_processed s + dt) (successful s + ds) (failed s + df) (cached s + dc).

(** The record [process_batch] puts in the place of a pipeline that raised. *)
Definition as_result (env : Env) (file_path : string)
    (o : outcome ProcessingResult) : ProcessingResult :=
  match o with
  | Returned r => r
  | Raised e =>
      mkProcessingResult
        (VMetadata (new_metadata env (path_name env file_path) 0 "unknown" ""))
        (VOCR (new_ocr_result (Some "") None None))
        (VStatus FAILED) (VJson (JStr (str_exn e))) (VJson (JDict []))
  end.

(** The number of pipelines that hold the semaphore. *)
Fixpoint count_in_flight (ts : list task_state) : Z :=
  match ts with
  | [] => 0
  | InFlight :: rest => 1 + count_in_flight rest
  | _ :: rest => count_in_flight rest
  end.

Definition in_flight (b : Batch) : Z := count_in_flight (tasks b).


(** Two states that differ at most in the cache directory and in the log. *)
Definition same_core (w1 w2 : World) : Prop :=
  files w1 = files w2 /\ stats w1 = stats w2 /\
  api_calls w1 = api_calls w2 /\ sleeps w1 = sleeps w2.

(** A computation that neither reads the cache directory nor the log: run
    in two such states it gives the same outcome and two such states. *)
Definition respects {A} (m : M A) : Prop :=
  forall w1 w2, same_core w1 w2 ->
    fst (m w1) = fst (m w2) /\ same_core (snd (m w1)) (snd (m w2)).

(** A computation that only appends to the log. *)
Definition log_grows {A} (m : M A) : Prop :=
  forall w, exists l, log_records (snd (m w)) = log_records w ++ l.





(** A cache entry with the content [s] holds a result, and [r] is that
    result as the cached branch of [process_file] returns it. *)
Definition read_back (env : Env) (s : string) (r : ProcessingResult) : Prop :=
  exists d r0,
    json_loads env s = Returned d /\ ProcessingResult_kwargs d = Returned r0 /\
    r = set_status (VStatus CACHED) r0.

(** [s] is the content of an entry of the cache directory [c]. *)
Definition entry_of (c : gmap string string) (s : string) : Prop :=
  exists name, c !! name = Some s.

(** What holds of a result whatever the cache directory holds: a failed
    result has the empty text and an error message, a completed result has no
    error message, and a cached result is an entry as it is read back, with
    the error message the entry holds; [stored] says which entries. *)
Definition result_invariant_of (env : Env) (stored : string -> Prop)
    (r : ProcessingResult) : Prop :=
  (status r = VStatus FAILED -> text_is_empty r /\ error_is_set r) /\
  (status r = VStatus COMPLETED -> error_is_unset r) /\
  (status r = VStatus CACHED -> exists s, stored s /\ read_back env s r).




(** One document after the other: a schedule the event loop can follow as
    soon as the semaphore admits one task. *)
Fixpoint sequential_schedule (first count : nat) : list event :=
  match count with
  | O => []
  | S count' => Acquire first :: Complete first :: sequential_schedule (S first) count'
  end.

(** ** Concrete collaborators and states for the examples *)

Module Demo.

Definition guess (p : string) : option string :=
  if bool_decide (p = "scan.pdf") then Some "application/pdf"
  else if bool_decide (p = "folder.pdf") then Some "application/pdf"
  else if bool_decide (p = "photo.png") then Some "image/png"
  else if bool_decide (p = "notes.docx") then Some "application/msword"
  else None.

Definition stored : json :=
  JDict [("metadata", JDict [("file_name", JStr "scan.pdf")]);
         ("ocr_result", JDict [("text", JStr "Hello")]);
         ("status", JStr "completed")].

(** [folder.pdf] is a directory; the other paths that cannot be read do
    not exist. *)
Definition os_error (p : string) : exn :=
  if bool_decide (p = "folder.pdf") then
    PyException "IsADirectoryError" "[Errno 21] Is a directory: 'folder.pdf'"
  else
    PyException "FileNotFoundError"
                ("[Errno 2] No such file or directory: '" +:+ p +:+ "'").

(** An entry that holds a result with an error message, as a result that
    failed is encoded. *)
Definition stored_failure : json :=
  JDict [("metadata", JDict [("file_name", JStr "scan.pdf")]);
         ("ocr_result", JDict [("text", JStr "")]);
         ("status", JStr "failed");
         ("error_message", JStr "boom")].

Definition loads (s : string) : outcome json :=
  if bool_decide (s = "<stored>") then Returned stored
  else if bool_decide (s = "<stored failure>") then Returned stored_failure
  else Raised (PyException "JSONDecodeError" "Expecting value").

Definition env (cl : nat -> Request -> outcome string) : Env :=
  mkEnv (fun data => "sha256:" +:+ data) guess (fun p => p)
        (fun p => if bool_decide (p = "scan.pdf") then ".pdf" else "")
        (fun _ => Returned (mkPdfDoc 2 []))
        (fun _ => Returned "en") (fun t => t) loads (fun _ => "<encoded>")
        cl "2025-01-01T00:00:00" 1%Q (fun _ => "1.00")
        (fun _ => true)
        (fun _ pattern => if bool_decide (pattern = "*.pdf") then ["scan.pdf"] else [])
        os_error.

(** A service that answers, and one that is down. *)
Definition up : nat -> Request -> outcome string :=
  fun _ _ => Returned "Hello world, this is text".

Definition down : nat -> Request -> outcome string :=
  fun n _ => Raised (MistralException ("service unavailable " +:+ pretty n)).

Definition documents : gmap string File :=
  {[ "scan.pdf" := mkFile 5 (Some "%PDF-");
     "photo.png" := mkFile 4 (Some "PNG!");
     "folder.pdf" := mkFile 4096 None;
     "notes.docx" := mkFile 3 (Some "doc") ]}.

Definition w0 : World := mkWorld documents ∅ (mkStats 0 0 0 0) 0 [] [].

(** The same, with an entry for [scan.pdf] in the cache directory. *)
Definition w_cached : World :=
  mkWorld documents {[ "sha256:%PDF-.json" := "<stored>" ]} (mkStats 0 0 0 0) 0 [] [].

(** The same, with an entry that holds a failed result. *)
Definition w_cached_failure : World :=
  mkWorld documents {[ "sha256:%PDF-.json" := "<stored failure>" ]} (mkStats 0 0 0 0)
          0 [] [].

Definition w_corrupt : World :=
  mkWorld documents {[ "sha256:%PDF-.json" := "{ not json" ]} (mkStats 0 0 0 0) 0 [] [].

(** What the constructor makes of [stored]. *)
Definition stored_result : ProcessingResult :=
  mkProcessingResult (VJson (JDict [("file_name", JStr "scan.pdf")]))
                     (VJson (JDict [("text", JStr "Hello")]))
                     (VJson (JStr "completed")) (VJson JNull) (VJson (JDict [])).

Definition inbox : list string := ["scan.pdf"; "folder.pdf"; "notes.docx"].

(** Two pipelines admitted, a third one waiting. *)
Definition at_the_cap : Batch := mkBatch [InFlight; InFlight; Waiting] 0 w0.

Definition args (no_cache : bool) : BatchArgs :=
  mkBatchArgs "inbox" "key" 3 no_cache false false.

End Demo.

(** ** Reports

    [export_results] and the three report generators, [_format_file_size],
    and what they make of the attributes of a result: a report reads
    [result.metadata.file_name], [result.status.value] and
    [result.ocr_result.text], which exist only when the attribute holds a
    dataclass instance or a member of [ProcessingStatus]. *)

(** [class OutputFormat(Enum)] *)
Inductive OutputFormat : Type :=
| JSON | MARKDOWN | TXT | HTML.

(** How Python renders values, and the output directory: [f"{x:.1f}"];
    [str(v)] for a value that is not a string; the text of the path
    [self.output_dir / output_file]; and the exception [open(path, "w")]
    raises on it, if it raises one (a directory that does not exist, a path
    that is a directory, a permission that is missing). *)
Record Formatting : Type := mkFormatting {
  format_1f : Q -> string;
  py_str : value -> string;
  output_path : string -> string;
  write_error : string -> option exn
}.

Definition newline : string := String (Ascii.ascii_of_nat 10) EmptyString.

(** The text [s] with each tilde turned into a double quote, to write the
    markup of the HTML report, which has no tilde of its own. *)
Fixpoint quoted (s : string) : string :=
  match s with
  | EmptyString => EmptyString
  | String c rest =>
      String (if Ascii.eqb c (Ascii.ascii_of_nat 126) then Ascii.ascii_of_nat 34 else c)
             (quoted rest)
  end.

(** [s * n] *)
Fixpoint str_mul (s : string) (n : nat) : string :=
  match n with
  | O => ""
  | S n' => s +:+ str_mul s n'
  end.

Definition status_eqb (s1 s2 : ProcessingStatus) : bool :=
  match s1, s2 with
  | PENDING, PENDING | PROCESSING, PROCESSING | COMPLETED, COMPLETED
  | FAILED, FAILED | CACHED, CACHED => true
  | _, _ => false
  end.

(** [status.value] *)
Definition status_value (s : ProcessingStatus) : string :=
  match s with
  | PENDING => "pending"
  | PROCESSING => "processing"
  | COMPLETED => "completed"
  | FAILED => "failed"
  | CACHED => "cached"
  end.

(** [status.value.title()] *)
Definition status_title (s : ProcessingStatus) : string :=
  match s with
  | PENDING => "Pending"
  | PROCESSING => "Processing"
  | COMPLETED => "Completed"
  | FAILED => "Failed"
  | CACHED => "Cached"
  end.

(** [s.replace('_', '-')] *)
Fixpoint replace_underscore (s : string) : string :=
  match s with
  | EmptyString => EmptyString
  | String c rest =>
      String (if Ascii.eqb c (Ascii.ascii_of_nat 95) then Ascii.ascii_of_nat 45 else c)
             (replace_underscore rest)
  end.

(** The truth value of plain data. *)
Definition truthy (j : json) : bool :=
  match j with
  | JNull => false
  | JBool b => b
  | JInt n => negb (bool_decide (n = 0))
  | JFloat q => negb (Qeq_bool q 0)
  | JStr s => negb (bool_decide (s = ""))
  | JList xs => match xs with [] => false | _ :: _ => true end
  | JDict kvs => match kvs with [] => false | _ :: _ => true end
  end.

(** The truth value of an attribute; an object is true. *)
Definition value_truthy (v : value) : bool :=
  match v with
  | VJson j => truthy j
  | _ => true
  end.

Definition attribute_error (attribute : string) : exn :=
  PyException "AttributeError" ("object has no attribute " +:+ attribute).

(** [result.status == st] *)
Definition status_is (st : ProcessingStatus) (r : ProcessingResult) : bool :=
  match status r with
  | VStatus s => status_eqb s st
  | _ => false
  end.

(** [len([r for r in results if r.status == st])] *)
Definition count_status (st : ProcessingStatus) (results : list ProcessingResult) : nat :=
  length (List.filter (status_is st) results).

(** ["\n".join(lines)], which raises on an item that is [None]. *)
Fixpoint all_strings (lines : list (option string)) : option (list string) :=
  match lines with
  | [] => Some []
  | None :: _ => None
  | Some l :: rest =>
      match all_strings rest with
      | Some ls => Some (l :: ls)
      | None => None
      end
  end.

Definition join_lines (lines : list (option string)) : outcome string :=
  match all_strings lines with
  | Some ls => Returned (String.concat newline ls)
  | None =>
      Raised (PyException "TypeError" "sequence item: expected str instance, NoneType found")
  end.

Section Reports.

Context (env : Env) (fmt : Formatting).

(** How an f-string renders an attribute. *)
Definition fstr (v : value) : string :=
  match v with
  | VJson (JStr s) => s
  | _ => py_str fmt v
  end.

(** [metadata.language or 'Unknown'] and [metadata.processing_time or 0] *)
Definition language_or_unknown (m : DocumentMetadata) : string :=
  match language m with
  | Some "" | None => "Unknown"
  | Some l => l
  end.

Definition processing_time_or_zero (m : DocumentMetadata) : Q :=
  match processing_time m with
  | Some t => if Qeq_bool t 0 then 0%Q else t
  | None => 0%Q
  end.

Definition size_names : list string := ["B"; "KB"; "MB"; "GB"].

(** The [while] loop of [_format_file_size]; it stops by itself when [i]
    reaches the last name, within [length size_names] turns. *)
Fixpoint scale_size (turns : nat) (size_bytes : Q) (i : nat) : Q * nat :=
  match turns with
  | O => (size_bytes, i)
  | S turns' =>
      if Qle_bool 1024 size_bytes && bool_decide (i < length size_names - 1)%nat then
        scale_size turns' (size_bytes / 1024)%Q (S i)
      else (size_bytes, i)
  end.

Definition _format_file_size (size_bytes : Z) : string :=
  if bool_decide (size_bytes = 0) then "0 B"
  else
    let '(scaled, i) := scale_size (length size_names) (inject_Z size_bytes) 0 in
    format_1f fmt scaled +:+ " " +:+ default "" (size_names !! i).

(** The five lines every report has for a document, after its title line:
    they read [metadata] and [status] in this order. *)
Definition document_attributes (result : ProcessingResult)
    : outcome (DocumentMetadata * ProcessingStatus) :=
  match metadata result with
  | VMetadata m =>
      match status result with
      | VStatus s => Returned (m, s)
      | _ => Raised (attribute_error "value")
      end
  | _ => Raised (attribute_error "file_name")
  end.

(** [result.ocr_result.text] *)
Definition extracted_text (result : ProcessingResult) : outcome (option string) :=
  match ocr_result result with
  | VOCR o => Returned (text o)
  | _ => Raised (attribute_error "text")
  end.

(** The lines [_generate_markdown_report] adds for the [i]-th document. *)
Definition markdown_document (i : nat) (result : ProcessingResult)
    : outcome (list (option string)) :=
  match document_attributes result with
  | Raised e => Raised e
  | Returned (m, s) =>
      let lines :=
        [Some ("## Document " +:+ pretty i +:+ ": " +:+ file_name m);
         Some ("**Status:** " +:+ status_value s);
         Some ("**File Size:** " +:+ _format_file_size (file_size m));
         Some ("**Language:** " +:+ language_or_unknown m);
         Some ("**Processing Time:** "
               +:+ format_2f env (processing_time_or_zero m) +:+ "s");
         Some ""] in
      if status_is COMPLETED result then
        match extracted_text result with
        | Returned t =>
            Returned (lines ++ [Some "### Extracted Content"; Some ""; t; Some ""]
                            ++ [Some "---"; Some ""])
        | Raised e => Raised e
        end
      else if value_truthy (error_message result) then
        Returned (lines ++ [Some ("**Error:** " +:+ fstr (error_message result)); Some ""]
                        ++ [Some "---"; Some ""])
      else Returned (lines ++ [Some "---"; Some ""])
  end.

Definition text_document (i : nat) (result : ProcessingResult)
    : outcome (list (option string)) :=
  match document_attributes result with
  | Raised e => Raised e
  | Returned (m, s) =>
      let lines :=
        [Some ("Document " +:+ pretty i +:+ ": " +:+ file_name m);
         Some ("Status: " +:+ status_value s);
         Some ("File Size: " +:+ _format_file_size (file_size m));
         Some ("Language: " +:+ language_or_unknown m);
         Some ("Processing Time: "
               +:+ format_2f env (processing_time_or_zero m) +:+ "s");
         Some ""] in
      if status_is COMPLETED result then
        match extracted_text result with
        | Returned t =>
            Returned (lines ++ [Some "Extracted Content:"; Some (str_mul "-" 20); t; Some ""]
                            ++ [Some (str_mul "-" 40); Some ""])
        | Raised e => Raised e
        end
      else if value_truthy (error_message result) then
        Returned (lines ++ [Some ("Error: " +:+ fstr (error_message result)); Some ""]
                        ++ [Some (str_mul "-" 40); Some ""])
      else Returned (lines ++ [Some (str_mul "-" 40); Some ""])
  end.

(** [for i, result in enumerate(results, i)] over one of the two. *)
Fixpoint document_lines
    (document : nat -> ProcessingResult -> outcome (list (option string)))
    (i : nat) (results : list ProcessingResult) : outcome (list (option string)) :=
  match results with
  | [] => Returned []
  | result :: rest =>
      match document i result with
      | Raised e => Raised e
      | Returned lines =>
          match document_lines document (S i) rest with
          | Raised e => Raised e
          | Returned more => Returned (lines ++ more)
          end
      end
  end.

Definition _generate_markdown_report (results : list ProcessingResult)
    (timestamp : string) : outcome string :=
  let lines :=
    [Some "# BrainSAIT OCR Processing Report";
     Some ("**Generated:** " +:+ timestamp);
     Some ("**Total Files:** " +:+ pretty (length results));
     Some ("**Successful:** " +:+ pretty (count_status COMPLETED results));
     Some ("**Failed:** " +:+ pretty (count_status FAILED results));
     Some ""; Some "---"; Some ""] in
  match document_lines markdown_document 1 results with
  | Raised e => Raised e
  | Returned more => join_lines (lines ++ more)
  end.

Definition _generate_text_report (results : list ProcessingResult)
    (timestamp : string) : outcome string :=
  let lines :=
    [Some "BrainSAIT OCR Processing Report";
     Some (str_mul "=" 40);
     Some ("Generated: " +:+ timestamp);
     Some ("Total Files: " +:+ pretty (length results));
     Some ("Successful: " +:+ pretty (count_status COMPLETED results));
     Some ("Failed: " +:+ pretty (count_status FAILED results));
     Some ""; Some (str_mul "-" 40); Some ""] in
  match document_lines text_document 1 results with
  | Raised e => Raised e
  | Returned more => join_lines (lines ++ more)
  end.

(** The markup of [_generate_html_report], piece by piece. *)
Definition html_head (timestamp total successful failed rate : string) : string :=
  quoted "<!DOCTYPE html>
<html lang=~ar~ dir=~rtl~>
<head>
    <meta charset=~UTF-8~>
    <meta name=~viewport~ content=~width=device-width, initial-scale=1.0~>
    <title>BrainSAIT OCR Report</title>
    <style>
        body { font-family: 'Segoe UI', Arial, sans-serif; margin: 20px; background: #f5f5f5; }
        .container { max-width: 1200px; margin: 0 auto; background: white; padding: 30px; border-radius: 10px; box-shadow: 0 2px 10px rgba(0,0,0,0.1); }
        .header { text-align: center; border-bottom: 2px solid #667eea; padding-bottom: 20px; margin-bottom: 30px; }
        .stats { display: grid; grid-template-columns: repeat(auto-fit, minmax(200px, 1fr)); gap: 20px; margin-bottom: 30px; }
        .stat-card { background: linear-gradient(135deg, #667eea 0%, #764ba2 100%); color: white; padding: 20px; border-radius: 10px; text-align: center; }
        .document { border: 1px solid #ddd; border-radius: 8px; margin-bottom: 20px; overflow: hidden; }
        .doc-header { background: #f8f9fa; padding: 15px; border-bottom: 1px solid #ddd; }
        .doc-content { padding: 20px; }
        .status-completed { color: #28a745; font-weight: bold; }
        .status-failed { color: #dc3545; font-weight: bold; }
        .status-cached { color: #17a2b8; font-weight: bold; }
        .extracted-text { background: #f8f9fa; padding: 15px; border-radius: 5px; white-space: pre-wrap; max-height: 300px; overflow-y: auto; }
        .metadata { display: grid; grid-template-columns: repeat(auto-fit, minmax(200px, 1fr)); gap: 10px; margin-bottom: 15px; }
        .meta-item { background: #e9ecef; padding: 10px; border-radius: 5px; }
    </style>
</head>
<body>
    <div class=~container~>
        <div class=~header~>
            <h1>🧠 BrainSAIT OCR Processing Report</h1>
            <p>Generated: "
  +:+ timestamp
  +:+ quoted "</p>
        </div>
        
        <div class=~stats~>
            <div class=~stat-card~>
                <h3>Total Files</h3>
                <h2>"
  +:+ total
  +:+ quoted "</h2>
            </div>
            <div class=~stat-card~>
                <h3>Successful</h3>
                <h2>"
  +:+ successful
  +:+ quoted "</h2>
            </div>
            <div class=~stat-card~>
                <h3>Failed</h3>
                <h2>"
  +:+ failed
  +:+ quoted "</h2>
            </div>
            <div class=~stat-card~>
                <h3>Success Rate</h3>
                <h2>"
  +:+ rate
  +:+ quoted "%</h2>
            </div>
        </div>
        
        <div class=~documents~>".

Definition html_document
    (i file_name status_class status_title file_size language processing_time : string)
    : string :=
  quoted "
            <div class=~document~>
                <div class=~doc-header~>
                    <h3>Document "
  +:+ i
  +:+ ": "
  +:+ file_name
  +:+ quoted "</h3>
                    <div class=~metadata~>
                        <div class=~meta-item~>
                            <strong>Status:</strong> <span class=~"
  +:+ status_class
  +:+ quoted "~>"
  +:+ status_title
  +:+ quoted "</span>
                        </div>
                        <div class=~meta-item~>
                            <strong>File Size:</strong> "
  +:+ file_size
  +:+ quoted "
                        </div>
                        <div class=~meta-item~>
                            <strong>Language:</strong> "
  +:+ language
  +:+ quoted "
                        </div>
                        <div class=~meta-item~>
                            <strong>Processing Time:</strong> "
  +:+ processing_time
  +:+ quoted "s
                        </div>
                    </div>
                </div>
                <div class=~doc-content~>".

Definition html_completed (extracted : string) : string :=
  quoted "
                    <h4>Extracted Content:</h4>
                    <div class=~extracted-text~>"
  +:+ extracted
  +:+ "</div>".

Definition html_error (message : string) : string :=
  quoted "
                    <div style=~color: #dc3545;~>
                        <strong>Error:</strong> "
  +:+ message
  +:+ "
                    </div>".

Definition html_document_end : string :=
  "
                </div>
            </div>".

Definition html_end : string :=
  "
        </div>
    </div>
</body>
</html>".

(** What [_generate_html_report] appends for the [i]-th document. An f-string
    renders a text that is [None] as the word None. *)
Definition html_document_block (i : nat) (result : ProcessingResult) : outcome string :=
  match status result with
  | VStatus s =>
      let status_class := "status-" +:+ replace_underscore (status_value s) in
      match metadata result with
      | VMetadata m =>
          let block :=
            html_document (pretty i) (file_name m) status_class (status_title s)
              (_format_file_size (file_size m)) (language_or_unknown m)
              (format_2f env (processing_time_or_zero m)) in
          if status_is COMPLETED result then
            match extracted_text result with
            | Returned t =>
                Returned (block +:+ html_completed (default "None" t)
                                +:+ html_document_end)
            | Raised e => Raised e
            end
          else if value_truthy (error_message result) then
            Returned (block +:+ html_error (fstr (error_message result))
                            +:+ html_document_end)
          else Returned (block +:+ html_document_end)
      | _ => Raised (attribute_error "file_name")
      end
  | _ => Raised (attribute_error "value")
  end.

Fixpoint html_documents (i : nat) (results : list ProcessingResult) : outcome string :=
  match results with
  | [] => Returned ""
  | result :: rest =>
      match html_document_block i result with
      | Raised e => Raised e
      | Returned block =>
          match html_documents (S i) rest with
          | Raised e => Raised e
          | Returned more => Returned (block +:+ more)
          end
      end
  end.

Definition _generate_html_report (results : list ProcessingResult)
    (timestamp : string) : outcome string :=
  let successful_count := count_status COMPLETED results in
  let failed_count := count_status FAILED results in
  match truediv (Z.of_nat successful_count) (Z.of_nat (length results)) with
  | Raised e => Raised e
  | Returned rate =>
      let html :=
        html_head timestamp (pretty (length results)) (pretty successful_count)
                  (pretty failed_count) (format_1f fmt (rate * 100)%Q) in
      match html_documents 1 results with
      | Raised e => Raised e
      | Returned blocks => Returned (html +:+ blocks +:+ html_end)
      end
  end.

(** [json.dumps] of the list [asdict(result) for result in results]. *)
Fixpoint encode_results (results : list ProcessingResult) : outcome (list json) :=
  match results with
  | [] => Returned []
  | result :: rest =>
      match encodable (asdict result) with
      | Raised e => Raised e
      | Returned fields =>
          match encode_results rest with
          | Raised e => Raised e
          | Returned js => Returned (JDict fields :: js)
          end
      end
  end.

(** The text [export_results] builds, before it saves it. The parameter
    is a member of [OutputFormat], so that the final [else] is not taken. *)
Definition export_content (results : list ProcessingResult)
    (output_format : OutputFormat) : outcome string :=
  let timestamp := now_isoformat env in
  match output_format with
  | JSON =>
      match encode_results results with
      | Raised e => Raised e
      | Returned encoded =>
          Returned (json_encode env (JDict
            [("timestamp", JStr timestamp);
             ("total_files", JInt (Z.of_nat (length results)));
             ("successful", JInt (Z.of_nat (count_status COMPLETED results)));
             ("failed", JInt (Z.of_nat (count_status FAILED results)));
             ("results", JList encoded)]))
      end
  | MARKDOWN => _generate_markdown_report results timestamp
  | TXT => _generate_text_report results timestamp
  | HTML => _generate_html_report results timestamp
  end.

(** [export_results]; [outputs] is the output directory, the text of each
    file keyed by its name. The content is built before the file is opened,
    and the record is logged once the file is written. *)
Definition export_results (results : list ProcessingResult)
    (output_format : OutputFormat) (output_file : option string)
    (outputs : gmap string string) (w : World)
    : outcome string * gmap string string * World :=
  match export_content results output_format with
  | Raised e => (Raised e, outputs, w)
  | Returned content =>
      match output_file with
      | Some name =>
          if bool_decide (name = "") then (Returned content, outputs, w)
          else
            match write_error fmt name with
            | Some e => (Raised e, outputs, w)
            | None =>
                (Returned content, <[name := content]> outputs,
                 snd (logger INFO ("Results exported to: "
                                   +:+ output_path fmt name) w))
            end
      | None => (Returned content, outputs, w)
      end
  end.

End Reports.

(** ** Vocabulary of the reports *)

(** A result whose [metadata] is not an instance of [DocumentMetadata], as
    a result read back from the cache is. *)
Definition raw_metadata (r : ProcessingResult) : Prop :=
  forall m, metadata r <> VMetadata m.

(** A result a report can render: [metadata] and [status] hold what the
    dataclass declares, and a completed result holds its text. *)
Definition exportable (r : ProcessingResult) : Prop :=
  exists m s, metadata r = VMetadata m /\ status r = VStatus s /\
    (s = COMPLETED -> exists o t, ocr_result r = VOCR o /\ text o = Some t).

Definition is_attribute_error (e : exn) : Prop :=
  exists attribute, e = attribute_error attribute.

Definition is_type_error (e : exn) : Prop :=
  exists msg, e = PyException "TypeError" msg.

(** A result whose [status] is not a member of [ProcessingStatus]. *)
Definition status_not_member (r : ProcessingResult) : Prop :=
  forall s, status r <> VStatus s.

(** What a computation returns, when it returns, satisfies [P]. *)
Definition returns {A} (m : M A) (P : A -> Prop) : Prop :=
  forall w a w', m w = (Returned a, w') -> P a.

(** A result as the [Check cache] block of [process_file] builds it. *)
Definition served_from_cache (r : ProcessingResult) : Prop :=
  exists d r0, ProcessingResult_kwargs d = Returned r0 /\
    r = set_status (VStatus CACHED) r0.

(** ** Collaborators for the examples of the reports *)

Module DemoReport.

Definition one_decimal (q : Q) : string :=
  pretty (Qnum q * 10 / Z.pos (Qden q) / 10) +:+ "."
  +:+ pretty (Qnum q * 10 / Z.pos (Qden q) mod 10).

(** The output directory [output], in which [missing/] does not exist. *)
Definition write_error (name : string) : option exn :=
  if String.prefix "missing/" name then
    Some (PyException "FileNotFoundError"
            ("[Errno 2] No such file or directory: 'output/" +:+ name +:+ "'"))
  else None.

Definition fmt : Formatting :=
  mkFormatting one_decimal (fun _ => "<object>") (fun name => "output/" +:+ name)
               write_error.

(** A document that is not admitted, one that is extracted, and one that
    is served from the cache directory. *)
Definition turned_down : ProcessingResult :=
  validation_failure (Demo.env Demo.up) "missing.pdf".

Definition extracted : outcome ProcessingResult :=
  fst (process_file (Demo.env Demo.up) "scan.pdf" None true Demo.w0).

Definition served : ProcessingResult :=
  set_status (VStatus CACHED) Demo.stored_result.

End DemoReport.

(** ** The system prompt, the digest, the cache and the command line

    The parts of the backend around the pipeline: [_build_system_prompt],
    the loop of [_calculate_file_hash] over the chunks of a file,
    [clear_cache], and the commands [process], [batch], [clear-cache] and
    [stats] of [main]. *)

(** *** [_build_system_prompt] *)

Definition base_prompt : string :=
  "You are an advanced OCR system specialized in multilingual document processing, particularly Arabic and English text. Your task is to extract and structure text from documents with high accuracy.

Instructions:
1. Extract ALL text from the document, maintaining original structure and formatting
2. Preserve headers, paragraphs, lists, and table structures
3. For Arabic text: Pay special attention to diacritics, right-to-left reading direction, and proper character recognition
4. For mixed-language documents: Clearly identify and separate different language sections
5. Output the result in clean, well-structured Markdown format
6. If images are present, provide brief descriptions of their content".

Definition _build_system_prompt (options : list (string * json)) : string :=
  let base_prompt := base_prompt in
  let base_prompt :=
    if truthy (dict_get_default "extract_images" (JBool false) options) then
      base_prompt +:+ newline
        +:+ "7. Extract and describe any images, charts, diagrams, or visual elements"
    else base_prompt in
  let base_prompt :=
    if truthy (dict_get_default "preserve_formatting" (JBool true) options) then
      base_prompt +:+ newline
        +:+ "8. Maintain original document formatting as much as possible in Markdown"
    else base_prompt in
  let base_prompt :=
    if truthy (dict_get_default "extract_tables" (JBool true) options) then
      base_prompt +:+ newline
        +:+ "9. Convert any tables to proper Markdown table format"
    else base_prompt in
  let base_prompt :=
    if truthy (dict_get_default "auto_translate" (JBool false) options) then
      base_prompt +:+ newline
        +:+ "10. If requested, provide English translation alongside Arabic text"
    else base_prompt in
  base_prompt +:+ newline +:+ newline
    +:+ "Be extremely accurate with Arabic text recognition and maintain the document's original meaning and structure.".

(** The four switches the prompt is built from, each with the default
    [options.get] gives it. *)
Definition prompt_switches (options : list (string * json))
    : bool * bool * bool * bool :=
  (truthy (dict_get_default "extract_images" (JBool false) options),
   truthy (dict_get_default "preserve_formatting" (JBool true) options),
   truthy (dict_get_default "extract_tables" (JBool true) options),
   truthy (dict_get_default "auto_translate" (JBool false) options)).

(** *** The loop of [_calculate_file_hash] *)

(** A [hashlib] object: [hashlib.sha256()], [update] and [hexdigest]. *)
Record Hashlib : Type := mkHashlib {
  hash_object : Type;
  sha256 : hash_object;
  update : hash_object -> string -> hash_object;
  hexdigest : hash_object -> string
}.

Definition chunk_size : nat := 4096.

(** [f.read(n)] on the part of the file that is not read yet: the bytes it
    returns, [n] of them or fewer at the end of the file, and what is left. *)
Fixpoint file_read (n : nat) (unread : string) : string * string :=
  match n, unread with
  | S n', String c rest =>
      let '(chunk, rest') := file_read n' rest in (String c chunk, rest')
  | _, _ => ("", unread)
  end.

(** [for chunk in iter(lambda: f.read(4096), b""): sha256_hash.update(chunk)],
    for [turns] turns at most. *)
Fixpoint hash_chunks (h : Hashlib) (turns : nat) (unread : string)
    (sha256_hash : hash_object h) : hash_object h :=
  match turns with
  | O => sha256_hash
  | S turns' =>
      let '(chunk, rest) := file_read chunk_size unread in
      if bool_decide (chunk = "") then sha256_hash
      else hash_chunks h turns' rest (update h sha256_hash chunk)
  end.

(** [_calculate_file_hash] as it is written, chunk by chunk. The loop ends
    when [read] returns no byte, within one turn per byte and one more. *)
Definition _calculate_file_hash_chunks (env : Env) (h : Hashlib)
    (file_path : string) : M string :=
  do data <- read_bytes env file_path;
  ret (hexdigest h (hash_chunks h (S (String.length data)) data (sha256 h))).

(** The chunks a hash object has been fed, one after the other. *)
Definition fed (h : Hashlib) (chunks : list string) : hash_object h :=
  foldl (update h) (sha256 h) chunks.

(** The law of [hashlib]: feeding chunks one by one is feeding their
    concatenation at once. *)
Definition hashlib_law (env : Env) (h : Hashlib) : Prop :=
  forall chunks,
    hexdigest h (fed h chunks) = sha256_hexdigest env (foldr String.app "" chunks).

(** *** [clear_cache] *)

(** [fnmatch(name, "*.json")] *)
Definition matches_json (name : string) : bool :=
  bool_decide (5 <= String.length name)%nat &&
  bool_decide (String.substring (String.length name - 5) 5 name = ".json").

(** What the cache directory is besides the text of its files: the time
    each entry was last modified; the entries that are directories; the
    exception [unlink] raises on an entry, if it raises one
    ([IsADirectoryError] on a directory, [PermissionError] where the
    directory cannot be written); and the order in which the directory lists
    the entries it holds. The pipeline sees the files only: [process_file]
    is modelled on a cache directory in which no directory bears the name
    [<digest>.json] of an entry. *)
Record CacheDir : Type := mkCacheDir {
  st_mtime : string -> Q;
  subdirectories : list string;
  unlink_error : string -> option exn;
  scandir : list string -> list string
}.

(** [self.cache_dir.glob("*.json")]: the files and the directories whose
    name matches, in the order the directory lists its entries. *)
Definition glob_json (d : CacheDir) (c : gmap string string) : list string :=
  filter (fun name => matches_json name = true)
         (scandir d ((map_to_list c).*1 ++ subdirectories d)).

(** [cache_file.unlink()] *)
Definition unlink (d : CacheDir) (cache_file : string) : M unit :=
  match unlink_error d cache_file with
  | Some e => raise e
  | None => modify (fun w => set_cache (delete cache_file (cache w)) w)
  end.

(** [a < b] on numbers kept exact. *)
Definition Qlt_bool (a b : Q) : bool := negb (Qle_bool b a).

(** The loop of [clear_cache] over the entries that are left. *)
Fixpoint clear_loop (d : CacheDir) (cutoff_time : Q)
    (entries : list string) (removed_count : Z) : M Z :=
  match entries with
  | [] => ret removed_count
  | cache_file :: rest =>
      if Qlt_bool (st_mtime d cache_file) cutoff_time then
        unlink d cache_file;;
        clear_loop d cutoff_time rest (removed_count + 1)
      else clear_loop d cutoff_time rest removed_count
  end.

Definition cutoff (current_time : Q) (days : Z) : Q :=
  (current_time - inject_Z (days * 24 * 60 * 60))%Q.

Definition clear_cache (d : CacheDir) (current_time : Q)
    (older_than_days : Z) : M Z :=
  let cutoff_time := cutoff current_time older_than_days in
  do entries <- gets (fun w => glob_json d (cache w));
  do removed_count <- clear_loop d cutoff_time entries 0;
  logger INFO ("Removed " +:+ pretty removed_count +:+ " cache files older than "
               +:+ pretty older_than_days +:+ " days");;
  ret removed_count.

(** An entry [clear_cache] goes for: its name matches and it was last
    modified before the cut-off. *)
Definition stale (d : CacheDir) (current_time : Q) (days : Z)
    (name : string) : bool :=
  matches_json name && Qlt_bool (st_mtime d name) (cutoff current_time days).

(** A stale entry of the directory that [unlink] cannot remove. *)
Definition blocked (d : CacheDir) (current_time : Q) (days : Z)
    (c : gmap string string) (name : string) : Prop :=
  (is_Some (c !! name) \/ name ∈ subdirectories d) /\
  stale d current_time days name = true /\ is_Some (unlink_error d name).

(** A cache directory as a file system keeps it: it lists every entry
    once, in some order; a directory is not a file, and [unlink] does not
    remove it. *)
Definition cache_dir_ok (d : CacheDir) (c : gmap string string) : Prop :=
  (forall l, scandir d l ≡ₚ l) /\ NoDup (subdirectories d) /\
  forall name, name ∈ subdirectories d ->
    c !! name = None /\ is_Some (unlink_error d name).

(** *** The commands of [main] *)

Section Commands.

Context (env : Env) (fmt : Formatting).

(** What a command leaves behind: the output directory, the texts it
    printed, and the state. *)
Record Console : Type := mkConsole {
  outputs : gmap string string;
  printed : list string;
  state : World
}.

(** [not args.output] *)
Definition no_output (output : option string) : bool :=
  match output with
  | Some name => bool_decide (name = "")
  | None => true
  end.

Record ProcessArgs : Type := mkProcessArgs {
  parg_file : string;
  parg_output : option string;
  parg_format : OutputFormat;
  parg_no_cache : bool;
  parg_extract_images : bool;
  parg_auto_translate : bool
}.

(** The branch [args.command == "process"]. *)
Definition main_process (args : ProcessArgs) (out : gmap string string) (w : World)
    : outcome unit * Console :=
  let options :=
    [("extract_images", JBool (parg_extract_images args));
     ("preserve_formatting", JBool true);
     ("auto_translate", JBool (parg_auto_translate args))] in
  match (BrainSAITOCR_init;;
         process_file env (parg_file args) (Some options)
                      (negb (parg_no_cache args))) w with
  | (Raised e, w) => (Raised e, mkConsole out [] w)
  | (Returned result, w) =>
      match export_results env fmt [result] (parg_format args) (parg_output args)
                           out w with
      | (Raised e, out, w) => (Raised e, mkConsole out [] w)
      | (Returned content, out, w) =>
          let lines := if no_output (parg_output args) then [content] else [] in
          match (do stats <- get_statistics;
                 logger INFO ("Processing completed. Success rate: "
                              +:+ format_1f fmt (success_rate stats) +:+ "%")) w with
          | (o, w) => (o, mkConsole out lines w)
          end
      end
  end.

(** The end of the branch [args.command == "batch"], from [# Export
    results], given what [main_batch] hands over. *)
Definition main_batch_export (results : list ProcessingResult)
    (output_format : OutputFormat) (output : option string)
    (out : gmap string string) (w : World) : outcome unit * Console :=
  match export_results env fmt results output_format output out w with
  | (Raised e, out, w) => (Raised e, mkConsole out [] w)
  | (Returned content, out, w) =>
      let lines := if no_output output then [content] else [] in
      match (do stats <- get_statistics;
             logger INFO ("Batch processing completed. Success rate: "
                          +:+ format_1f fmt (success_rate stats) +:+ "%")) w with
      | (o, w) => (o, mkConsole out lines w)
      end
  end.

(** The format the parser of [batch] gives when [--format] is left out. *)
Definition batch_default_format : OutputFormat := JSON.

(** What [parse_args] returns: the attributes of the namespace. *)
Definition Namespace : Type := list (string * json).

Definition getattr (args : Namespace) (name : string) : outcome json :=
  match dict_get name args with
  | Some v => Returned v
  | None => Raised (attribute_error name)
  end.

(** The namespace of [clear-cache --days n]: the [dest] of the sub-commands
    and [days], the one argument its parser declares. *)
Definition parse_clear_cache (days : Z) : Namespace :=
  [("command", JStr "clear-cache"); ("days", JInt days)].

Definition as_int (j : json) : outcome Z :=
  match j with
  | JInt n => Returned n
  | _ => Raised (PyException "TypeError" "unsupported operand type")
  end.

(** The branch [args.command == "clear-cache"]. *)
Definition main_clear_cache (d : CacheDir) (current_time : Q)
    (args : Namespace) : M unit :=
  do api_key <- lift (getattr args "api_key");
  if truthy api_key then
    BrainSAITOCR_init;;
    do days <- lift (getattr args "days");
    do days <- lift (as_int days);
    do removed_count <- clear_cache d current_time days;
    ret tt
  else if dir_exists env "ocr_cache" then
    do days <- lift (getattr args "days");
    do days <- lift (as_int days);
    let cutoff_time := cutoff current_time days in
    do entries <- gets (fun w => glob_json d (cache w));
    do removed_count <- clear_loop d cutoff_time entries 0;
    logger INFO ("Removed " +:+ pretty removed_count +:+ " cache files")
  else logger INFO "No cache directory found".

(** The branch [args.command == "stats"]; the title line is left out of
    the texts printed. *)
Definition main_stats (api_key : option string) (w : World)
    : outcome unit * Console :=
  if negb (no_output api_key) then
    match (BrainSAITOCR_init;; get_statistics) w with
    | (Raised e, w) => (Raised e, mkConsole ∅ [] w)
    | (Returned stats, w) =>
        (Returned tt,
         mkConsole ∅
           [str_mul "=" 30;
            "Total Processed: " +:+ pretty (snap_total_processed stats);
            "Successful: " +:+ pretty (snap_successful stats);
            "Failed: " +:+ pretty (snap_failed stats);
            "Cached: " +:+ pretty (snap_cached stats);
            "Success Rate: " +:+ format_1f fmt (success_rate stats) +:+ "%";
            "Cache Hit Rate: " +:+ format_1f fmt (cache_hit_rate stats) +:+ "%"]
           w)
    end
  else
    match logger INFO "API key required for detailed statistics" w with
    | (o, w) => (o, mkConsole ∅ [] w)
    end.

End Commands.

(** ** Vocabulary of the counters and of a batch *)

(** The counters as the pipeline keeps them: every document counted in
    [total_processed] is counted as successful or as failed, and no counter
    is negative. *)
Definition stats_consistent (s : Stats) : Prop :=
  total_processed s = successful s + failed s /\
  0 <= successful s /\ 0 <= failed s /\ 0 <= cached s.

Definition stats_le (s1 s2 : Stats) : Prop :=
  total_processed s1 <= total_processed s2 /\ successful s1 <= successful s2 /\
  failed s1 <= failed s2 /\ cached s1 <= cached s2.

(** The tasks of a batch that are done with a result of the given status. *)
Definition returned_with (st : ProcessingStatus) (t : task_state) : bool :=
  match t with
  | Done (Returned r) => status_is st r
  | _ => false
  end.

Definition is_done (t : task_state) : bool :=
  match t with
  | Done _ => true
  | _ => false
  end.

Definition count_tasks (f : task_state -> bool) (ts : list task_state) : Z :=
  Z.of_nat (length (List.filter f ts)).

(** A result whose [status] is a member of [ProcessingStatus]. *)
Definition status_member (r : ProcessingResult) : Prop :=
  exists s, status r = VStatus s.

(** The books of a batch: what the counters, the number of calls, the
    documents and the cache directory are after any number of steps, in
    terms of the tasks that are done. *)
Definition books (w : World) (b : Batch) : Prop :=
  let s0 := stats w in
  let s := stats (world b) in
  successful s = successful s0 + count_tasks (returned_with COMPLETED) (tasks b) /\
  cached s = cached s0 + count_tasks (returned_with CACHED) (tasks b) /\
  failed s0 <= failed s <= failed s0 + count_tasks (returned_with FAILED) (tasks b) /\
  total_processed s - total_processed s0
    = (successful s - successful s0) + (failed s - failed s0) /\
  total_processed s - total_processed s0
    <= Z.of_nat (api_calls (world b)) - Z.of_nat (api_calls w)
    <= 3 * (total_processed s - total_processed s0) /\
  files (world b) = files w /\
  forall name,
    cache (world b) !! name = cache w !! name \/ cache (world b) !! name = Some "".



(** ** Collaborators for the examples of the commands *)

Module DemoCommand.

(** The arguments of [process scan.pdf], with the format given. *)
Definition process_args (output_format : OutputFormat) (no_cache : bool) : ProcessArgs :=
  mkProcessArgs "scan.pdf" None output_format no_cache false false.

(** The pipeline as the [process] command runs it on a new instance. *)
Definition command_run (w : World) : outcome ProcessingResult * World :=
  (BrainSAITOCR_init;;
   process_file (Demo.env Demo.up) "scan.pdf"
     (Some [("extract_images", JBool false); ("preserve_formatting", JBool true);
            ("auto_translate", JBool false)])
     true) w.

Definition result_of (o : outcome ProcessingResult) : ProcessingResult :=
  match o with
  | Returned r => r
  | Raised _ => DemoReport.turned_down
  end.

(** A batch of three documents, and the [batch] command on a directory
    with one. *)
Definition batch_run : option (outcome (list ProcessingResult) * World) :=
  process_batch (Demo.env Demo.up) Demo.inbox None 2 (sequential_schedule 0 3) Demo.w0.

Definition batch_results : list ProcessingResult :=
  match batch_run with
  | Some (Returned rs, _) => rs
  | _ => []
  end.

Definition batch_world : World :=
  match batch_run with
  | Some (_, w) => w
  | None => Demo.w0
  end.

Definition command_batch : option (outcome (option (list ProcessingResult)) * World) :=
  main_batch (Demo.env Demo.up) (Demo.args false) [Acquire 0; Complete 0]%nat Demo.w0.

Definition command_results : list ProcessingResult :=
  match command_batch with
  | Some (Returned (Some rs), _) => rs
  | _ => []
  end.

Definition command_world : World :=
  match command_batch with
  | Some (_, w) => w
  | None => Demo.w0
  end.

(** A cache directory whose entries were all last modified at time 0:
    one that holds files only, and one in which [shard.json] is a
    directory. *)
Definition cache_dir : CacheDir :=
  mkCacheDir (fun _ => 0%Q) [] (fun _ => None) (fun entries => entries).


(** A hash object that keeps what it is fed, for the digest of [Demo.env]. *)
Definition hasher : Hashlib :=
  mkHashlib string "" (fun fed chunk => fed +:+ chunk) (fun fed => "sha256:" +:+ fed).

End DemoCommand.

(** ** Properties *)

Section Properties.

Context (env : Env).

Ltac run :=
  unfold bind, ret, raise, lift, gets, modify, try_except, logger, asyncio_sleep,
         chat_complete, incr_total_processed, incr_successful, incr_failed,
         incr_cached, set_stats, set_cache in *;
  simpl in *.

(** *** The admission check *)

Lemma supported_mime_spec (mime_type : option string) :
  supported_mime mime_type = true <->
  (mime_type = Some "application/pdf" \/ mime_type = Some "image/png" \/
   mime_type = Some "image/jpeg").
Proof.
  destruct mime_type as [m|]; simpl.
  - rewrite bool_decide_eq_true, !elem_of_cons, elem_of_nil.
    split.
    + intros [-> | [-> | [-> | [-> | []]]]]; auto.
    + intros [[= ->] | [[= ->] | [= ->]]]; auto.
  - split; [discriminate | intros [H | [H | H]]; discriminate].
Qed.

Lemma validate_file_run (file_path : string) (w : World) :
  exists b w',
    _validate_file env file_path w = (Returned b, w') /\
    (b = true <-> admissible env w file_path) /\
    files w' = files w /\ cache w' = cache w /\ stats w' = stats w /\
    api_calls w' = api_calls w /\ sleeps w' = sleeps w /\
    (b = true -> w' = w) /\
    (b = false -> exists msg, log_records w' = (log_records w ++ [(ERROR, msg)])%list).
Proof.
  unfold _validate_file, admissible. run.
  destruct (files w !! file_path) as [f|] eqn:Hf; simpl.
  - case_bool_decide as Hsize; simpl.
    + eexists _, _. split; [reflexivity|]. repeat split; try discriminate; eauto.
      intros (f' & [= <-] & Hle & _). unfold MAX_FILE_SIZE in Hsize. lia.
    + destruct (supported_mime (guess_type env file_path)) eqn:Hmime; simpl.
      * eexists _, _. split; [reflexivity|]. repeat split; try discriminate; eauto.
        intros _. exists f. split; [done|]. split.
        -- unfold MAX_FILE_SIZE in Hsize. lia.
        -- by apply supported_mime_spec.
      * eexists _, _. split; [reflexivity|]. repeat split; try discriminate; eauto.
        intros (f' & _ & _ & Hm). apply supported_mime_spec in Hm. congruence.
  - eexists _, _. split; [reflexivity|]. repeat split; try discriminate; eauto.
    intros (f' & [=] & _).
Qed.

Lemma rejected_spec (file_path : string) (w : World) :
  rejected env w file_path <-> ~ admissible env w file_path.
Proof.
  unfold rejected, admissible. split.
  - intros [Hnone | [(f & Hf & Hsize) | Hmime]] (f' & Hf' & Hle & Hm).
    + congruence.
    + simplify_eq. lia.
    + done.
  - intros Hn. destruct (files w !! file_path) as [f|] eqn:Hf; [|by left].
    right. destruct (decide (st_size f > 52428800)) as [Hgt|Hle]; [left; eauto|].
    right. intros Hm. apply Hn. exists f. repeat split; [lia | done].
Qed.

(** C6, as amended. [_validate_file] always returns; it returns [False]
    exactly when the file does not exist, or is larger than 52428800 bytes, or
    its guessed MIME type is none of application/pdf, image/png, image/jpeg,
    and [True] otherwise. It leaves the documents, the cache directory, the
    counters and the service untouched; a rejection appends one ERROR record
    to the log, an admission changes nothing at all. *)
Theorem validate_file_spec (file_path : string) (w : World) :
  exists b w',
    _validate_file env file_path w = (Returned b, w') /\
    (b = false <-> rejected env w file_path) /\
    (b = true <-> ~ rejected env w file_path) /\
    files w' = files w /\ cache w' = cache w /\ stats w' = stats w /\
    api_calls w' = api_calls w /\ sleeps w' = sleeps w /\
    (b = true -> w' = w) /\
    (b = false -> exists msg, log_records w' = (log_records w ++ [(ERROR, msg)])%list).
Proof.
  destruct (validate_file_run file_path w)
    as (b & w' & Hrun & Hb & Hf & Hc & Hs & Ha & Hsl & Hsame & Hlog).
  exists b, w'. split; [done|].
  pose proof (rejected_spec file_path w) as Hrej.
  split; [|split; [|repeat (split; [assumption|]); assumption]].
  - rewrite Hrej. destruct b; split; try done.
    + intros Hn. exfalso. apply Hn. by apply Hb.
    + intros _ Had. apply Hb in Had. discriminate.
  - rewrite Hrej. destruct b; split; try done.
    + intros _ Hn. apply Hn. by apply Hb.
    + intros Hn. exfalso. apply Hn. intros Had. apply Hb in Had. discriminate.
Qed.

(** *** The retrying call *)

Lemma read_bytes_run (file_path : string) (w : World) (f : File) (data : string) :
  files w !! file_path = Some f -> content f = Some data ->
  read_bytes env file_path w = (Returned data, w).
Proof.
  intros Hf Hd. unfold read_bytes, path_stat. run. rewrite Hf. simpl. by rewrite Hd.
Qed.

(** C2. Given a readable document, [_call_mistral_ocr_api] calls the service
    at least once and at most three times and never ends without a result or
    an exception. It stops at the first call that succeeds; before the second
    call it sleeps [API_RETRY_DELAY * 1] seconds and before the third
    [API_RETRY_DELAY * 2] seconds; when the three calls fail it has called
    the service exactly three times, has slept 2 and then 4 seconds, and
    raises the exception of the third call. *)
Theorem call_api_retry_policy (file_path : string)
    (options : option (list (string * json))) (w : World) (f : File) (data : string) :
  files w !! file_path = Some f -> content f = Some data ->
  let req := mkRequest data (guess_type env file_path) (options_or_empty options) in
  let o := fst (_call_mistral_ocr_api env file_path options w) in
  let w' := snd (_call_mistral_ocr_api env file_path options w) in
  (api_calls w < api_calls w' <= api_calls w + 3)%nat /\
  o <> Returned None /\
  (forall t, client env (api_calls w) req = Returned t ->
     o = Returned (Some t) /\ api_calls w' = (api_calls w + 1)%nat /\
     sleeps w' = sleeps w) /\
  (forall e1 t, client env (api_calls w) req = Raised e1 ->
     client env (S (api_calls w)) req = Returned t ->
     o = Returned (Some t) /\ api_calls w' = (api_calls w + 2)%nat /\
     sleeps w' = (sleeps w ++ [API_RETRY_DELAY * 1])%list) /\
  (forall e1 e2 t, client env (api_calls w) req = Raised e1 ->
     client env (S (api_calls w)) req = Raised e2 ->
     client env (S (S (api_calls w))) req = Returned t ->
     o = Returned (Some t) /\ api_calls w' = (api_calls w + 3)%nat /\
     sleeps w' = (sleeps w ++ [API_RETRY_DELAY * 1; API_RETRY_DELAY * 2])%list) /\
  (forall e1 e2 e3, client env (api_calls w) req = Raised e1 ->
     client env (S (api_calls w)) req = Raised e2 ->
     client env (S (S (api_calls w))) req = Raised e3 ->
     o = Raised e3 /\ api_calls w' = (api_calls w + 3)%nat /\
     sleeps w' = (sleeps w ++ [2; 4])%list).
Proof.
  intros Hf Hd req o w'. subst o w'.
  unfold _call_mistral_ocr_api, bind.
  rewrite (read_bytes_run _ _ _ _ Hf Hd). fold req.
  change (seq 0 API_RETRY_ATTEMPTS) with [0; 1; 2]%nat.
  unfold retry_loop. run.
  destruct (client env (api_calls w) req) as [t1|x1] eqn:H1; simpl.
  { repeat split; try lia; try congruence; intros; simplify_eq; auto with lia. }
  destruct (client env (S (api_calls w)) req) as [t2|x2] eqn:H2; simpl.
  { repeat split; try lia; try congruence; intros; simplify_eq; auto with lia. }
  destruct (client env (S (S (api_calls w))) req) as [t3|x3] eqn:H3; simpl.
  { rewrite <- app_assoc.
    repeat split; try lia; try congruence; intros; simplify_eq; auto with lia. }
  rewrite <- app_assoc.
  repeat split; try lia; try congruence; intros; simplify_eq; auto with lia.
Qed.

(** The retrying call touches neither the documents, nor the cache directory,
    nor the counters, whatever the service answers. *)
Lemma call_api_frame (file_path : string)
    (options : option (list (string * json))) (w : World) :
  let o := fst (_call_mistral_ocr_api env file_path options w) in
  let w' := snd (_call_mistral_ocr_api env file_path options w) in
  files w' = files w /\ cache w' = cache w /\ stats w' = stats w /\
  (api_calls w <= api_calls w' <= api_calls w + 3)%nat /\
  o <> Returned None.
Proof.
  unfold _call_mistral_ocr_api, read_bytes, path_stat.
  change (seq 0 API_RETRY_ATTEMPTS) with [0; 1; 2]%nat.
  unfold retry_loop. run.
  destruct (files w !! file_path) as [f|]; simpl; [|repeat split; (lia || done)].
  destruct (content f) as [data|]; simpl; [|repeat split; (lia || done)].
  repeat (match goal with
          | |- context [client env ?n ?r] => destruct (client env n r); simpl
          end);
    repeat split; (lia || done).
Qed.

Lemma call_api_once (file_path : string)
    (options : option (list (string * json))) (w : World) (f : File) (data : string) :
  files w !! file_path = Some f -> content f = Some data ->
  (api_calls w < api_calls (snd (_call_mistral_ocr_api env file_path options w)))%nat.
Proof.
  intros Hf Hd. unfold _call_mistral_ocr_api, bind.
  rewrite (read_bytes_run _ _ _ _ Hf Hd).
  change (seq 0 API_RETRY_ATTEMPTS) with [0; 1; 2]%nat.
  unfold retry_loop. run.
  repeat (match goal with
          | |- context [client env ?n ?r] => destruct (client env n r); simpl
          end); lia.
Qed.

(** *** The cache blocks of [process_file] *)

Lemma load_cached_run (file_path cache_path : string) (use_cache : bool) (w : World) :
  exists hit w1,
    load_cached env file_path cache_path use_cache w = (Returned hit, w1) /\
    files w1 = files w /\ cache w1 = cache w /\ api_calls w1 = api_calls w /\
    sleeps w1 = sleeps w /\
    match hit with
    | Some result =>
        use_cache = true /\
        (exists s d r0, cache w !! cache_path = Some s /\
           json_loads env s = Returned d /\
           ProcessingResult_kwargs d = Returned r0 /\
           result = set_status (VStatus CACHED) r0) /\
        stats w1 = mkStats (total_processed (stats w)) (successful (stats w))
                           (failed (stats w)) (cached (stats w) + 1)
    | None =>
        stats w1 = stats w /\
        (use_cache = false /\ w1 = w \/
         cache w !! cache_path = None /\ w1 = w \/
         use_cache = true /\
         exists s e, cache w !! cache_path = Some s /\
           (json_loads env s = Raised e \/
            exists d, json_loads env s = Returned d /\
              ProcessingResult_kwargs d = Raised e) /\
           log_records w1 =
             (log_records w ++
                [(INFO, "Loading cached result for: " +:+ file_path);
                 (WARNING, "Failed to load cache: " +:+ str_exn e)])%list)
    end.
Proof.
  unfold load_cached, read_text. run.
  destruct use_cache; simpl.
  2: { exists None, w. repeat split; auto. }
  destruct (cache w !! cache_path) as [s|] eqn:Hc; simpl.
  2: { exists None, w. repeat split; auto. }
  rewrite Hc. simpl.
  destruct (json_loads env s) as [d|e] eqn:Hl; simpl.
  2: { eexists None, _. split; [reflexivity|]. repeat split; auto.
       right. right. split; [done|]. exists s, e. rewrite <- app_assoc. eauto. }
  destruct (ProcessingResult_kwargs d) as [r0|e] eqn:Hk; simpl.
  - eexists (Some _), _. split; [reflexivity|]. repeat split; eauto 10.
  - eexists None, _. split; [reflexivity|]. repeat split; auto.
    right. right. split; [done|]. exists s, e. rewrite <- app_assoc. eauto 10.
Qed.

(** A result whose [status] is a member of [ProcessingStatus] has no JSON
    encoding. *)
Lemma json_dumps_status (r : ProcessingResult) (st : ProcessingStatus) :
  status r = VStatus st ->
  exists e, json_dumps env (asdict r) = Raised e.
Proof.
  intros Hst. unfold json_dumps, asdict. rewrite Hst. simpl.
  destruct (asdict_value (metadata r)); simpl; eauto.
  destruct (asdict_value (ocr_result r)); simpl; eauto.
Qed.

Lemma store_cached_run (file_path cache_path : string) (use_cache : bool)
    (r : ProcessingResult) (st : ProcessingStatus) (w : World) :
  status r = VStatus st ->
  exists w',
    store_cached env file_path cache_path use_cache r w = (Returned tt, w') /\
    files w' = files w /\ stats w' = stats w /\ api_calls w' = api_calls w /\
    sleeps w' = sleeps w /\
    cache w' = if use_cache then <[cache_path := ""]> (cache w) else cache w.
Proof.
  intros Hst. unfold store_cached, open_w, write_text.
  destruct use_cache; run; [|by exists w].
  destruct (json_dumps_status r st Hst) as [e ->]. simpl.
  eexists. split; [reflexivity|]. by repeat split.
Qed.

(** *** One document, branch by branch *)

Lemma admissible_files (w1 w2 : World) (file_path : string) :
  files w1 = files w2 -> admissible env w1 file_path -> admissible env w2 file_path.
Proof. unfold admissible. by intros ->. Qed.

Lemma calculate_file_hash_run (file_path : string) (w : World) (f : File) :
  files w !! file_path = Some f ->
  _calculate_file_hash env file_path w =
    match content f with
    | Some data => (Returned (sha256_hexdigest env data), w)
    | None => (Raised (os_error env file_path), w)
    end.
Proof.
  intros Hf. unfold _calculate_file_hash, read_bytes, path_stat. run.
  rewrite Hf. simpl. by destruct (content f).
Qed.

Lemma extract_pdf_info_run (file_path : string) (w : World) :
  exists info w',
    _extract_pdf_info env file_path w = (Returned info, w') /\
    files w' = files w /\ cache w' = cache w /\ stats w' = stats w /\
    api_calls w' = api_calls w /\ sleeps w' = sleeps w.
Proof.
  unfold _extract_pdf_info. destruct (fitz_open env file_path); run.
  - by eexists _, w.
  - eexists _, _. split; [reflexivity|]. by repeat split.
Qed.

Lemma process_file_cases (file_path : string)
    (options : option (list (string * json))) (use_cache : bool) (w : World) :
  exists o w',
    process_file env file_path options use_cache w = (o, w') /\
    files w' = files w /\
    ((~ admissible env w file_path /\
      o = Returned (validation_failure env file_path) /\
      stats w' = stats w /\ cache w' = cache w /\ api_calls w' = api_calls w)
     \/
     (admissible env w file_path /\
      exists f, files w !! file_path = Some f /\
        ((content f = None /\ o = Raised (os_error env file_path) /\
          stats w' = stats w /\ cache w' = cache w /\ api_calls w' = api_calls w)
         \/
         exists data, content f = Some data /\
           let cache_path := _get_cache_path (sha256_hexdigest env data) in
           ((use_cache = true /\
             exists s d r0, cache w !! cache_path = Some s /\
               json_loads env s = Returned d /\
               ProcessingResult_kwargs d = Returned r0 /\
               o = Returned (set_status (VStatus CACHED) r0) /\
               stats w' = plus_stats (stats w) 0 0 0 1 /\
               cache w' = cache w /\ api_calls w' = api_calls w)
            \/
            (cache_miss env use_cache (cache w) cache_path /\
             ((exists m ocr,
                 o = Returned (mkProcessingResult (VMetadata m) (VOCR ocr)
                        (VStatus COMPLETED) (VJson JNull)
                        (VJson (JDict (options_or_empty options)))) /\
                 file_name m = path_name env file_path /\
                 stats w' = plus_stats (stats w) 1 1 0 0 /\
                 cache w' = (if use_cache then <[cache_path := ""]> (cache w)
                             else cache w) /\
                 (api_calls w < api_calls w' <= api_calls w + 3)%nat)
              \/
              (exists m e,
                 o = Returned (mkProcessingResult (VMetadata m)
                        (VOCR (new_ocr_result (Some "") None None))
                        (VStatus FAILED) (VJson (JStr (str_exn e)))
                        (VJson (JDict (options_or_empty options)))) /\
                 file_name m = path_name env file_path /\
                 stats w' = plus_stats (stats w) 1 0 1 0 /\
                 cache w' = cache w /\
                 (api_calls w < api_calls w' <= api_calls w + 3)%nat))))))).
Proof.
  unfold process_file. run.
  match goal with
  | |- context [_validate_file env file_path ?W] =>
      destruct (validate_file_run file_path W)
        as (b & w1 & Hrun & Hb & Hf1 & Hc1 & Hs1 & Ha1 & Hsl1 & _ & _)
  end.
  rewrite Hrun. simpl in *.
  destruct b; simpl.
  2: { eexists _, _. split; [reflexivity|]. split; [done|]. left.
       split; [|by repeat split].
       intros Had. eapply admissible_files in Had; [apply Hb in Had; discriminate|done]. }
  assert (Had : admissible env w file_path).
  { eapply admissible_files; [|by apply Hb]. done. }
  destruct Had as (f & Hf & Hrest).
  assert (Hf' : files w1 !! file_path = Some f) by (by rewrite Hf1).
  rewrite (calculate_file_hash_run _ _ _ Hf').
  destruct (content f) as [data|] eqn:Hdata.
  2: { eexists _, _. split; [reflexivity|]. split; [done|]. right.
       split; [by exists f|]. exists f. split; [done|]. left. by repeat split. }
  simpl.
  match goal with
  | |- context [load_cached env file_path ?cp use_cache ?W] =>
      destruct (load_cached_run file_path cp use_cache W)
        as (hit & w2 & Hload & Hf2 & Hc2 & Ha2 & Hsl2 & Hhit)
  end.
  rewrite Hload. simpl.
  destruct hit as [result|].
  { destruct Hhit as (-> & (s & d & r0 & Hs & Hd & Hk & ->) & Hst).
    eexists _, _. split; [reflexivity|]. split; [congruence|]. right.
    split; [by exists f|]. exists f. split; [done|]. right.
    exists data. split; [done|]. left. split; [done|].
    exists s, d, r0. rewrite <- Hc1. repeat split; try congruence.
    rewrite Hst, <- Hs1. unfold plus_stats. f_equal; lia. }
  destruct Hhit as (Hst2 & Hmiss).
  assert (Hmiss' : cache_miss env use_cache (cache w)
                     (_get_cache_path (sha256_hexdigest env data))).
  { unfold cache_miss. rewrite <- Hc1.
    destruct Hmiss as [[? _] | [[? _] | (_ & s & e & ? & ? & _)]]; eauto 10. }
  clear Hmiss.
  assert (Hfw2 : files w2 !! file_path = Some f) by (by rewrite Hf2).
  unfold process_uncached, path_stat. run. rewrite Hfw2. simpl.
  match goal with
  | |- context [?X] =>
      match X with
      | (if bool_decide _ then _ else _) w2 =>
          assert (Hmeta : exists m w3,
                    X = (Returned m, w3) /\
                    file_name m = path_name env file_path /\
                    files w3 = files w2 /\ cache w3 = cache w2 /\
                    stats w3 = stats w2 /\ api_calls w3 = api_calls w2)
      end
  end.
  { case_bool_decide.
    - destruct (extract_pdf_info_run file_path w2)
        as (info & w3 & Hinfo & ? & ? & ? & ? & ?).
      rewrite Hinfo. eexists _, _. split; [reflexivity|]. by repeat split.
    - eexists _, _. split; [reflexivity|]. by repeat split. }
  destruct Hmeta as (m & w3 & -> & Hname & Hf3 & Hc3 & Hs3 & Ha3).
  assert (Hfw3 : files w3 !! file_path = Some f) by (by rewrite Hf3).
  pose proof (call_api_frame file_path options w3) as Hframe.
  pose proof (call_api_once file_path options w3 f data Hfw3 Hdata) as Honce.
  destruct (_call_mistral_ocr_api env file_path options w3) as [oapi w4].
  simpl in Hframe, Honce.
  destruct Hframe as (Hf4 & Hc4 & Hs4 & Ha4 & Hnone).
  destruct oapi as [t|e]; simpl.
  - match goal with
    | |- context [store_cached env file_path ?cp use_cache ?r w4] =>
        destruct (store_cached_run file_path cp use_cache r COMPLETED w4 eq_refl)
          as (w5 & Hstore & Hf5 & Hs5 & Ha5 & Hsl5 & Hc5)
    end.
    rewrite Hstore. simpl.
    eexists _, _. split; [reflexivity|]. simpl. split; [congruence|]. right.
    split; [by exists f|]. exists f. split; [done|]. right.
    exists data. split; [done|]. right. split; [done|]. left.
    eexists _, _. split; [reflexivity|]. split; [done|].
    split; [|split].
    + rewrite Hs5, Hs4, Hs3, Hst2, Hs1. unfold plus_stats. f_equal; lia.
    + rewrite Hc5, Hc4, Hc3, Hc2, Hc1. done.
    + lia.
  - eexists _, _. split; [reflexivity|]. simpl. split; [congruence|]. right.
    split; [by exists f|]. exists f. split; [done|]. right.
    exists data. split; [done|]. right. split; [done|]. right.
    exists m, e. split; [reflexivity|]. split; [done|].
    split; [|split].
    + rewrite Hs4, Hs3, Hst2, Hs1. unfold plus_stats. f_equal; lia.
    + congruence.
    + lia.
Qed.

(** *** The steps of a batch *)

Lemma batch_step_acquire (file_paths : list string)
    (options : option (list (string * json))) (i : nat) (b b' : Batch) :
  batch_step env file_paths options (Acquire i) b = Some b' ->
  tasks b !! i = Some Waiting /\ 0 < semaphore b /\
  b' = mkBatch (<[i := InFlight]> (tasks b)) (semaphore b - 1) (world b).
Proof.
  simpl. destruct (tasks b !! i) as [[| |o]|]; try discriminate.
  case_bool_decide; [|discriminate]. by intros [= <-].
Qed.

Lemma batch_step_complete (file_paths : list string)
    (options : option (list (string * json))) (i : nat) (b b' : Batch) :
  batch_step env file_paths options (Complete i) b = Some b' ->
  tasks b !! i = Some InFlight /\
  exists file_path, file_paths !! i = Some file_path /\
    b' = mkBatch
           (<[i := Done (fst (process_file env file_path options true (world b)))]>
              (tasks b))
           (semaphore b + 1)
           (snd (process_file env file_path options true (world b))).
Proof.
  simpl. destruct (tasks b !! i) as [[| |o]|]; try discriminate.
  destruct (file_paths !! i) as [file_path|]; [|discriminate].
  unfold process_with_semaphore, use_cache_default.
  intros Hstep. split; [done|]. exists file_path. split; [done|].
  destruct (process_file env file_path options true (world b)) as [o w'].
  by injection Hstep as <-.
Qed.

(** A property that holds at the start of a batch and is kept by every step
    holds wherever a schedule leads. *)
Lemma run_schedule_invariant (P : Batch -> Prop) (file_paths : list string)
    (options : option (list (string * json))) :
  (forall ev b b', P b -> batch_step env file_paths options ev b = Some b' -> P b') ->
  forall schedule b b',
    P b -> run_schedule env file_paths options schedule b = Some b' -> P b'.
Proof.
  intros Hstep schedule. induction schedule as [|ev rest IH]; intros b b' HP; simpl.
  - by intros [= <-].
  - destruct (batch_step env file_paths options ev b) as [b1|] eqn:Hev; [|discriminate].
    apply IH. by eapply Hstep.
Qed.

Lemma count_in_flight_nonneg (ts : list task_state) : 0 <= count_in_flight ts.
Proof. induction ts as [|[| |o] ts IH]; simpl; lia. Qed.

Lemma count_in_flight_insert (ts : list task_state) (i : nat) (t t' : task_state) :
  ts !! i = Some t ->
  count_in_flight (<[i := t']> ts) =
    count_in_flight ts - count_in_flight [t] + count_in_flight [t'].
Proof.
  revert i. induction ts as [|x ts IH]; intros [|i]; simpl; try discriminate.
  - intros [= ->]. destruct t, t'; simpl; lia.
  - intros Hi. specialize (IH i Hi). simpl in IH.
    destruct x; simpl; rewrite IH; lia.
Qed.

(** The semaphore and the pipelines in flight always add up to the cap. *)
Lemma semaphore_invariant (file_paths : list string)
    (options : option (list (string * json))) (max_concurrent : Z)
    (schedule : list event) (w : World) (b : Batch) :
  run_schedule env file_paths options schedule
    (batch_init file_paths max_concurrent w) = Some b ->
  semaphore b + in_flight b = max_concurrent /\
  (0 <= max_concurrent -> 0 <= semaphore b) /\
  length (tasks b) = length file_paths.
Proof.
  apply (run_schedule_invariant
           (fun b => semaphore b + in_flight b = max_concurrent /\
                     (0 <= max_concurrent -> 0 <= semaphore b) /\
                     length (tasks b) = length file_paths)).
  - intros [i|i] b0 b1 (Hsum & Hpos & Hlen) Hstep.
    + apply batch_step_acquire in Hstep as (Hi & Hsem & ->).
      unfold in_flight in *. simpl.
      rewrite (count_in_flight_insert _ _ _ _ Hi), length_insert. simpl.
      repeat split; lia.
    + apply batch_step_complete in Hstep as (Hi & fp & Hfp & ->).
      unfold in_flight in *. simpl.
      rewrite (count_in_flight_insert _ _ _ _ Hi), length_insert. simpl.
      repeat split; lia.
  - unfold batch_init, in_flight. simpl. rewrite length_replicate.
    repeat split; try lia.
    induction (length file_paths) as [|n IH]; simpl; lia.
Qed.

(** C10. In a batch started with a cap [max_concurrent >= 0], wherever the
    event loop stands, the number of pipelines in flight is at most
    [max_concurrent]; a waiting task is admitted only while fewer than
    [max_concurrent] pipelines are in flight, so that at the cap every
    admission is refused; an admission starts no work on the shared state,
    and it is the completion of a pipeline that frees a slot. *)
Theorem concurrency_bound (file_paths : list string)
    (options : option (list (string * json))) (max_concurrent : Z)
    (schedule : list event) (w : World) (b : Batch) :
  0 <= max_concurrent ->
  run_schedule env file_paths options schedule
    (batch_init file_paths max_concurrent w) = Some b ->
  0 <= in_flight b <= max_concurrent /\
  (in_flight b = max_concurrent ->
   forall i, batch_step env file_paths options (Acquire i) b = None) /\
  (forall i b', batch_step env file_paths options (Acquire i) b = Some b' ->
     in_flight b < max_concurrent /\ in_flight b' = in_flight b + 1 /\
     world b' = world b) /\
  (forall i b', batch_step env file_paths options (Complete i) b = Some b' ->
     in_flight b' = in_flight b - 1).
Proof.
  intros Hmax Hrun.
  destruct (semaphore_invariant _ _ _ _ _ _ Hrun) as (Hsum & Hpos & Hlen).
  specialize (Hpos Hmax).
  pose proof (count_in_flight_nonneg (tasks b)) as Hnn. fold (in_flight b) in Hnn.
  split; [lia|]. split; [|split].
  - intros Hfull i.
    destruct (batch_step env file_paths options (Acquire i) b) as [b'|] eqn:Hstep; [|done].
    apply batch_step_acquire in Hstep as (_ & Hsem & _). lia.
  - intros i b' Hstep.
    apply batch_step_acquire in Hstep as (Hi & Hsem & ->).
    unfold in_flight in *. simpl.
    rewrite (count_in_flight_insert _ _ _ _ Hi). simpl. repeat split; lia.
  - intros i b' Hstep.
    apply batch_step_complete in Hstep as (Hi & fp & _ & ->).
    unfold in_flight in *. simpl.
    rewrite (count_in_flight_insert _ _ _ _ Hi). simpl. lia.
Qed.

(** *** Gathering the results *)

Lemma gather_spec (ts : list task_state) (os : list (outcome ProcessingResult)) :
  gather ts = Some os <-> ts = Done <$> os.
Proof.
  revert os. induction ts as [|t ts IH]; intros os; simpl.
  - split; [intros [= <-]; done | by destruct os].
  - destruct t as [| |o].
    + split; [done | by destruct os].
    + split; [done | by destruct os].
    + destruct (gather ts) as [os'|].
      * split.
        -- intros [= <-]. simpl. f_equal. by apply IH.
        -- destruct os as [|o' os]; [done|]. simpl. intros [= -> Hts].
           apply IH in Hts. by injection Hts as ->.
      * split; [done|]. destruct os as [|o' os]; [done|]. simpl. intros [= -> Hts].
        apply IH in Hts. done.
Qed.

Lemma handle_exceptions_run (file_paths : list string)
    (results : list (outcome ProcessingResult)) :
  forall (i : nat) (w : World),
    (i + length results <= length file_paths)%nat ->
    exists rs w',
      handle_exceptions env file_paths i results w = (Returned rs, w') /\
      length rs = length results /\
      (forall k o, results !! k = Some o ->
         exists file_path, file_paths !! (i + k)%nat = Some file_path /\
           rs !! k = Some (as_result env file_path o)) /\
      files w' = files w /\ cache w' = cache w /\ stats w' = stats w /\
      api_calls w' = api_calls w /\ sleeps w' = sleeps w.
Proof.
  induction results as [|o results IH]; intros i w Hlen; simpl in *.
  - exists [], w. run. repeat split; try done.
  - destruct (lookup_lt_is_Some_2 file_paths i) as [fp Hfp]; [lia|].
    assert (Hhead : exists r w1,
              match o with
              | Returned r => ret r
              | Raised e =>
                  match file_paths !! i with
                  | Some file_path =>
                      logger ERROR ("Exception processing " +:+ file_path +:+ ": "
                                    +:+ str_exn e);;
                      ret (mkProcessingResult
                             (VMetadata (new_metadata env (path_name env file_path)
                                           0 "unknown" ""))
                             (VOCR (new_ocr_result (Some "") None None))
                             (VStatus FAILED) (VJson (JStr (str_exn e)))
                             (VJson (JDict [])))
                  | None => raise (PyException "IndexError" "list index out of range")
                  end
              end w = (Returned r, w1) /\
              r = as_result env fp o /\
              files w1 = files w /\ cache w1 = cache w /\ stats w1 = stats w /\
              api_calls w1 = api_calls w /\ sleeps w1 = sleeps w).
    { destruct o as [r|e]; [|rewrite Hfp]; run;
        eexists _, _; (split; [reflexivity|]); by repeat split. }
    destruct Hhead as (r & w1 & Hhead & -> & Hf1 & Hc1 & Hs1 & Ha1 & Hsl1).
    destruct (IH (S i) w1) as (rs & w2 & Hrest & Hlen2 & Hnth & Hf2 & Hc2 & Hs2 & Ha2 & Hsl2);
      [lia|].
    unfold bind at 1. rewrite Hhead. unfold bind at 1. rewrite Hrest. run.
    eexists _, _. split; [reflexivity|]. simpl. split; [by rewrite Hlen2|].
    split; [|repeat split; congruence].
    intros [|k] o' Hk; simpl in *.
    + injection Hk as <-. exists fp. by rewrite Nat.add_0_r.
    + destruct (Hnth k o' Hk) as (fp' & Hfp' & Hrs).
      exists fp'. split; [|done]. by rewrite <- Nat.add_succ_comm.
Qed.

(** *** Schedules *)



(** Wherever a schedule leads, a task that is done holds the outcome of the
    pipeline run on the path at its own index. *)
Lemma done_outcomes (file_paths : list string)
    (options : option (list (string * json))) (max_concurrent : Z)
    (schedule : list event) (w : World) (b : Batch) :
  run_schedule env file_paths options schedule
    (batch_init file_paths max_concurrent w) = Some b ->
  forall i o, tasks b !! i = Some (Done o) ->
    exists file_path w_i, file_paths !! i = Some file_path /\
      o = fst (process_file env file_path options true w_i).
Proof.
  apply (run_schedule_invariant
           (fun b => forall i o, tasks b !! i = Some (Done o) ->
              exists file_path w_i, file_paths !! i = Some file_path /\
                o = fst (process_file env file_path options true w_i))).
  - intros [j|j] b0 b1 Hinv Hstep i o.
    + apply batch_step_acquire in Hstep as (_ & _ & ->). simpl.
      rewrite list_lookup_insert_Some. intros [(_ & [=] & _) | (_ & Hi)]. eauto.
    + apply batch_step_complete in Hstep as (_ & fp & Hfp & ->). simpl.
      rewrite list_lookup_insert_Some. intros [(<- & [= <-] & _) | (_ & Hi)]; eauto.
  - intros i o. unfold batch_init. simpl.
    rewrite lookup_replicate. by intros [[=] _].
Qed.






(** *** The batch as a whole *)


Lemma process_batch_inv (file_paths : list string)
    (options : option (list (string * json))) (max_concurrent : Z)
    (schedule : list event) (w : World)
    (o : outcome (list ProcessingResult)) (w' : World) :
  0 <= max_concurrent ->
  process_batch env file_paths options max_concurrent schedule w = Some (o, w') ->
  exists w1 b results,
    files w1 = files w /\ cache w1 = cache w /\ stats w1 = stats w /\
    api_calls w1 = api_calls w /\
    run_schedule env file_paths options schedule
      (batch_init file_paths max_concurrent w1) = Some b /\
    gather (tasks b) = Some results /\
    exists rs, o = Returned rs /\
      length rs = length file_paths /\
      (forall k r, results !! k = Some r ->
         exists file_path, file_paths !! k = Some file_path /\
           rs !! k = Some (as_result env file_path r)) /\
      cache w' = cache (world b) /\ stats w' = stats (world b) /\
      api_calls w' = api_calls (world b).
Proof.
  intros Hmax. unfold process_batch. run.
  rewrite bool_decide_eq_false_2 by lia.
  match goal with
  | |- context [run_schedule env file_paths options schedule ?B] =>
      destruct (run_schedule env file_paths options schedule B) as [b|] eqn:Hrun
  end; [|discriminate].
  destruct (gather (tasks b)) as [results|] eqn:Hgather; [|discriminate].
  destruct (semaphore_invariant _ _ _ _ _ _ Hrun) as (_ & _ & Hlen).
  assert (Hlen' : length results = length file_paths).
  { apply gather_spec in Hgather. rewrite Hgather, length_fmap in Hlen. done. }
  destruct (handle_exceptions_run file_paths results 0 (world b))
    as (rs & w1 & -> & Hrs & Hnth & Hf & Hc & Hs & Ha & Hsl); [simpl; lia|].
  simpl. intros [= <- <-].
  match type of Hrun with
  | run_schedule _ _ _ _ (batch_init _ _ ?W) = _ => exists W, b, results
  end.
  simpl. do 4 (split; [reflexivity|]). split; [exact Hrun|]. split; [done|].
  exists rs. repeat split; try done. lia.
Qed.

(** A semaphore created with the value 0 admits no task: the batch of a
    non-empty list then never returns. *)
Lemma zero_cap_never_returns (file_paths : list string)
    (options : option (list (string * json))) (schedule : list event) (w : World) :
  file_paths <> [] ->
  process_batch env file_paths options 0 schedule w = None.
Proof.
  intros Hne. unfold process_batch. run.
  destruct file_paths as [|fp fps]; [done|].
  destruct schedule as [|[i|i] rest]; simpl; [done| |].
  - destruct i as [|i]; simpl; [done|].
    destruct (replicate (length fps) Waiting !! i) as [t|] eqn:Hi; [|done].
    apply lookup_replicate in Hi as [-> _]. done.
  - destruct i as [|i]; simpl; [done|].
    destruct (replicate (length fps) Waiting !! i) as [t|] eqn:Hi; [|done].
    apply lookup_replicate in Hi as [-> _]. done.
Qed.

(** *** A batch against its pipelines taken in the order of completion *)






(** *** The counters *)

(** C1, as amended. A call to [process_file] follows one of five branches.
    When the document is not admitted, it returns the validation failure and
    changes no counter. When the document is admitted: on a cache hit it adds
    1 to [cached] and leaves [total_processed], [successful] and [failed] as
    they are; when the extraction succeeds it adds 1 to [total_processed] and
    to [successful]; when the extraction fails it adds 1 to [total_processed]
    and to [failed]; when an exception escapes it changes no counter. *)
Theorem process_file_counters (file_path : string)
    (options : option (list (string * json))) (use_cache : bool) (w : World) :
  let o := fst (process_file env file_path options use_cache w) in
  let w' := snd (process_file env file_path options use_cache w) in
  (~ admissible env w file_path /\
   o = Returned (validation_failure env file_path) /\ stats w' = stats w) \/
  (admissible env w file_path /\
   ((exists r, o = Returned r /\ status r = VStatus CACHED /\
       stats w' = plus_stats (stats w) 0 0 0 1) \/
    (exists r, o = Returned r /\ status r = VStatus COMPLETED /\
       stats w' = plus_stats (stats w) 1 1 0 0) \/
    (exists r, o = Returned r /\ status r = VStatus FAILED /\
       stats w' = plus_stats (stats w) 1 0 1 0) \/
    (exists e, o = Raised e /\ stats w' = stats w))).
Proof.
  destruct (process_file_cases file_path options use_cache w)
    as (o & w' & -> & _ & Hcases). simpl.
  destruct Hcases as [(Hn & -> & Hs & _) | (Had & f & Hf & Hcases)]; [by left|].
  right. split; [done|].
  destruct Hcases as [(_ & -> & Hs & _) | (data & _ & Hcases)]; [eauto 10|].
  destruct Hcases as [(_ & s & d & r0 & _ & _ & _ & -> & Hs & _) | (_ & Hcases)].
  { left. eexists. split; [reflexivity|]. done. }
  destruct Hcases as [(m & ocr & -> & _ & Hs & _) | (m & e & -> & _ & Hs & _)].
  - right. left. eexists. split; [reflexivity|]. done.
  - right. right. left. eexists. split; [reflexivity|]. done.
Qed.

(** *** Cache hits *)


(** After a successful extraction with caching enabled the entry of the
    document is an empty file: the write is given up when [json.dumps] meets
    the [status] member. *)
Lemma process_file_leaves_empty_entry (file_path : string)
    (options : option (list (string * json))) (w w' : World) (r : ProcessingResult) :
  process_file env file_path options true w = (Returned r, w') ->
  status r = VStatus COMPLETED ->
  exists f data,
    files w !! file_path = Some f /\ content f = Some data /\
    cache w' !! _get_cache_path (sha256_hexdigest env data) = Some "".
Proof.
  intros Hrun Hst.
  destruct (process_file_cases file_path options true w)
    as (o & w1 & Hrun' & _ & Hcases).
  rewrite Hrun in Hrun'. injection Hrun' as <- <-.
  destruct Hcases as [(_ & [= ->] & _) | (_ & f & Hf & Hcases)]; [done|].
  destruct Hcases as [(_ & [=] & _) | (data & Hdata & Hcases)].
  exists f, data. split; [done|]. split; [done|].
  destruct Hcases as [(_ & s & d & r0 & _ & _ & _ & [= ->] & _) | (_ & Hcases)]; [done|].
  destruct Hcases as [(m & ocr & _ & _ & _ & -> & _) | (m & e & [= ->] & _)]; [|done].
  by rewrite lookup_insert_eq.
Qed.

(** The defect behind C4, in general: once a document has been extracted
    with caching enabled, a later call on the same document and state does
    not find a usable entry; it calls the service again. *)
Lemma second_call_extracts_again (file_path : string)
    (options options' : option (list (string * json)))
    (w w1 : World) (r : ProcessingResult) :
  loads_rejects_empty env ->
  process_file env file_path options true w = (Returned r, w1) ->
  status r = VStatus COMPLETED ->
  let o2 := fst (process_file env file_path options' true w1) in
  let w2 := snd (process_file env file_path options' true w1) in
  (forall r2, o2 = Returned r2 -> status r2 <> VStatus CACHED) /\
  (api_calls w1 < api_calls w2)%nat /\ cached (stats w2) = cached (stats w1).
Proof.
  intros [e0 Hempty] Hrun Hst.
  destruct (process_file_leaves_empty_entry _ _ _ _ _ Hrun Hst)
    as (f & data & Hf & Hdata & Hentry).
  destruct (process_file_cases file_path options true w)
    as (o & w1' & Hrun' & Hfiles & Hcases).
  rewrite Hrun in Hrun'. injection Hrun' as <- <-.
  assert (Had : admissible env w1 file_path).
  { destruct Hcases as [(_ & [= ->] & _) | (Had & _)]; [done|].
    by eapply admissible_files. }
  clear Hcases.
  destruct (process_file_cases file_path options' true w1)
    as (o2 & w2 & -> & _ & Hcases). simpl.
  destruct Hcases as [(Hn & _) | (_ & f' & Hf' & Hcases)]; [done|].
  rewrite Hfiles in Hf'. simplify_eq.
  destruct Hcases as [(? & _) | (data' & ? & Hcases)]; simplify_eq.
  cbv zeta in Hcases.
  destruct Hcases as [(_ & s & d & r0 & ? & ? & _) | (_ & Hcases)]; [congruence|].
  destruct Hcases as [(m & ocr & -> & _ & -> & _ & Ha) | (m & e & -> & _ & -> & _ & Ha)];
    (split; [by intros r2 [= <-]|]); split; try lia; simpl; lia.
Qed.

(** *** The invariant of results *)

Lemma as_result_raised_invariant (file_path : string) (e : exn) :
  result_invariant (as_result env file_path (Raised e)).
Proof.
  split; simpl.
  - intros _. split; [eexists; split; reflexivity | by eexists].
  - intros [[=] | [=]].
Qed.

Lemma cache_entries_ok_truncate (c : gmap string string) (cache_path : string) :
  loads_rejects_empty env -> cache_entries_ok env c ->
  cache_entries_ok env (<[cache_path := ""]> c).
Proof.
  intros [e0 Hempty] Hok k s d r Hk Hd Hr.
  apply lookup_insert_Some in Hk as [[_ <-] | [_ Hk]]; [congruence|].
  by eapply Hok.
Qed.

Lemma process_file_invariant (file_path : string)
    (options : option (list (string * json))) (use_cache : bool) (w : World) :
  cache_entries_ok env (cache w) ->
  (forall r, fst (process_file env file_path options use_cache w) = Returned r ->
     result_invariant r) /\
  (loads_rejects_empty env ->
   cache_entries_ok env (cache (snd (process_file env file_path options use_cache w)))).
Proof.
  intros Hok.
  destruct (process_file_cases file_path options use_cache w)
    as (o & w' & -> & _ & Hcases). simpl.
  destruct Hcases as [(_ & -> & _ & Hc & _) | (_ & f & _ & Hcases)].
  { rewrite Hc. split; [|done]. intros r [= <-]. split; simpl.
    - intros _. split; [eexists; split; reflexivity | by eexists].
    - intros [[=] | [=]]. }
  destruct Hcases as [(_ & -> & _ & Hc & _) | (data & _ & Hcases)].
  { rewrite Hc. split; [|done]. by intros r [=]. }
  cbv zeta in Hcases.
  destruct Hcases as [(_ & s & d & r0 & Hs & Hd & Hk & -> & _ & Hc & _) | (_ & Hcases)].
  { rewrite Hc. split; [|done]. intros r [= <-]. split; simpl.
    - intros [=].
    - intros _. exact (Hok _ _ _ _ Hs Hd Hk). }
  destruct Hcases as [(m & ocr & -> & _ & _ & Hc & _) | (m & e & -> & _ & _ & Hc & _)].
  - rewrite Hc. split.
    + intros r [= <-]. split; simpl; [intros [=] | done].
    + intros Hempty. destruct use_cache; [by apply cache_entries_ok_truncate | done].
  - rewrite Hc. split; [|done]. intros r [= <-]. split; simpl.
    + intros _. split; [eexists; split; reflexivity | by eexists].
    + intros [[=] | [=]].
Qed.

Lemma batch_results_invariant (file_paths : list string)
    (options : option (list (string * json))) (max_concurrent : Z)
    (schedule : list event) (w : World) (b : Batch) :
  loads_rejects_empty env -> cache_entries_ok env (cache w) ->
  run_schedule env file_paths options schedule
    (batch_init file_paths max_concurrent w) = Some b ->
  cache_entries_ok env (cache (world b)) /\
  forall i r, tasks b !! i = Some (Done (Returned r)) -> result_invariant r.
Proof.
  intros Hempty Hok.
  apply (run_schedule_invariant
           (fun b => cache_entries_ok env (cache (world b)) /\
              forall i r, tasks b !! i = Some (Done (Returned r)) -> result_invariant r)).
  - intros [j|j] b0 b1 (Hc & Hinv) Hstep.
    + apply batch_step_acquire in Hstep as (_ & _ & ->). simpl. split; [done|].
      intros i r. rewrite list_lookup_insert_Some.
      intros [(_ & [=] & _) | (_ & Hi)]. eauto.
    + apply batch_step_complete in Hstep as (_ & fp & _ & ->). simpl.
      destruct (process_file_invariant fp options true (world b0) Hc) as (Hr & Hc').
      split; [by apply Hc'|].
      intros i r. rewrite list_lookup_insert_Some.
      intros [(_ & [= Ho] & _) | (_ & Hi)]; eauto.
  - split; [done|]. intros i r. unfold batch_init. simpl.
    rewrite lookup_replicate. by intros [[=] _].
Qed.

(** The same without a condition on the cache directory: a cached result
    is whatever the entry holds. *)
Lemma process_file_invariant_of (file_path : string)
    (options : option (list (string * json))) (use_cache : bool) (w : World) :
  (forall r, fst (process_file env file_path options use_cache w) = Returned r ->
     result_invariant_of env (entry_of (cache w)) r) /\
  (forall name,
     cache (snd (process_file env file_path options use_cache w)) !! name
       = cache w !! name \/
     cache (snd (process_file env file_path options use_cache w)) !! name = Some "").
Proof.
  destruct (process_file_cases file_path options use_cache w)
    as (o & w' & -> & _ & Hcases). simpl.
  destruct Hcases as [(_ & -> & _ & Hc & _) | (_ & f & _ & Hcases)].
  { rewrite Hc. split; [|by left]. intros r [= <-]. split; [|split]; simpl.
    - intros _. split; [eexists; split; reflexivity | by eexists].
    - intros [=].
    - intros [=]. }
  destruct Hcases as [(_ & -> & _ & Hc & _) | (data & _ & Hcases)].
  { rewrite Hc. split; [|by left]. by intros r [=]. }
  cbv zeta in Hcases.
  destruct Hcases as [(_ & s & d & r0 & Hs & Hd & Hk & -> & _ & Hc & _) | (_ & Hcases)].
  { rewrite Hc. split; [|by left]. intros r [= <-]. split; [|split]; simpl.
    - intros [=].
    - intros [=].
    - intros _. exists s. split; [by eexists|]. by exists d, r0. }
  destruct Hcases as [(m & ocr & -> & _ & _ & Hc & _) | (m & e & -> & _ & _ & Hc & _)].
  - rewrite Hc. split.
    + intros r [= <-]. split; [|split]; simpl; [intros [=] | done | intros [=]].
    + intros name. destruct use_cache; [|by left].
      destruct (decide (name = _get_cache_path (sha256_hexdigest env data))) as [->|Hne].
      * right. apply lookup_insert_eq.
      * left. by apply lookup_insert_ne.
  - rewrite Hc. split; [|by left]. intros r [= <-]. split; [|split]; simpl.
    + intros _. split; [eexists; split; reflexivity | by eexists].
    + intros [=].
    + intros [=].
Qed.

Lemma batch_results_invariant_of (file_paths : list string)
    (options : option (list (string * json))) (max_concurrent : Z)
    (schedule : list event) (w : World) (b : Batch) (c : gmap string string) :
  cache w = c ->
  run_schedule env file_paths options schedule
    (batch_init file_paths max_concurrent w) = Some b ->
  (forall name, cache (world b) !! name = c !! name \/
                cache (world b) !! name = Some "") /\
  forall i r, tasks b !! i = Some (Done (Returned r)) ->
    result_invariant_of env (fun s => entry_of c s \/ s = "") r.
Proof.
  intros Hc.
  apply (run_schedule_invariant
           (fun b => (forall name, cache (world b) !! name = c !! name \/
                                   cache (world b) !! name = Some "") /\
              forall i r, tasks b !! i = Some (Done (Returned r)) ->
                result_invariant_of env (fun s => entry_of c s \/ s = "") r)).
  - intros [j|j] b0 b1 (Hcache & Hinv) Hstep.
    + apply batch_step_acquire in Hstep as (_ & _ & ->). simpl. split; [done|].
      intros i r. rewrite list_lookup_insert_Some.
      intros [(_ & [=] & _) | (_ & Hi)]. eauto.
    + apply batch_step_complete in Hstep as (_ & fp & _ & ->). simpl.
      destruct (process_file_invariant_of fp options true (world b0)) as (Hr & Hstep).
      split.
      * intros name. destruct (Hstep name) as [-> | ->]; [apply Hcache | by right].
      * intros i r. rewrite list_lookup_insert_Some.
        intros [(_ & [= Ho] & _) | (_ & Hi)]; [|by eauto].
        destruct (Hr r Ho) as (Hfailed & Hcompleted & Hcached).
        split; [done|]. split; [done|]. intros Hst.
        destruct (Hcached Hst) as (s & [name Hname] & Hback).
        exists s. split; [|done].
        destruct (Hcache name) as [Hsame | Hempty].
        -- left. exists name. by rewrite <- Hsame.
        -- right. rewrite Hname in Hempty. by injection Hempty.
  - split; [by left; rewrite <- Hc|]. intros i r. unfold batch_init. simpl.
    rewrite lookup_replicate. by intros [[=] _].
Qed.

Lemma read_back_error_message (s : string) (r : ProcessingResult) :
  read_back env s r ->
  status r = VStatus CACHED /\
  exists kvs, json_loads env s = Returned (JDict kvs) /\
    error_message r = VJson (dict_get_default "error_message" JNull kvs).
Proof.
  intros (d & r0 & Hd & Hk & ->). split; [done|].
  destruct d as [| | | | | |kvs]; try discriminate.
  exists kvs. split; [done|]. simpl in *.
  destruct (negb _); [discriminate|].
  destruct (dict_get "metadata" kvs), (dict_get "ocr_result" kvs),
    (dict_get "status" kvs); try discriminate.
  by injection Hk as <-.
Qed.

(** C5, as amended. Of every result [process_file] returns and of every
    result in the list [process_batch] returns: a failed result has the
    empty text and an error message; a completed result has no error
    message; a cached result is an entry of the cache directory as it is
    read back (for a batch, also the empty entry a pipeline of the batch
    left), and its error message is the one that entry holds, unset when the
    entry holds none. So in a state whose cache entries, as far as they can
    be read back, hold results without an error message, every result
    satisfies the invariant as stated, and the state after the call is again
    such a state. *)
Theorem results_satisfy_invariant (w : World) :
  (forall file_path options use_cache r w',
     process_file env file_path options use_cache w = (Returned r, w') ->
     result_invariant_of env (entry_of (cache w)) r) /\
  (forall file_paths options max_concurrent schedule rs w',
     process_batch env file_paths options max_concurrent schedule w
       = Some (Returned rs, w') ->
     forall r, r ∈ rs ->
       result_invariant_of env (fun s => entry_of (cache w) s \/ s = "") r) /\
  (forall s r, read_back env s r ->
     status r = VStatus CACHED /\
     exists kvs, json_loads env s = Returned (JDict kvs) /\
       error_message r = VJson (dict_get_default "error_message" JNull kvs)) /\
  (loads_rejects_empty env -> cache_entries_ok env (cache w) ->
   (forall file_path options use_cache r w',
      process_file env file_path options use_cache w = (Returned r, w') ->
      result_invariant r /\ cache_entries_ok env (cache w')) /\
   (forall file_paths options max_concurrent schedule rs w',
      process_batch env file_paths options max_concurrent schedule w
        = Some (Returned rs, w') ->
      (forall r, r ∈ rs -> result_invariant r) /\ cache_entries_ok env (cache w'))).
Proof.
  split; [|split; [|split; [exact read_back_error_message|]]].
  - intros file_path options use_cache r w' Hrun.
    destruct (process_file_invariant_of file_path options use_cache w) as (Hr & _).
    rewrite Hrun in Hr. by apply Hr.
  - intros file_paths options max_concurrent schedule rs w' Hbatch.
    destruct (decide (max_concurrent < 0)) as [Hneg|Hpos].
    { unfold process_batch in Hbatch. run.
      rewrite bool_decide_eq_true_2 in Hbatch by done. discriminate. }
    apply process_batch_inv in Hbatch
      as (w1 & b & results & _ & Hc1 & _ & _ & Hrun & Hgather & rs' & [= <-] & Hlen
          & Hnth & _); [|lia].
    destruct (batch_results_invariant_of _ _ _ _ _ _ _ Hc1 Hrun) as (_ & Hinv).
    intros r Hr. apply list_elem_of_lookup in Hr as [k Hk].
    destruct (semaphore_invariant _ _ _ _ _ _ Hrun) as (_ & _ & Hlen').
    apply gather_spec in Hgather.
    destruct (lookup_lt_is_Some_2 results k) as [o Ho].
    { rewrite Hgather, length_fmap in Hlen'. rewrite Hlen', <- Hlen.
      by eapply lookup_lt_Some. }
    destruct (Hnth k o Ho) as (fp & _ & Hrs). rewrite Hk in Hrs. injection Hrs as ->.
    destruct o as [r|e].
    + simpl. apply (Hinv k). by rewrite Hgather, list_lookup_fmap, Ho.
    + split; [|split]; simpl.
      * intros _. split; [eexists; split; reflexivity | by eexists].
      * intros [=].
      * intros [=].
  - intros Hempty Hok. split.
    + intros file_path options use_cache r w' Hrun.
      destruct (process_file_invariant file_path options use_cache w Hok) as (Hr & Hc).
      rewrite Hrun in Hr, Hc. simpl in *. split; [by apply Hr | by apply Hc].
    + intros file_paths options max_concurrent schedule rs w' Hbatch.
      destruct (decide (max_concurrent < 0)) as [Hneg|Hpos].
      { unfold process_batch in Hbatch. run.
        rewrite bool_decide_eq_true_2 in Hbatch by done. discriminate. }
      apply process_batch_inv in Hbatch
        as (w1 & b & results & _ & Hc1 & _ & _ & Hrun & Hgather & rs' & [= <-] & Hlen
            & Hnth & Hc' & _); [|lia].
      destruct (batch_results_invariant _ _ _ _ _ _ Hempty
                  ltac:(by rewrite Hc1) Hrun) as (Hcb & Hinv).
      split; [|by rewrite Hc'].
      intros r Hr. apply list_elem_of_lookup in Hr as [k Hk].
      destruct (semaphore_invariant _ _ _ _ _ _ Hrun) as (_ & _ & Hlen').
      apply gather_spec in Hgather.
      destruct (lookup_lt_is_Some_2 results k) as [o Ho].
      { rewrite Hgather, length_fmap in Hlen'. rewrite Hlen', <- Hlen.
        by eapply lookup_lt_Some. }
      destruct (Hnth k o Ho) as (fp & _ & Hrs). rewrite Hk in Hrs. injection Hrs as ->.
      destruct o as [r|e]; [|apply as_result_raised_invariant].
      simpl. apply (Hinv k). by rewrite Hgather, list_lookup_fmap, Ho.
Qed.

(** *** What the pipeline does not depend on *)

Lemma same_core_refl (w : World) : same_core w w.
Proof. by repeat split. Qed.

Lemma same_core_sym (w1 w2 : World) : same_core w1 w2 -> same_core w2 w1.
Proof. intros (? & ? & ? & ?). by repeat split. Qed.

Lemma same_core_trans (w1 w2 w3 : World) :
  same_core w1 w2 -> same_core w2 w3 -> same_core w1 w3.
Proof. intros (? & ? & ? & ?) (? & ? & ? & ?). repeat split; congruence. Qed.

Lemma respects_ret {A} (a : A) : respects (ret a).
Proof. by intros w1 w2 Hw. Qed.

Lemma respects_raise {A} (e : exn) : respects (@raise A e).
Proof. by intros w1 w2 Hw. Qed.

Lemma respects_lift {A} (o : outcome A) : respects (lift o).
Proof. by intros w1 w2 Hw. Qed.

Lemma respects_bind {A B} (m : M A) (k : A -> M B) :
  respects m -> (forall a, respects (k a)) -> respects (bind m k).
Proof.
  intros Hm Hk w1 w2 Hw. unfold bind.
  destruct (Hm w1 w2 Hw) as [Ho Hs].
  destruct (m w1) as [o1 w1'], (m w2) as [o2 w2']. simpl in *. subst o2.
  destruct o1; [by apply Hk | done].
Qed.

Lemma respects_try_except {A} (m : M A) (h : exn -> M A) :
  respects m -> (forall e, respects (h e)) -> respects (try_except m h).
Proof.
  intros Hm Hh w1 w2 Hw. unfold try_except.
  destruct (Hm w1 w2 Hw) as [Ho Hs].
  destruct (m w1) as [o1 w1'], (m w2) as [o2 w2']. simpl in *. subst o2.
  destruct o1; [done | by apply Hh].
Qed.

Lemma respects_logger (l : level) (msg : string) : respects (logger l msg).
Proof. intros w1 w2 (? & ? & ? & ?). by repeat split. Qed.

Lemma respects_asyncio_sleep (delay : Z) : respects (asyncio_sleep delay).
Proof. intros w1 w2 (? & ? & ? & ?). repeat split; simpl; congruence. Qed.

Lemma respects_chat_complete (req : Request) : respects (chat_complete env req).
Proof.
  intros w1 w2 (? & ? & Ha & ?). unfold chat_complete. simpl. rewrite Ha.
  by repeat split.
Qed.

Lemma respects_incr_total_processed : respects incr_total_processed.
Proof. intros w1 w2 (? & Hs & ? & ?). run. rewrite Hs. by repeat split. Qed.

Lemma respects_incr_successful : respects incr_successful.
Proof. intros w1 w2 (? & Hs & ? & ?). run. rewrite Hs. by repeat split. Qed.

Lemma respects_incr_failed : respects incr_failed.
Proof. intros w1 w2 (? & Hs & ? & ?). run. rewrite Hs. by repeat split. Qed.

Lemma respects_path_stat (file_path : string) : respects (path_stat env file_path).
Proof.
  intros w1 w2 (Hf & ? & ? & ?). unfold path_stat. run. rewrite Hf.
  destruct (files w2 !! file_path); by repeat split.
Qed.

Lemma respects_open_w (cache_path : string) : respects (open_w cache_path).
Proof. intros w1 w2 (? & ? & ? & ?). by repeat split. Qed.

Lemma respects_write_text (cache_path s : string) : respects (write_text cache_path s).
Proof. intros w1 w2 (? & ? & ? & ?). by repeat split. Qed.

Ltac respects_step :=
  first
    [ apply respects_ret | apply respects_raise | apply respects_lift
    | apply respects_logger | apply respects_asyncio_sleep
    | apply respects_chat_complete | apply respects_incr_total_processed
    | apply respects_incr_successful | apply respects_incr_failed
    | apply respects_path_stat | apply respects_open_w | apply respects_write_text
    | apply respects_bind | apply respects_try_except
    | progress intros
    | match goal with
      | |- respects (if ?b then _ else _) => destruct b
      | |- respects (match ?x with _ => _ end) => destruct x
      end ].

Lemma respects_retry_loop (req : Request) (attempts : list nat) :
  respects (retry_loop env req attempts).
Proof.
  induction attempts as [|attempt rest IH]; simpl; repeat respects_step; exact IH.
Qed.

Lemma respects_call_api (file_path : string)
    (options : option (list (string * json))) :
  respects (_call_mistral_ocr_api env file_path options).
Proof.
  unfold _call_mistral_ocr_api, read_bytes. cbv zeta.
  repeat first [apply respects_retry_loop | respects_step].
Qed.

Lemma respects_extract_pdf_info (file_path : string) :
  respects (_extract_pdf_info env file_path).
Proof. unfold _extract_pdf_info. repeat respects_step. Qed.

Lemma respects_store_cached (file_path cache_path : string) (use_cache : bool)
    (r : ProcessingResult) :
  respects (store_cached env file_path cache_path use_cache r).
Proof. unfold store_cached. cbv zeta. repeat respects_step. Qed.

(** The extraction and its bookkeeping do not look at the cache directory. *)
Lemma respects_process_uncached (file_path : string)
    (options : option (list (string * json))) (use_cache : bool)
    (file_hash cache_path : string) :
  respects (process_uncached env file_path options use_cache file_hash cache_path).
Proof.
  unfold process_uncached. cbv zeta.
  repeat first [ apply respects_call_api | apply respects_extract_pdf_info
               | apply respects_store_cached | respects_step ].
Qed.

(** *** The log only grows *)

Lemma log_grows_ret {A} (a : A) : log_grows (ret a).
Proof. intros w. exists []. simpl. by rewrite app_nil_r. Qed.

Lemma log_grows_raise {A} (e : exn) : log_grows (@raise A e).
Proof. intros w. exists []. simpl. by rewrite app_nil_r. Qed.

Lemma log_grows_lift {A} (o : outcome A) : log_grows (lift o).
Proof. intros w. exists []. simpl. by rewrite app_nil_r. Qed.

Lemma log_grows_gets {A} (f : World -> A) : log_grows (gets f).
Proof. intros w. exists []. simpl. by rewrite app_nil_r. Qed.

Lemma log_grows_modify (f : World -> World) :
  (forall w, log_records (f w) = log_records w) -> log_grows (modify f).
Proof. intros Hf w. exists []. simpl. by rewrite Hf, app_nil_r. Qed.

Lemma log_grows_logger (l : level) (msg : string) : log_grows (logger l msg).
Proof. intros w. by exists [(l, msg)]. Qed.

Lemma log_grows_chat_complete (req : Request) : log_grows (chat_complete env req).
Proof. intros w. exists []. simpl. by rewrite app_nil_r. Qed.

Lemma log_grows_bind {A B} (m : M A) (k : A -> M B) :
  log_grows m -> (forall a, log_grows (k a)) -> log_grows (bind m k).
Proof.
  intros Hm Hk w. unfold bind. destruct (Hm w) as [l1 Hl1].
  destruct (m w) as [[a|e] w1]; simpl in *; [|by exists l1].
  destruct (Hk a w1) as [l2 Hl2]. exists (l1 ++ l2).
  by rewrite Hl2, Hl1, app_assoc.
Qed.

Lemma log_grows_try_except {A} (m : M A) (h : exn -> M A) :
  log_grows m -> (forall e, log_grows (h e)) -> log_grows (try_except m h).
Proof.
  intros Hm Hh w. unfold try_except. destruct (Hm w) as [l1 Hl1].
  destruct (m w) as [[a|e] w1]; simpl in *; [by exists l1|].
  destruct (Hh e w1) as [l2 Hl2]. exists (l1 ++ l2).
  by rewrite Hl2, Hl1, app_assoc.
Qed.

Ltac log_grows_step :=
  first
    [ apply log_grows_ret | apply log_grows_raise | apply log_grows_lift
    | apply log_grows_gets | apply log_grows_logger | apply log_grows_chat_complete
    | apply log_grows_modify; done
    | apply log_grows_bind | apply log_grows_try_except
    | progress intros
    | match goal with
      | |- log_grows (if ?b then _ else _) => destruct b
      | |- log_grows (match ?x with _ => _ end) => destruct x
      end ].

Lemma log_grows_retry_loop (req : Request) (attempts : list nat) :
  log_grows (retry_loop env req attempts).
Proof.
  induction attempts as [|attempt rest IH]; simpl.
  - apply log_grows_ret.
  - unfold asyncio_sleep. repeat first [exact IH | log_grows_step].
Qed.

Lemma log_grows_process_uncached (file_path : string)
    (options : option (list (string * json))) (use_cache : bool)
    (file_hash cache_path : string) :
  log_grows (process_uncached env file_path options use_cache file_hash cache_path).
Proof.
  unfold process_uncached, _call_mistral_ocr_api, read_bytes, path_stat,
    _extract_pdf_info, store_cached, open_w, write_text, incr_successful,
    incr_failed, incr_total_processed.
  cbv zeta.
  repeat first [apply log_grows_retry_loop | log_grows_step].
Qed.

(** *** A cache entry that cannot be read back *)

(** For an admitted, readable document [process_file] comes down to the
    cache lookup followed, unless it hits, by the extraction. *)
Lemma process_file_admitted (file_path : string)
    (options : option (list (string * json))) (use_cache : bool) (w : World)
    (f : File) (data : string) :
  admissible env w file_path ->
  files w !! file_path = Some f -> content f = Some data ->
  exists w0,
    same_core w w0 /\ cache w0 = cache w /\
    log_records w0 = log_records w ++ [(INFO, "Processing file: " +:+ file_path)] /\
    process_file env file_path options use_cache w =
      bind (load_cached env file_path
              (_get_cache_path (sha256_hexdigest env data)) use_cache)
           (fun hit =>
              match hit with
              | Some result => ret result
              | None => process_uncached env file_path options use_cache
                          (sha256_hexdigest env data)
                          (_get_cache_path (sha256_hexdigest env data))
              end) w0.
Proof.
  intros Had Hf Hdata.
  destruct (logger INFO ("Processing file: " +:+ file_path) w) as [o0 w0] eqn:Hlog.
  assert (Hw0 : o0 = Returned tt /\ same_core w w0 /\ cache w0 = cache w /\
                log_records w0 = log_records w ++ [(INFO, "Processing file: " +:+ file_path)]).
  { unfold logger, modify in Hlog. injection Hlog as <- <-. by repeat split. }
  destruct Hw0 as (-> & Hcore & Hc & Hl).
  exists w0. split; [done|]. split; [done|]. split; [done|].
  unfold process_file. unfold bind at 1. rewrite Hlog.
  destruct (validate_file_run file_path w0)
    as (b & w1 & Hrun & Hb & _ & _ & _ & _ & _ & Hsame & _).
  assert (b = true) as ->.
  { apply Hb. eapply admissible_files; [|exact Had]. by destruct Hcore. }
  rewrite (Hsame eq_refl) in Hrun.
  unfold bind at 1. rewrite Hrun. cbn [negb].
  unfold bind at 1.
  assert (Hf0 : files w0 !! file_path = Some f).
  { destruct Hcore as (<- & _). done. }
  rewrite (calculate_file_hash_run _ _ _ Hf0), Hdata. reflexivity.
Qed.

(** C7. Take an admitted, readable document whose cache entry exists and
    cannot be read back, be it that the text is not JSON or that the JSON is
    not the keyword arguments of a [ProcessingResult]. The lookup does not
    raise: it yields nothing, changes neither the entry nor the counters, and
    logs a warning with the error. [process_file] then goes on as on a miss:
    it returns the very outcome, with the same counters and the same calls
    to the service, that it returns in the state without the entry; it calls
    the service, its result is a completed or a failed extraction, and the
    warning is in its log. *)
Theorem corrupt_cache_is_a_miss (file_path : string)
    (options : option (list (string * json))) (w : World)
    (f : File) (data s : string) (e : exn) :
  admissible env w file_path ->
  files w !! file_path = Some f -> content f = Some data ->
  cache w !! _get_cache_path (sha256_hexdigest env data) = Some s ->
  (json_loads env s = Raised e \/
   exists d, json_loads env s = Returned d /\ ProcessingResult_kwargs d = Raised e) ->
  let cache_path := _get_cache_path (sha256_hexdigest env data) in
  let w_miss := set_cache (delete cache_path (cache w)) w in
  let o := fst (process_file env file_path options true w) in
  let w' := snd (process_file env file_path options true w) in
  (exists w1,
     load_cached env file_path cache_path true w = (Returned None, w1) /\
     same_core w w1 /\ cache w1 = cache w /\
     log_records w1 =
       log_records w ++
         [(INFO, "Loading cached result for: " +:+ file_path);
          (WARNING, "Failed to load cache: " +:+ str_exn e)]) /\
  o = fst (process_file env file_path options true w_miss) /\
  same_core w' (snd (process_file env file_path options true w_miss)) /\
  (api_calls w < api_calls w')%nat /\
  (exists r, o = Returned r /\
     (status r = VStatus COMPLETED \/ status r = VStatus FAILED)) /\
  (WARNING, "Failed to load cache: " +:+ str_exn e) ∈ log_records w'.
Proof.
  intros Had Hf Hdata Hs Hfail. cbv zeta.
  assert (Hlookup : forall w0, cache w0 = cache w ->
            exists w1,
              load_cached env file_path (_get_cache_path (sha256_hexdigest env data)) true w0 = (Returned None, w1) /\
              same_core w0 w1 /\ cache w1 = cache w0 /\
              log_records w1 =
                log_records w0 ++
                  [(INFO, "Loading cached result for: " +:+ file_path);
                   (WARNING, "Failed to load cache: " +:+ str_exn e)]).
  { intros w0 Hc0.
    destruct (load_cached_run file_path (_get_cache_path (sha256_hexdigest env data)) true w0)
      as (hit & w1 & Hload & Hf1 & Hc1 & Ha1 & Hsl1 & Hhit).
    rewrite Hc0 in Hhit.
    destruct hit as [result|].
    { destruct Hhit as (_ & (s' & d & r0 & ? & ? & ? & _) & _).
      destruct Hfail as [? | (d' & ? & ?)]; congruence. }
    destruct Hhit as (Hst & [[[=] _] | [[? _] | (_ & s' & e' & ? & Hfail' & Hlog)]]);
      [congruence|].
    assert (e' = e) as ->.
    { destruct Hfail as [? | (d & ? & ?)], Hfail' as [? | (d' & ? & ?)]; congruence. }
    exists w1. split; [done|]. split; [by repeat split|]. by split. }
  split; [by apply Hlookup|].
  destruct (process_file_admitted file_path options true w f data Had Hf Hdata)
    as (w0 & Hcore0 & Hc0 & Hl0 & Hrun).
  destruct (process_file_admitted file_path options true
              (set_cache (delete (_get_cache_path (sha256_hexdigest env data)) (cache w)) w)
              f data)
    as (m0 & Hcorem & Hcm & Hlm & Hrunm); [by eapply admissible_files | done | done |].
  destruct (Hlookup w0 Hc0) as (w1 & Hload & Hcore1 & Hc1 & Hl1).
  assert (Hloadm : load_cached env file_path (_get_cache_path (sha256_hexdigest env data)) true m0 = (Returned None, m0)).
  { destruct (load_cached_run file_path (_get_cache_path (sha256_hexdigest env data)) true m0)
      as (hit & m1 & Hload' & _ & _ & _ & _ & Hhit).
    rewrite Hcm in Hhit. simpl in Hhit.
    rewrite lookup_delete_eq in Hhit.
    destruct hit as [result|].
    { by destruct Hhit as (_ & (s' & d & r0 & [=] & _) & _). }
    destruct Hhit as (_ & [[[=] _] | [[_ ->] | (_ & s' & e' & [=] & _)]]). done. }
  assert (Hcore : same_core w1 m0).
  { eapply same_core_trans; [apply same_core_sym, Hcore1|].
    eapply same_core_trans; [apply same_core_sym, Hcore0|].
    eapply same_core_trans; [|exact Hcorem]. by repeat split. }
  rewrite Hrun, Hrunm. unfold bind. rewrite Hload, Hloadm.
  pose proof (respects_process_uncached file_path options true
                (sha256_hexdigest env data) (_get_cache_path (sha256_hexdigest env data)) w1 m0 Hcore) as [Ho Hw].
  split; [done|]. split; [done|].
  destruct (log_grows_process_uncached file_path options true
              (sha256_hexdigest env data) (_get_cache_path (sha256_hexdigest env data)) w1) as [l Hl].
  assert (Hwarn : (WARNING, "Failed to load cache: " +:+ str_exn e)
                    ∈ log_records (snd (process_uncached env file_path options true
                        (sha256_hexdigest env data) (_get_cache_path (sha256_hexdigest env data)) w1))).
  { rewrite Hl, Hl1, !elem_of_app, !elem_of_cons. auto. }
  split; [|split; [|done]].
  - (* the service is called *)
    destruct (process_file_cases file_path options true w)
      as (o & w' & Hrun' & _ & Hcases).
    rewrite Hrun in Hrun'. unfold bind in Hrun'.
    rewrite Hload in Hrun'. rewrite Hrun'. simpl.
    destruct Hcases as [(Hn & _) | (_ & f' & Hf' & Hcases)]; [done|].
    simplify_eq.
    destruct Hcases as [(? & _) | (data' & ? & Hcases)]; simplify_eq.
    cbv zeta in Hcases.
    destruct Hcases as [(_ & s' & d & r0 & ? & ? & ? & _) | (_ & Hcases)].
    { destruct Hfail as [? | (d' & ? & ?)]; congruence. }
    destruct Hcases as [(m & ocr & _ & _ & _ & _ & Ha) | (m & e' & _ & _ & _ & _ & Ha)]; lia.
  - destruct (process_file_cases file_path options true w)
      as (o & w' & Hrun' & _ & Hcases).
    rewrite Hrun in Hrun'. unfold bind in Hrun'.
    rewrite Hload in Hrun'. rewrite Hrun'. simpl.
    destruct Hcases as [(Hn & _) | (_ & f' & Hf' & Hcases)]; [done|].
    simplify_eq.
    destruct Hcases as [(? & _) | (data' & ? & Hcases)]; simplify_eq.
    cbv zeta in Hcases.
    destruct Hcases as [(_ & s' & d & r0 & ? & ? & ? & _) | (_ & Hcases)].
    { destruct Hfail as [? | (d' & ? & ?)]; congruence. }
    destruct Hcases as [(m & ocr & -> & _) | (m & e' & -> & _)];
      eexists; (split; [reflexivity|]); simpl; auto.
Qed.

(** *** The statistics snapshot *)

Lemma truediv_max (a t : Z) :
  exists q, truediv a (Z.max t 1) = Returned q /\
    (q * 100 == (100 * a) # Z.to_pos (Z.max t 1))%Q.
Proof.
  unfold truediv. rewrite bool_decide_eq_false_2 by lia.
  eexists. split; [reflexivity|].
  destruct (Z.max t 1) as [|p|p] eqn:Hmax; [lia| |lia].
  unfold Qeq, Qdiv, Qmult, Qinv, inject_Z. simpl. lia.
Qed.

(** C8. [get_statistics] always returns, without changing the state; the
    snapshot carries the four counters as they are, and its two rates are
    [100 * successful / max(total_processed, 1)] and
    [100 * cached / max(total_processed, 1)], the divisor being at least 1
    whatever the counters are. *)
Theorem get_statistics_snapshot (w : World) :
  exists snap,
    get_statistics w = (Returned snap, w) /\
    snap_total_processed snap = total_processed (stats w) /\
    snap_successful snap = successful (stats w) /\
    snap_failed snap = failed (stats w) /\
    snap_cached snap = cached (stats w) /\
    1 <= Z.max (total_processed (stats w)) 1 /\
    (success_rate snap ==
       (100 * successful (stats w)) # Z.to_pos (Z.max (total_processed (stats w)) 1))%Q /\
    (cache_hit_rate snap ==
       (100 * cached (stats w)) # Z.to_pos (Z.max (total_processed (stats w)) 1))%Q /\
    (total_processed (stats w) = 0 ->
       (success_rate snap == inject_Z (100 * successful (stats w)))%Q /\
       (cache_hit_rate snap == inject_Z (100 * cached (stats w)))%Q).
Proof.
  unfold get_statistics. run.
  destruct (truediv_max (successful (stats w)) (total_processed (stats w)))
    as (q1 & -> & Hq1).
  destruct (truediv_max (cached (stats w)) (total_processed (stats w)))
    as (q2 & -> & Hq2).
  simpl. eexists. split; [reflexivity|]. simpl.
  do 4 (split; [reflexivity|]). split; [lia|].
  split; [exact Hq1|]. split; [exact Hq2|].
  intros Hzero. split; [rewrite Hq1, Hzero | rewrite Hq2, Hzero]; reflexivity.
Qed.

(** *** Caching in a batch *)




(** *** Caching in a batch *)


End Properties.

(** ** Examples *)

(** C1, as stated, fails: a document that is not admitted is answered with a
    failed result that is no cache hit, and [total_processed] stays as it
    is. *)
Lemma validation_failure_is_not_counted :
  ~ (forall env file_path options use_cache w,
       let o := fst (process_file env file_path options use_cache w) in
       let w' := snd (process_file env file_path options use_cache w) in
       (exists r, o = Returned r /\ status r = VStatus CACHED /\
          stats w' = plus_stats (stats w) 0 0 0 1) \/
       total_processed (stats w') = total_processed (stats w) + 1).
Proof.
  intros H.
  specialize (H (Demo.env Demo.up) "missing.pdf" None true Demo.w0).
  vm_compute in H.
  destruct H as [(r & Hr & Hst & _) | H]; [|discriminate].
  inversion Hr; subst. discriminate.
Qed.

(** C6, as stated, fails: rejecting a document leaves a record in the log. *)
Lemma validate_file_logs_rejection :
  ~ (forall env file_path w,
       exists b, _validate_file env file_path w = (Returned b, w)).
Proof.
  intros H.
  destruct (H (Demo.env Demo.up) "missing.pdf" Demo.w0) as [b Hb].
  vm_compute in Hb. discriminate.
Qed.

(** C4 on the code: the same document processed twice with caching enabled.
    The first call extracts it and leaves an empty cache entry; the second
    call extracts it again, and no result is ever served from the cache. *)
Theorem second_call_is_not_cached :
  let first_call := process_file (Demo.env Demo.up) "scan.pdf" None true Demo.w0 in
  let second_call :=
    process_file (Demo.env Demo.up) "scan.pdf" None true (snd first_call) in
  (exists r, fst first_call = Returned r /\ status r = VStatus COMPLETED) /\
  cache (snd first_call) !! "sha256:%PDF-.json" = Some "" /\
  (exists r, fst second_call = Returned r /\ status r = VStatus COMPLETED) /\
  api_calls (snd second_call) = 2%nat /\
  stats (snd second_call) = mkStats 2 2 0 0.
Proof.
  cbv zeta. split; [|split; [|split; [|split]]].
  - eexists. split; [vm_compute; reflexivity | reflexivity].
  - vm_compute. reflexivity.
  - eexists. split; [vm_compute; reflexivity | reflexivity].
  - vm_compute. reflexivity.
  - vm_compute. reflexivity.
Qed.

(** The part of C4 the code keeps: an entry that can be read back is
    returned with the status [CACHED], counted, and costs no call. *)
Example readable_entry_is_served :
  let call := process_file (Demo.env Demo.up) "scan.pdf" None true Demo.w_cached in
  fst call = Returned (set_status (VStatus CACHED) Demo.stored_result) /\
  api_calls (snd call) = 0%nat /\ stats (snd call) = mkStats 0 0 0 1.
Proof. cbv zeta. split; [|split]; vm_compute; reflexivity. Qed.

(** A service that is down: three calls, waits of 2 and 4 seconds, and the
    error of the third call. *)
Lemma call_api_retry_policy_witness :
  fst (_call_mistral_ocr_api (Demo.env Demo.down) "scan.pdf" None Demo.w0)
    = Raised (MistralException "service unavailable 2") /\
  api_calls (snd (_call_mistral_ocr_api (Demo.env Demo.down) "scan.pdf" None Demo.w0))
    = 3%nat /\
  sleeps (snd (_call_mistral_ocr_api (Demo.env Demo.down) "scan.pdf" None Demo.w0))
    = [2; 4].
Proof.
  destruct (call_api_retry_policy (Demo.env Demo.down) "scan.pdf" None Demo.w0
              (mkFile 5 (Some "%PDF-")) "%PDF-" eq_refl eq_refl)
    as (_ & _ & _ & _ & _ & H).
  exact (H _ _ _ eq_refl eq_refl eq_refl).
Defined.


(** The same batch with the tasks admitted and completed out of order: the
    results still follow the input, the unreadable document and the document
    of an unsupported type each answered by a failed result of its own. *)
Example out_of_order_batch :
  exists r1 r2 r3 w',
    process_batch (Demo.env Demo.up) Demo.inbox None 2
      [Acquire 2; Acquire 0; Complete 0; Acquire 1; Complete 2; Complete 1]%nat Demo.w0
      = Some (Returned [r1; r2; r3], w') /\
    status r1 = VStatus COMPLETED /\
    r2 = as_result (Demo.env Demo.up) "folder.pdf" (Raised (Demo.os_error "folder.pdf")) /\
    r3 = validation_failure (Demo.env Demo.up) "notes.docx".
Proof.
  eexists _, _, _, _. split; [vm_compute; reflexivity|].
  split; [reflexivity|]. split; reflexivity.
Qed.

Lemma demo_loads_rejects_empty (cl : nat -> Request -> outcome string) :
  loads_rejects_empty (Demo.env cl).
Proof. by eexists. Qed.

Lemma demo_cache_entries_ok (cl : nat -> Request -> outcome string) :
  cache_entries_ok (Demo.env cl) (cache Demo.w_cached).
Proof.
  intros k s d r Hk Hd Hr. simpl in Hk.
  apply lookup_singleton_Some in Hk as [_ <-].
  vm_compute in Hd. injection Hd as <-.
  vm_compute in Hr. by injection Hr as <-.
Qed.

(** C5, as stated, fails: the cached branch returns the error message the
    entry holds, so an entry that holds one gives a cached result with an
    error message. *)
Lemma cached_result_keeps_stored_error :
  ~ (forall env file_path options use_cache w r w',
       process_file env file_path options use_cache w = (Returned r, w') ->
       result_invariant r).
Proof.
  intros H.
  edestruct (H (Demo.env Demo.up) "scan.pdf" None true Demo.w_cached_failure)
    as [_ Hunset]; [vm_compute; reflexivity|].
  specialize (Hunset (or_intror eq_refl)). discriminate.
Qed.

(** A result served from the cache, in a state with a readable entry. *)
Lemma results_satisfy_invariant_witness :
  result_invariant (set_status (VStatus CACHED) Demo.stored_result).
Proof.
  refine (proj1 (proj1 (proj2 (proj2 (proj2
                   (results_satisfy_invariant (Demo.env Demo.up) Demo.w_cached)))
                   (demo_loads_rejects_empty _) (demo_cache_entries_ok _))
                   "scan.pdf" None true _
                   (snd (process_file (Demo.env Demo.up) "scan.pdf" None true Demo.w_cached))
                   _)).
  vm_compute. reflexivity.
Defined.

Lemma demo_admissible (cl : nat -> Request -> outcome string) (w : World) :
  files w = Demo.documents -> admissible (Demo.env cl) w "scan.pdf".
Proof.
  intros Hf. exists (mkFile 5 (Some "%PDF-")). rewrite Hf.
  split; [reflexivity|]. split; [simpl; lia|]. by left.
Qed.

(** A cache entry that is not JSON. *)
Lemma corrupt_cache_is_a_miss_witness :
  fst (process_file (Demo.env Demo.up) "scan.pdf" None true Demo.w_corrupt)
  = fst (process_file (Demo.env Demo.up) "scan.pdf" None true
           (set_cache (delete "sha256:%PDF-.json" (cache Demo.w_corrupt)) Demo.w_corrupt)).
Proof.
  exact (proj1 (proj2
    (corrupt_cache_is_a_miss (Demo.env Demo.up) "scan.pdf" None Demo.w_corrupt
       (mkFile 5 (Some "%PDF-")) "%PDF-" "{ not json"
       (PyException "JSONDecodeError" "Expecting value")
       (demo_admissible Demo.up Demo.w_corrupt eq_refl) eq_refl eq_refl eq_refl
       (or_introl eq_refl)))).
Defined.



(** The [batch] command with [--no-cache] on a directory whose one document
    has a cache entry: the document is served from the cache. *)
Example no_cache_flag_is_ignored :
  exists w',
    main_batch (Demo.env Demo.up) (Demo.args true) (sequential_schedule 0 1) Demo.w_cached
      = Some (Returned (Some [set_status (VStatus CACHED) Demo.stored_result]), w') /\
    api_calls w' = 0%nat /\ cached (stats w') = 1.
Proof. eexists. split; [vm_compute; reflexivity|]. split; reflexivity. Qed.

(** Two pipelines in flight under a cap of two: the third task has to wait. *)
Lemma concurrency_bound_witness :
  0 <= in_flight Demo.at_the_cap <= 2 /\
  forall i, batch_step (Demo.env Demo.up) Demo.inbox None (Acquire i) Demo.at_the_cap = None.
Proof.
  destruct (concurrency_bound (Demo.env Demo.up) Demo.inbox None 2
              [Acquire 0; Acquire 1]%nat Demo.w0 Demo.at_the_cap ltac:(lia) eq_refl)
    as (Hbound & Hfull & _).
  split; [exact Hbound | exact (Hfull eq_refl)].
Defined.

(** Retry exhaustion seen from [process_file]: the service is called three
    times, and the document is marked failed with the last error. *)
Example failed_after_three_calls :
  let call := process_file (Demo.env Demo.down) "scan.pdf" None true Demo.w0 in
  (exists r, fst call = Returned r /\ status r = VStatus FAILED /\
     error_message r = VJson (JStr "service unavailable 2")) /\
  api_calls (snd call) = 3%nat /\ sleeps (snd call) = [2; 4] /\
  stats (snd call) = mkStats 1 0 1 0.
Proof.
  cbv zeta. split; [|split; [|split]]; try (vm_compute; reflexivity).
  eexists. split; [vm_compute; reflexivity|]. split; reflexivity.
Qed.

(** ** Properties of the reports *)

Section ReportProperties.

Context (env : Env) (fmt : Formatting).

(** *** File sizes *)

Lemma Qle_bool_1024 (n d : Z) :
  0 < d -> Qle_bool 1024 (inject_Z n / inject_Z d) = bool_decide (1024 * d <= n).
Proof.
  intros Hd. destruct d as [|p|p]; try lia.
  destruct (bool_decide (1024 * Z.pos p <= n)) eqn:Hb.
  - apply bool_decide_eq_true in Hb. apply Qle_bool_iff.
    unfold Qle, Qdiv, Qmult, Qinv, inject_Z. simpl. lia.
  - apply bool_decide_eq_false in Hb. apply not_true_is_false.
    intros Hle. apply Qle_bool_iff in Hle.
    unfold Qle, Qdiv, Qmult, Qinv, inject_Z in Hle. simpl in Hle. lia.
Qed.

Lemma Qle_bool_1024_int (n : Z) :
  Qle_bool 1024 (inject_Z n) = bool_decide (1024 <= n).
Proof.
  destruct (bool_decide (1024 <= n)) eqn:Hb.
  - apply bool_decide_eq_true in Hb. apply Qle_bool_iff.
    unfold Qle, inject_Z. simpl. lia.
  - apply bool_decide_eq_false in Hb. apply not_true_is_false.
    intros Hle. apply Qle_bool_iff in Hle. unfold Qle, inject_Z in Hle. simpl in Hle. lia.
Qed.

Lemma Qle_bool_1024_kb (n : Z) :
  Qle_bool 1024 (inject_Z n / 1024) = bool_decide (1048576 <= n).
Proof.
  destruct (bool_decide (1048576 <= n)) eqn:Hb.
  - apply bool_decide_eq_true in Hb. apply Qle_bool_iff.
    unfold Qle, Qdiv, Qmult, Qinv, inject_Z. simpl. lia.
  - apply bool_decide_eq_false in Hb. apply not_true_is_false.
    intros Hle. apply Qle_bool_iff in Hle.
    unfold Qle, Qdiv, Qmult, Qinv, inject_Z in Hle. simpl in Hle. lia.
Qed.

Lemma Qle_bool_1024_mb (n : Z) :
  Qle_bool 1024 (inject_Z n / 1024 / 1024) = bool_decide (1073741824 <= n).
Proof.
  destruct (bool_decide (1073741824 <= n)) eqn:Hb.
  - apply bool_decide_eq_true in Hb. apply Qle_bool_iff.
    unfold Qle, Qdiv, Qmult, Qinv, inject_Z. simpl. lia.
  - apply bool_decide_eq_false in Hb. apply not_true_is_false.
    intros Hle. apply Qle_bool_iff in Hle.
    unfold Qle, Qdiv, Qmult, Qinv, inject_Z in Hle. simpl in Hle. lia.
Qed.

(** X1. [_format_file_size] picks the unit by the size: bytes below 1024,
    then KB, MB and GB by powers of 1024, GB for everything from 1024^3 on,
    and the number it prints is the size divided by the unit, which lies
    between 1 and 1024 for KB and MB. The size 0 is printed as "0 B". *)
Theorem format_file_size_units (n : Z) :
  (n = 0 -> _format_file_size fmt n = "0 B") /\
  (n <> 0 -> n < 1024 ->
   _format_file_size fmt n = format_1f fmt (inject_Z n) +:+ " B") /\
  (1024 <= n < 1048576 ->
   _format_file_size fmt n = format_1f fmt (inject_Z n / 1024) +:+ " KB" /\
   (1 <= inject_Z n / 1024 < 1024)%Q) /\
  (1048576 <= n < 1073741824 ->
   _format_file_size fmt n = format_1f fmt (inject_Z n / 1024 / 1024) +:+ " MB" /\
   (1 <= inject_Z n / 1024 / 1024 < 1024)%Q) /\
  (1073741824 <= n ->
   _format_file_size fmt n = format_1f fmt (inject_Z n / 1024 / 1024 / 1024) +:+ " GB" /\
   (1 <= inject_Z n / 1024 / 1024 / 1024)%Q).
Proof.
  unfold _format_file_size. cbn [length size_names scale_size].
  rewrite Qle_bool_1024_int, Qle_bool_1024_kb, Qle_bool_1024_mb.
  split; [|split; [|split; [|split]]].
  - intros ->. reflexivity.
  - intros Hnz Hlt. rewrite bool_decide_eq_false_2 by done.
    rewrite (bool_decide_eq_false_2 (1024 <= n)) by lia. reflexivity.
  - intros [Hlo Hhi]. rewrite bool_decide_eq_false_2 by lia.
    rewrite (bool_decide_eq_true_2 (1024 <= n)) by lia.
    rewrite (bool_decide_eq_false_2 (1048576 <= n)) by lia.
    split; [reflexivity|].
    unfold Qle, Qlt, Qdiv, Qmult, Qinv, inject_Z. simpl. lia.
  - intros [Hlo Hhi]. rewrite bool_decide_eq_false_2 by lia.
    rewrite (bool_decide_eq_true_2 (1024 <= n)) by lia.
    rewrite (bool_decide_eq_true_2 (1048576 <= n)) by lia.
    rewrite (bool_decide_eq_false_2 (1073741824 <= n)) by lia.
    split; [reflexivity|].
    unfold Qle, Qlt, Qdiv, Qmult, Qinv, inject_Z. simpl. lia.
  - intros Hlo. rewrite bool_decide_eq_false_2 by lia.
    rewrite (bool_decide_eq_true_2 (1024 <= n)) by lia.
    rewrite (bool_decide_eq_true_2 (1048576 <= n)) by lia.
    rewrite (bool_decide_eq_true_2 (1073741824 <= n)) by lia.
    change (bool_decide (3 < 4 - 1)%nat) with false. rewrite andb_false_r.
    split; [reflexivity|].
    unfold Qle, Qdiv, Qmult, Qinv, inject_Z. simpl. lia.
Qed.


(** *** Exporting as JSON *)

Lemma encodable_status_raises (r : ProcessingResult) (st : ProcessingStatus) :
  status r = VStatus st ->
  exists e, encodable (asdict r) = Raised e /\ is_type_error e.
Proof.
  intros Hst. unfold asdict. rewrite Hst. simpl.
  destruct (asdict_value (metadata r)); simpl; try (eexists; split; [reflexivity|by eexists]).
  destruct (asdict_value (ocr_result r)); simpl; eexists; (split; [reflexivity|by eexists]).
Qed.

Lemma encodable_raises_type_error (kvs : list (string * value)) (e : exn) :
  encodable kvs = Raised e -> is_type_error e.
Proof.
  induction kvs as [|[k v] kvs IH]; simpl; [done|].
  destruct v; try (intros [= <-]; by eexists).
  destruct (encodable kvs); [done|]. intros [= <-]. by apply IH.
Qed.

Lemma encode_results_raises (results : list ProcessingResult)
    (r : ProcessingResult) (st : ProcessingStatus) :
  r ∈ results -> status r = VStatus st ->
  exists e, encode_results results = Raised e /\ is_type_error e.
Proof.
  intros Hin Hst. induction results as [|r' results IH]; [by apply elem_of_nil in Hin|].
  cbn [encode_results]. destruct (encodable (asdict r')) as [fields|e] eqn:Henc.
  - apply elem_of_cons in Hin as [<- | Hin].
    + destruct (encodable_status_raises r st Hst) as (e & He & _). congruence.
    + destruct (IH Hin) as (e & -> & He). exists e. by split.
  - exists e. split; [done|]. by eapply encodable_raises_type_error.
Qed.

(** X2. The JSON export of a list that holds a result whose [status] is a
    member of [ProcessingStatus] raises [TypeError]; nothing is written to
    the output directory and nothing is logged. *)
Theorem export_json_raises (results : list ProcessingResult)
    (r : ProcessingResult) (st : ProcessingStatus)
    (output_file : option string) (outputs : gmap string string) (w : World) :
  r ∈ results -> status r = VStatus st ->
  exists e,
    export_results env fmt results JSON output_file outputs w = (Raised e, outputs, w) /\
    is_type_error e.
Proof.
  intros Hin Hst. unfold export_results, export_content.
  destruct (encode_results_raises results r st Hin Hst) as (e & -> & He).
  by exists e.
Qed.

(** *** Exporting as a report *)

Lemma document_attributes_raw (r : ProcessingResult) :
  raw_metadata r \/ status_not_member r ->
  exists e, document_attributes r = Raised e.
Proof.
  intros Hbad. unfold document_attributes.
  destruct (metadata r) as [j|s|m|o] eqn:Hm; eauto.
  destruct Hbad as [Hraw | Hst]; [by destruct (Hraw m)|].
  destruct (status r) as [j|s|m'|o] eqn:Hs; eauto.
  by destruct (Hst s).
Qed.

Lemma document_attributes_error (r : ProcessingResult) (e : exn) :
  document_attributes r = Raised e -> is_attribute_error e.
Proof.
  unfold document_attributes.
  destruct (metadata r); try (intros [= <-]; by eexists).
  destruct (status r); intros H; inversion H; by eexists.
Qed.

Lemma extracted_text_error (r : ProcessingResult) (e : exn) :
  extracted_text r = Raised e -> is_attribute_error e.
Proof.
  unfold extracted_text. destruct (ocr_result r); intros H; inversion H; by eexists.
Qed.

Lemma markdown_document_error (i : nat) (r : ProcessingResult) (e : exn) :
  markdown_document env fmt i r = Raised e -> is_attribute_error e.
Proof.
  unfold markdown_document.
  destruct (document_attributes r) as [[m s]|e'] eqn:Ha.
  - destruct (status_is COMPLETED r).
    + destruct (extracted_text r) eqn:Ht; [done|].
      intros [= <-]. by eapply extracted_text_error.
    + by destruct (value_truthy (error_message r)).
  - intros [= <-]. by eapply document_attributes_error.
Qed.

Lemma text_document_error (i : nat) (r : ProcessingResult) (e : exn) :
  text_document env fmt i r = Raised e -> is_attribute_error e.
Proof.
  unfold text_document.
  destruct (document_attributes r) as [[m s]|e'] eqn:Ha.
  - destruct (status_is COMPLETED r).
    + destruct (extracted_text r) eqn:Ht; [done|].
      intros [= <-]. by eapply extracted_text_error.
    + by destruct (value_truthy (error_message r)).
  - intros [= <-]. by eapply document_attributes_error.
Qed.

(** The loop over the documents stops at the first one it cannot render. *)
Lemma document_lines_raises
    (document : nat -> ProcessingResult -> outcome (list (option string)))
    (results : list ProcessingResult) (r : ProcessingResult) :
  (forall i r e, document i r = Raised e -> is_attribute_error e) ->
  (forall i r, raw_metadata r \/ status_not_member r -> exists e, document i r = Raised e) ->
  r ∈ results -> raw_metadata r \/ status_not_member r ->
  forall i, exists e, document_lines document i results = Raised e /\ is_attribute_error e.
Proof.
  intros Herr Hraw Hin Hr.
  induction results as [|r' results IH]; intros i; [by apply elem_of_nil in Hin|].
  cbn [document_lines]. destruct (document i r') as [lines|e] eqn:Hd.
  - apply elem_of_cons in Hin as [<- | Hin].
    + destruct (Hraw i r Hr) as [e He]. congruence.
    + destruct (IH Hin (S i)) as (e & -> & He). exists e. by split.
  - exists e. split; [done|]. by eapply Herr.
Qed.

Lemma markdown_document_raw (i : nat) (r : ProcessingResult) :
  raw_metadata r \/ status_not_member r ->
  exists e, markdown_document env fmt i r = Raised e.
Proof.
  intros Hraw. unfold markdown_document.
  destruct (document_attributes_raw r Hraw) as (e & ->). eauto.
Qed.

Lemma text_document_raw (i : nat) (r : ProcessingResult) :
  raw_metadata r \/ status_not_member r ->
  exists e, text_document env fmt i r = Raised e.
Proof.
  intros Hraw. unfold text_document.
  destruct (document_attributes_raw r Hraw) as (e & ->). eauto.
Qed.

Lemma html_document_block_error (i : nat) (r : ProcessingResult) (e : exn) :
  html_document_block env fmt i r = Raised e -> is_attribute_error e.
Proof.
  unfold html_document_block.
  destruct (status r); try (intros [= <-]; by eexists).
  destruct (metadata r); try (intros [= <-]; by eexists).
  destruct (status_is COMPLETED r).
  - destruct (extracted_text r) eqn:Ht; [done|].
    intros [= <-]. by eapply extracted_text_error.
  - by destruct (value_truthy (error_message r)).
Qed.

Lemma html_document_block_raw (i : nat) (r : ProcessingResult) :
  raw_metadata r \/ status_not_member r ->
  exists e, html_document_block env fmt i r = Raised e.
Proof.
  intros Hbad. unfold html_document_block.
  destruct (status r) as [j|s|m'|o] eqn:Hs; eauto.
  destruct (metadata r) as [j|s'|m|o] eqn:Hm; eauto.
  destruct Hbad as [Hraw | Hst]; [by destruct (Hraw m) | by destruct (Hst s)].
Qed.

Lemma html_documents_raises (results : list ProcessingResult) (r : ProcessingResult) :
  r ∈ results -> raw_metadata r \/ status_not_member r ->
  forall i, exists e, html_documents env fmt i results = Raised e /\ is_attribute_error e.
Proof.
  intros Hin Hr.
  induction results as [|r' results IH]; intros i; [by apply elem_of_nil in Hin|].
  cbn [html_documents]. destruct (html_document_block env fmt i r') as [block|e] eqn:Hd.
  - apply elem_of_cons in Hin as [<- | Hin].
    + destruct (html_document_block_raw i r Hr) as [e He]. congruence.
    + destruct (IH Hin (S i)) as (e & -> & He). exists e. by split.
  - exists e. split; [done|]. by eapply html_document_block_error.
Qed.

Lemma truediv_nonzero (a b : Z) :
  b <> 0 -> truediv a b = Returned (inject_Z a / inject_Z b)%Q.
Proof. intros Hb. unfold truediv. by rewrite bool_decide_eq_false_2. Qed.

Lemma length_nonzero {A} (l : list A) (x : A) : x ∈ l -> Z.of_nat (length l) <> 0.
Proof. destruct l; [by intros ?%elem_of_nil | simpl; lia]. Qed.

(** A list with a result no report can render makes each report raise. *)
Lemma report_raises (results : list ProcessingResult) (r : ProcessingResult)
    (output_format : OutputFormat) :
  r ∈ results -> raw_metadata r \/ status_not_member r ->
  output_format <> JSON ->
  exists e, export_content env fmt results output_format = Raised e /\
    is_attribute_error e.
Proof.
  intros Hin Hbad Hf. unfold export_content. destruct output_format; [done| | |].
  - unfold _generate_markdown_report.
    destruct (document_lines_raises (markdown_document env fmt) results r
                markdown_document_error markdown_document_raw Hin Hbad 1%nat)
      as (e & -> & He).
    by exists e.
  - unfold _generate_text_report.
    destruct (document_lines_raises (text_document env fmt) results r
                text_document_error text_document_raw Hin Hbad 1%nat)
      as (e & -> & He).
    by exists e.
  - unfold _generate_html_report.
    rewrite truediv_nonzero by (by eapply length_nonzero).
    destruct (html_documents_raises results r Hin Hbad 1%nat) as (e & -> & He).
    by exists e.
Qed.

Lemma kwargs_raw_metadata (d : json) (r0 : ProcessingResult) :
  ProcessingResult_kwargs d = Returned r0 ->
  raw_metadata (set_status (VStatus CACHED) r0).
Proof.
  unfold ProcessingResult_kwargs. destruct d; try done.
  destruct (negb _); [done|].
  destruct (dict_get "metadata" kvs); [|done].
  destruct (dict_get "ocr_result" kvs); [|done].
  destruct (dict_get "status" kvs); [|done].
  intros [= <-] m. simpl. done.
Qed.

(** X3. A result served from the cache cannot be exported: its [metadata]
    is the dictionary read from the file, so that the three reports raise
    [AttributeError] when they come to it, and the JSON export raises
    [TypeError] on a [status]. Whatever the format, [export_results] raises
    on a list that holds such a result, and writes nothing. *)
Theorem cached_result_is_not_exportable (r : ProcessingResult)
    (results : list ProcessingResult) (output_format : OutputFormat)
    (output_file : option string) (outputs : gmap string string) (w : World) :
  served_from_cache r -> r ∈ results ->
  exists e,
    export_results env fmt results output_format output_file outputs w
      = (Raised e, outputs, w) /\
    (output_format = JSON -> is_type_error e) /\
    (output_format <> JSON -> is_attribute_error e).
Proof.
  intros (d & r0 & Hk & ->) Hin. pose proof (kwargs_raw_metadata d r0 Hk) as Hraw.
  unfold export_results.
  assert (output_format = JSON \/ output_format <> JSON) as [-> | Hf]
    by (destruct output_format; (by left) || (by right)).
  - unfold export_content.
    destruct (encode_results_raises results _ CACHED Hin eq_refl) as (e & -> & He).
    exists e. by repeat split.
  - destruct (report_raises results _ output_format Hin (or_introl Hraw) Hf)
      as (e & -> & He).
    exists e. by repeat split.
Qed.

(** *** Which results a report renders *)

Lemma Forall_is_Some_all_strings (lines : list (option string)) :
  Forall is_Some lines -> exists ls, all_strings lines = Some ls.
Proof.
  induction 1 as [|o lines [l ->] _ [ls IH]]; simpl; [by eexists|].
  rewrite IH. by eexists.
Qed.

Lemma join_lines_returns (lines : list (option string)) :
  Forall is_Some lines -> exists content, join_lines lines = Returned content.
Proof.
  intros H. unfold join_lines.
  destruct (Forall_is_Some_all_strings lines H) as [ls ->]. by eexists.
Qed.

Lemma status_is_member (r : ProcessingResult) (s s' : ProcessingStatus) :
  status r = VStatus s -> status_is s' r = true -> s = s'.
Proof. unfold status_is. intros ->. by destruct s, s'. Qed.

Ltac all_some := repeat first [apply Forall_nil_2 | apply Forall_cons_2; [by eexists|]].

Lemma markdown_document_exportable (i : nat) (r : ProcessingResult) :
  exportable r ->
  exists lines, markdown_document env fmt i r = Returned lines /\ Forall is_Some lines.
Proof.
  intros (m & s & Hm & Hs & Ht). unfold markdown_document, document_attributes.
  rewrite Hm, Hs.
  destruct (status_is COMPLETED r) eqn:Hc.
  - apply (status_is_member r s COMPLETED Hs) in Hc.
    destruct (Ht Hc) as (o & t & Ho & Htext).
    unfold extracted_text. rewrite Ho, Htext.
    eexists. split; [reflexivity|]. simpl. all_some.
  - destruct (value_truthy (error_message r)); eexists; (split; [reflexivity|]);
      simpl; all_some.
Qed.

Lemma text_document_exportable (i : nat) (r : ProcessingResult) :
  exportable r ->
  exists lines, text_document env fmt i r = Returned lines /\ Forall is_Some lines.
Proof.
  intros (m & s & Hm & Hs & Ht). unfold text_document, document_attributes.
  rewrite Hm, Hs.
  destruct (status_is COMPLETED r) eqn:Hc.
  - apply (status_is_member r s COMPLETED Hs) in Hc.
    destruct (Ht Hc) as (o & t & Ho & Htext).
    unfold extracted_text. rewrite Ho, Htext.
    eexists. split; [reflexivity|]. simpl. all_some.
  - destruct (value_truthy (error_message r)); eexists; (split; [reflexivity|]);
      simpl; all_some.
Qed.

Lemma document_lines_exportable
    (document : nat -> ProcessingResult -> outcome (list (option string)))
    (results : list ProcessingResult) :
  (forall i r, exportable r ->
     exists lines, document i r = Returned lines /\ Forall is_Some lines) ->
  Forall exportable results ->
  forall i, exists lines,
    document_lines document i results = Returned lines /\ Forall is_Some lines.
Proof.
  intros Hdoc Hall. induction Hall as [|r results Hr _ IH]; intros i.
  - by exists [].
  - cbn [document_lines].
    destruct (Hdoc i r Hr) as (lines & -> & Hlines).
    destruct (IH (S i)) as (more & -> & Hmore).
    eexists. split; [reflexivity|]. by apply Forall_app.
Qed.

Lemma html_documents_exportable (results : list ProcessingResult) :
  Forall exportable results ->
  forall i, exists blocks, html_documents env fmt i results = Returned blocks.
Proof.
  intros Hall. induction Hall as [|r results Hr _ IH]; intros i.
  - by exists "".
  - cbn [html_documents].
    destruct Hr as (m & s & Hm & Hs & Ht). unfold html_document_block.
    rewrite Hm, Hs. destruct (IH (S i)) as (more & ->).
    destruct (status_is COMPLETED r) eqn:Hc.
    + apply (status_is_member r s COMPLETED Hs) in Hc.
      destruct (Ht Hc) as (o & t & Ho & Htext).
      unfold extracted_text. rewrite Ho, Htext. by eexists.
    + destruct (value_truthy (error_message r)); by eexists.
Qed.

Lemma export_content_exportable (results : list ProcessingResult)
    (output_format : OutputFormat) :
  Forall exportable results -> output_format <> JSON ->
  (output_format = HTML -> results <> []) ->
  exists content, export_content env fmt results output_format = Returned content.
Proof.
  intros Hall Hf Hne. unfold export_content. destruct output_format; [done| | |].
  - unfold _generate_markdown_report.
    destruct (document_lines_exportable (markdown_document env fmt) results
                markdown_document_exportable Hall 1%nat) as (lines & -> & Hlines).
    apply join_lines_returns. apply Forall_app. split; [all_some | done].
  - unfold _generate_text_report.
    destruct (document_lines_exportable (text_document env fmt) results
                text_document_exportable Hall 1%nat) as (lines & -> & Hlines).
    apply join_lines_returns. apply Forall_app. split; [all_some | done].
  - unfold _generate_html_report.
    rewrite truediv_nonzero.
    2: { destruct results; [by destruct Hne | simpl; lia]. }
    destruct (html_documents_exportable results Hall 1%nat) as (blocks & ->).
    by eexists.
Qed.

(** X4. A report of results that hold a [DocumentMetadata], a member of
    [ProcessingStatus] and, when completed, a text is built (the HTML
    report needs one result at least). Without the name of an output file
    [export_results] returns it and writes and logs nothing. With a name
    under which the output directory can be written, it returns the text,
    the file of that name holds the text afterwards, the other files are as
    they were, and it logs one record that gives the path of the file in
    the output directory. With a name that cannot be opened for writing it
    raises the error of [open], and nothing is written or logged. The
    documents, the cache directory and the counters are not touched. *)
Theorem export_report_saves_content (results : list ProcessingResult)
    (output_format : OutputFormat) (output_file : option string)
    (outputs : gmap string string) (w : World) :
  Forall exportable results -> output_format <> JSON ->
  (output_format = HTML -> results <> []) ->
  exists content,
    export_content env fmt results output_format = Returned content /\
    (output_file = None \/ output_file = Some "" ->
     export_results env fmt results output_format output_file outputs w
       = (Returned content, outputs, w)) /\
    (forall name, output_file = Some name -> name <> "" ->
       write_error fmt name = None ->
       exists w',
         export_results env fmt results output_format output_file outputs w
           = (Returned content, <[name := content]> outputs, w') /\
         files w' = files w /\ cache w' = cache w /\ stats w' = stats w /\
         api_calls w' = api_calls w /\
         log_records w' =
           log_records w ++ [(INFO, "Results exported to: " +:+ output_path fmt name)]) /\
    (forall name e, output_file = Some name -> name <> "" ->
       write_error fmt name = Some e ->
       export_results env fmt results output_format output_file outputs w
         = (Raised e, outputs, w)).
Proof.
  intros Hall Hf Hne. unfold export_results.
  destruct (export_content_exportable results output_format Hall Hf Hne)
    as (content & ->).
  exists content. split; [done|]. split; [|split].
  - intros [-> | ->]; [done|]. by rewrite bool_decide_eq_true_2.
  - intros name -> Hname Hw. rewrite bool_decide_eq_false_2, Hw by done.
    eexists. split; [reflexivity|]. done.
  - intros name e -> Hname Hw. by rewrite bool_decide_eq_false_2, Hw.
Qed.

(** X5. The list of no result: the HTML report divides by the number of
    results and raises [ZeroDivisionError]; the three other formats build a
    text, which [export_results] returns unless it is to write it to a file
    that cannot be opened. *)
Theorem export_of_no_result (output_format : OutputFormat)
    (output_file : option string) (outputs : gmap string string) (w : World) :
  (output_format = HTML ->
   export_results env fmt [] output_format output_file outputs w
     = (Raised (PyException "ZeroDivisionError" "division by zero"), outputs, w)) /\
  (output_format <> HTML ->
   exists content,
     export_content env fmt [] output_format = Returned content /\
     ((forall name, output_file = Some name -> name <> "" ->
         write_error fmt name = None) ->
      (export_results env fmt [] output_format output_file outputs w).1.1
        = Returned content)).
Proof.
  split.
  - intros ->. reflexivity.
  - intros Hf. unfold export_results.
    assert (exists content, export_content env fmt [] output_format = Returned content)
      as [content Hc].
    { destruct output_format; [by eexists | | | done].
      - apply (export_content_exportable [] MARKDOWN); done.
      - apply (export_content_exportable [] TXT); done. }
    exists content. split; [done|]. intros Hw. rewrite Hc.
    destruct output_file as [name|]; [|done]. case_bool_decide; [done|].
    by rewrite (Hw name eq_refl).
Qed.

(** *** JSON or a report, never both *)

Lemma encodable_status_not_member (r : ProcessingResult)
    (fields : list (string * json)) :
  encodable (asdict r) = Returned fields -> status_not_member r.
Proof.
  intros Henc s Hs.
  destruct (encodable_status_raises r s Hs) as (e & He & _). congruence.
Qed.

Lemma encode_results_status (results : list ProcessingResult) (encoded : list json) :
  encode_results results = Returned encoded -> Forall status_not_member results.
Proof.
  revert encoded. induction results as [|r results IH]; intros encoded; [by constructor|].
  cbn [encode_results].
  destruct (encodable (asdict r)) as [fields|] eqn:Hr; [|done].
  destruct (encode_results results) as [js|] eqn:Hrest; [|done].
  intros _. constructor; [by eapply encodable_status_not_member | by eapply IH].
Qed.

(** X6. No list of results but the empty one can be exported both as JSON
    and as a report: the JSON export needs every [status] to be plain data,
    and each report reads [status.value], which plain data does not have.
    When the JSON export of a non-empty list returns, each of the three
    reports raises [AttributeError]. *)
Theorem json_export_excludes_reports (results : list ProcessingResult)
    (encoded : string) (output_format : OutputFormat)
    (output_file : option string) (outputs : gmap string string) (w : World) :
  results <> [] ->
  export_content env fmt results JSON = Returned encoded ->
  output_format <> JSON ->
  exists e,
    export_results env fmt results output_format output_file outputs w
      = (Raised e, outputs, w) /\
    is_attribute_error e.
Proof.
  intros Hne Hjson Hf.
  unfold export_content in Hjson.
  destruct (encode_results results) as [js|] eqn:Henc; [|done].
  apply encode_results_status in Henc.
  destruct results as [|r results]; [done|].
  apply Forall_cons in Henc as [Hr _].
  destruct (report_raises (r :: results) r output_format
              ltac:(by left) (or_intror Hr) Hf) as (e & He & Hattr).
  exists e. unfold export_results. by rewrite He.
Qed.

End ReportProperties.

(** ** What [process_file] returns *)

Section ResultKinds.

Context (env : Env).

Lemma returns_ret {A} (a : A) (P : A -> Prop) : P a -> returns (ret a) P.
Proof. intros Ha w a' w' [= <- _]. done. Qed.

Lemma returns_any {A} (m : M A) : returns m (fun _ => True).
Proof. done. Qed.

Lemma returns_bind {A B} (m : M A) (k : A -> M B) (Q : A -> Prop) (P : B -> Prop) :
  returns m Q -> (forall a, Q a -> returns (k a) P) -> returns (bind m k) P.
Proof.
  intros Hm Hk w b w'. unfold bind.
  destruct (m w) as [[a|e] w1] eqn:Hrun; [|done].
  intros Hrun'. eapply Hk; [|exact Hrun']. by eapply Hm.
Qed.

Lemma returns_try_except {A} (m : M A) (h : exn -> M A) (P : A -> Prop) :
  returns m P -> (forall e, returns (h e) P) -> returns (try_except m h) P.
Proof.
  intros Hm Hh w a w'. unfold try_except.
  destruct (m w) as [[a'|e] w1] eqn:Hrun.
  - intros [= <- <-]. by eapply Hm.
  - intros Hrun'. by eapply Hh.
Qed.

Lemma returns_weaken {A} (m : M A) (P Q : A -> Prop) :
  returns m P -> (forall a, P a -> Q a) -> returns m Q.
Proof. intros Hm HPQ w a w' Hrun. apply HPQ. by eapply Hm. Qed.

Lemma returns_call_api (file_path : string) (options : option (list (string * json))) :
  returns (_call_mistral_ocr_api env file_path options) (fun t => t <> None).
Proof.
  intros w t w' Hrun.
  destruct (call_api_frame env file_path options w) as (_ & _ & _ & _ & Hnone).
  rewrite Hrun in Hnone. simpl in Hnone. congruence.
Qed.

Lemma returns_load_cached (file_path cache_path : string) (use_cache : bool) :
  returns (load_cached env file_path cache_path use_cache)
    (fun hit => forall r, hit = Some r -> use_cache = true /\ served_from_cache r).
Proof.
  intros w hit w' Hrun r ->.
  destruct (load_cached_run env file_path cache_path use_cache w)
    as (hit & w1 & Hrun' & _ & _ & _ & _ & Hhit).
  rewrite Hrun in Hrun'. injection Hrun' as <- <-.
  destruct Hhit as (-> & (s & d & r0 & _ & _ & Hk & ->) & _).
  split; [done|]. by exists d, r0.
Qed.

(** The results the pipeline builds itself: a completed one holds the text
    the service returned, a failed one the empty text. *)
Lemma returns_process_uncached (file_path : string)
    (options : option (list (string * json))) (use_cache : bool)
    (file_hash cache_path : string) :
  returns (process_uncached env file_path options use_cache file_hash cache_path)
    (fun r => exportable r /\
       (status r = VStatus COMPLETED \/ status r = VStatus FAILED)).
Proof.
  unfold process_uncached.
  eapply returns_bind; [apply returns_any|]. intros file_stat _. cbv zeta.
  eapply returns_bind; [apply returns_any|]. intros m _.
  apply returns_try_except.
  - eapply returns_bind; [apply returns_call_api|]. intros t Ht.
    do 4 (eapply returns_bind; [apply returns_any|]; intros ? _).
    apply returns_ret. split; [|by left].
    eexists _, COMPLETED. split; [reflexivity|]. split; [reflexivity|]. intros _.
    destruct t as [t|]; [|done]. by eexists _, t.
  - intros e.
    do 3 (eapply returns_bind; [apply returns_any|]; intros ? _).
    apply returns_ret. split; [|by right].
    eexists _, FAILED. split; [reflexivity|]. split; [reflexivity|]. done.
Qed.

Lemma served_from_cache_status (r : ProcessingResult) :
  served_from_cache r -> status r = VStatus CACHED.
Proof. by intros (d & r0 & _ & ->). Qed.

Lemma returns_process_file (file_path : string)
    (options : option (list (string * json))) (use_cache : bool) :
  returns (process_file env file_path options use_cache)
    (fun r => (use_cache = true /\ served_from_cache r /\
               status r = VStatus CACHED /\ raw_metadata r) \/
              (exportable r /\
               (status r = VStatus COMPLETED \/ status r = VStatus FAILED))).
Proof.
  unfold process_file.
  eapply returns_bind; [apply returns_any|]. intros _ _.
  eapply returns_bind; [apply returns_any|]. intros valid _.
  destruct valid; simpl.
  - eapply returns_bind; [apply returns_any|]. intros file_hash _. cbv zeta.
    eapply returns_bind; [apply returns_load_cached|]. intros hit Hhit.
    destruct hit as [result|].
    + apply returns_ret. left.
      destruct (Hhit result eq_refl) as (-> & Hserved).
      split; [done|]. split; [done|].
      split; [by apply served_from_cache_status|].
      destruct Hserved as (d & r0 & Hk & ->). by eapply kwargs_raw_metadata.
    + eapply returns_weaken; [apply returns_process_uncached|]. intros r Hr. by right.
  - apply returns_ret. right. split; [|by right].
    eexists _, FAILED. split; [reflexivity|]. split; [reflexivity|]. done.
Qed.

Lemma process_file_status_member (file_path : string)
    (options : option (list (string * json))) (use_cache : bool)
    (w : World) (r : ProcessingResult) :
  fst (process_file env file_path options use_cache w) = Returned r ->
  status_member r.
Proof.
  destruct (process_file env file_path options use_cache w) as [o w'] eqn:Hrun.
  simpl. intros ->.
  destruct (returns_process_file file_path options use_cache w r w' Hrun)
    as [(_ & _ & Hst & _) | (_ & [Hst | Hst])]; by eexists.
Qed.

(** X7. A result [process_file] returns is of one of two kinds. Either it
    was read from the cache directory, with caching enabled: its status is
    [CACHED] and its other attributes are the plain data of the entry. Or
    the pipeline built it: its status is [COMPLETED] or [FAILED], its
    [metadata] is a [DocumentMetadata], and a completed one holds a text, so
    that the three reports can render it. *)
Theorem process_file_result_kind (file_path : string)
    (options : option (list (string * json))) (use_cache : bool)
    (w w' : World) (r : ProcessingResult) :
  process_file env file_path options use_cache w = (Returned r, w') ->
  (use_cache = true /\ served_from_cache r /\ status r = VStatus CACHED /\
   raw_metadata r) \/
  (exportable r /\ (status r = VStatus COMPLETED \/ status r = VStatus FAILED)).
Proof. apply returns_process_file. Qed.

(** *** The results of a batch *)

(** What holds of the outcome of every pipeline holds of the outcome of
    every task that is done. *)
Lemma batch_outcomes (R : outcome ProcessingResult -> Prop)
    (file_paths : list string) (options : option (list (string * json)))
    (max_concurrent : Z) (schedule : list event) (w : World) (b : Batch) :
  (forall file_path w, R (fst (process_file env file_path options true w))) ->
  run_schedule env file_paths options schedule
    (batch_init file_paths max_concurrent w) = Some b ->
  forall i o, tasks b !! i = Some (Done o) -> R o.
Proof.
  intros HR.
  apply (run_schedule_invariant env
           (fun b => forall i o, tasks b !! i = Some (Done o) -> R o)).
  - intros [j|j] b0 b1 Hinv Hstep.
    + apply batch_step_acquire in Hstep as (_ & _ & ->). simpl.
      intros i o. rewrite list_lookup_insert_Some.
      intros [(_ & [=] & _) | (_ & Hi)]. eauto.
    + apply batch_step_complete in Hstep as (_ & fp & _ & ->). simpl.
      intros i o. rewrite list_lookup_insert_Some.
      intros [(_ & [= <-] & _) | (_ & Hi)]; eauto.
  - intros i o. unfold batch_init. simpl.
    rewrite lookup_replicate. by intros [[=] _].
Qed.

Lemma process_batch_cap (file_paths : list string)
    (options : option (list (string * json))) (max_concurrent : Z)
    (schedule : list event) (w w' : World) (rs : list ProcessingResult) :
  process_batch env file_paths options max_concurrent schedule w
    = Some (Returned rs, w') ->
  0 <= max_concurrent.
Proof.
  unfold process_batch. simpl. case_bool_decide; [discriminate | lia].
Qed.

(** The list a batch returns, element by element. *)
Lemma process_batch_results (R : outcome ProcessingResult -> Prop)
    (file_paths : list string) (options : option (list (string * json)))
    (max_concurrent : Z) (schedule : list event) (w w' : World)
    (rs : list ProcessingResult) :
  (forall file_path w, R (fst (process_file env file_path options true w))) ->
  process_batch env file_paths options max_concurrent schedule w
    = Some (Returned rs, w') ->
  length rs = length file_paths /\
  forall k r, rs !! k = Some r ->
    exists file_path o, file_paths !! k = Some file_path /\
      r = as_result env file_path o /\ R o.
Proof.
  intros HR Hrun.
  pose proof (process_batch_cap _ _ _ _ _ _ _ Hrun) as Hcap.
  destruct (process_batch_inv env _ _ _ _ _ _ _ Hcap Hrun)
    as (w1 & b & results & _ & _ & _ & _ & Hsched & Hgather & rs' & [= <-] & Hlen
        & Hnth & _).
  split; [done|]. intros k r Hk.
  pose proof (semaphore_invariant env _ _ _ _ _ _ Hsched) as (_ & _ & Htasks).
  pose proof Hgather as Hg. apply gather_spec in Hg.
  assert (Hresults : length results = length file_paths).
  { rewrite Hg, length_fmap in Htasks. done. }
  destruct (lookup_lt_is_Some_2 results k) as [o Ho].
  { apply lookup_lt_Some in Hk. lia. }
  destruct (Hnth k o Ho) as (fp & Hfp & Hr).
  exists fp, o. split; [done|]. split; [congruence|].
  eapply (batch_outcomes R); [exact HR | exact Hsched |].
  rewrite Hg, list_lookup_fmap, Ho. done.
Qed.

Lemma as_result_status_member (file_path : string) (o : outcome ProcessingResult) :
  (forall r, o = Returned r -> status_member r) ->
  status_member (as_result env file_path o).
Proof. intros Ho. destruct o as [r|e]; simpl; [by apply Ho | by eexists]. Qed.

End ResultKinds.

(** ** The commands *)

Section CommandProperties.

Context (env : Env) (fmt : Formatting).

Lemma get_statistics_run (w : World) :
  exists snap,
    get_statistics w = (Returned snap, w) /\
    snap_total_processed snap = total_processed (stats w) /\
    snap_successful snap = successful (stats w) /\
    snap_failed snap = failed (stats w) /\
    snap_cached snap = cached (stats w) /\
    (success_rate snap ==
       (100 * successful (stats w)) # Z.to_pos (Z.max (total_processed (stats w)) 1))%Q /\
    (cache_hit_rate snap ==
       (100 * cached (stats w)) # Z.to_pos (Z.max (total_processed (stats w)) 1))%Q.
Proof.
  unfold get_statistics, bind, gets, lift, ret. simpl.
  destruct (truediv_max (successful (stats w)) (total_processed (stats w)))
    as (q1 & -> & Hq1).
  destruct (truediv_max (cached (stats w)) (total_processed (stats w)))
    as (q2 & -> & Hq2).
  eexists. split; [reflexivity|]. simpl. by repeat split.
Qed.

(** The instance a command creates, and the pipeline run on it. *)
Lemma new_instance_run {A} (m : M A) (w : World) :
  (BrainSAITOCR_init;; m) w =
    m (mkWorld (files w) (cache w) (mkStats 0 0 0 0) (api_calls w) (sleeps w)
               (log_records w ++ [(INFO, "BrainSAIT OCR initialized successfully")])).
Proof. reflexivity. Qed.

Lemma process_file_raises (file_path : string)
    (options : option (list (string * json))) (use_cache : bool)
    (w w' : World) (e : exn) :
  process_file env file_path options use_cache w = (Raised e, w') ->
  e = os_error env file_path /\
  exists f, files w !! file_path = Some f /\ content f = None.
Proof.
  intros Hrun.
  destruct (process_file_cases env file_path options use_cache w)
    as (o & w1 & Hrun' & _ & Hcases).
  rewrite Hrun in Hrun'. injection Hrun' as <- <-.
  destruct Hcases as [(_ & [=] & _) | (_ & f & Hf & Hcases)].
  destruct Hcases as [(Hc & [= ->] & _) | (data & _ & Hcases)]; [by eauto|].
  cbv zeta in Hcases.
  destruct Hcases as [(_ & s & d & r0 & _ & _ & _ & [=] & _) | (_ & Hcases)].
  destruct Hcases as [(m & ocr & [=] & _) | (m & e' & [=] & _)].
Qed.

Lemma export_json_member (results : list ProcessingResult) (r : ProcessingResult)
    (output_file : option string) (out : gmap string string) (w : World) :
  r ∈ results -> status_member r ->
  exists e,
    export_results env fmt results JSON output_file out w = (Raised e, out, w) /\
    is_type_error e.
Proof.
  intros Hin [st Hst]. unfold export_results, export_content.
  destruct (encode_results_raises results r st Hin Hst) as (e & -> & He).
  by exists e.
Qed.

(** X8. The [process] command with [--format json] never gets to its
    output: whatever the document and the state, it ends with an exception,
    a [TypeError] of the JSON export when the pipeline returned a result,
    having printed nothing and written nothing to the output directory. *)
Theorem process_command_json_raises (args : ProcessArgs)
    (out : gmap string string) (w : World) :
  parg_format args = JSON ->
  exists e w',
    main_process env fmt args out w = (Raised e, mkConsole out [] w') /\
    (is_type_error e \/ e = os_error env (parg_file args)).
Proof.
  intros Hformat. unfold main_process. cbv zeta. rewrite new_instance_run.
  match goal with
  | |- context [process_file env ?fp ?o ?uc ?W] =>
      destruct (process_file env fp o uc W) as [[r|e] w1] eqn:Hrun
  end.
  - assert (Hst : status_member r).
    { eapply process_file_status_member. by rewrite Hrun. }
    rewrite Hformat.
    destruct (export_json_member [r] r (parg_output args) out w1 ltac:(by left) Hst)
      as (e & -> & He).
    exists e, w1. split; [done | by left].
  - apply process_file_raises in Hrun as (-> & _).
    eexists _, w1. split; [done | by right].
Qed.

(** X9. The [process] command with one of the report formats. When the
    pipeline serves the document from the cache the command ends with an
    [AttributeError] and gives no report. When the pipeline extracted the
    document or failed on it, the report is built: the command prints it and
    returns when no output file is named; it writes it under the name given,
    prints nothing and returns when that file can be written; and when the
    file cannot be opened for writing it ends with the error of [open],
    having printed and written nothing. *)
Theorem process_command_report (args : ProcessArgs)
    (out : gmap string string) (w : World) (r : ProcessingResult) (w1 : World) :
  parg_format args <> JSON ->
  (BrainSAITOCR_init;;
   process_file env (parg_file args)
     (Some [("extract_images", JBool (parg_extract_images args));
            ("preserve_formatting", JBool true);
            ("auto_translate", JBool (parg_auto_translate args))])
     (negb (parg_no_cache args))) w = (Returned r, w1) ->
  (status r = VStatus CACHED ->
   exists e, main_process env fmt args out w = (Raised e, mkConsole out [] w1) /\
     is_attribute_error e) /\
  (status r <> VStatus CACHED ->
   exists content,
     export_content env fmt [r] (parg_format args) = Returned content /\
     (no_output (parg_output args) = true ->
      exists c, main_process env fmt args out w = (Returned tt, c) /\
        printed c = [content] /\ outputs c = out) /\
     (forall name, parg_output args = Some name -> name <> "" ->
        write_error fmt name = None ->
        exists c, main_process env fmt args out w = (Returned tt, c) /\
          printed c = [] /\ outputs c = <[name := content]> out) /\
     (forall name e, parg_output args = Some name -> name <> "" ->
        write_error fmt name = Some e ->
        main_process env fmt args out w = (Raised e, mkConsole out [] w1))).
Proof.
  intros Hformat Hrun. unfold main_process. cbv zeta. rewrite Hrun.
  rewrite new_instance_run in Hrun.
  destruct (returns_process_file env _ _ _ _ _ _ Hrun)
    as [(_ & Hserved & Hst & Hraw) | (Hexp & Hst)].
  - split; [|by intros []]. intros _.
    destruct (report_raises env fmt [r] r (parg_format args) ltac:(by left)
                (or_introl Hraw) Hformat) as (e & He & Hattr).
    unfold export_results. rewrite He. by exists e.
  - split; [intros Hc; destruct Hst; congruence|]. intros _.
    destruct (export_content_exportable env fmt [r] (parg_format args))
      as (content & Hcontent); [by constructor | done | done |].
    exists content. split; [done|].
    unfold export_results. rewrite Hcontent. split; [|split].
    + intros Hno.
      assert (Hsame : match parg_output args with
                      | Some name =>
                          if bool_decide (name = "") then (Returned content, out, w1)
                          else match write_error fmt name with
                               | Some e => (Raised e, out, w1)
                               | None =>
                                   (Returned content, <[name := content]> out,
                                    snd (logger INFO ("Results exported to: "
                                                      +:+ output_path fmt name) w1))
                               end
                      | None => (Returned content, out, w1)
                      end = (Returned content, out, w1)).
      { destruct (parg_output args) as [name|]; [|done]. simpl in Hno.
        by rewrite Hno. }
      rewrite Hsame, Hno.
      destruct (get_statistics_run w1) as (snap & Hsnap & _).
      unfold bind at 1. rewrite Hsnap. simpl. eexists. by split.
    + intros name Hout Hname Hw. rewrite Hout. simpl.
      rewrite bool_decide_eq_false_2, Hw by done.
      match goal with
      | |- context [bind get_statistics _ ?W] =>
          destruct (get_statistics_run W) as (snap & Hsnap & _)
      end.
      unfold bind at 1. rewrite Hsnap. simpl. eexists. by split.
    + intros name e Hout Hname Hw. rewrite Hout.
      by rewrite bool_decide_eq_false_2, Hw.
Qed.

(** X10. The [batch] command without [--format] exports as JSON, and ends
    with a [TypeError] once the batch is processed: whatever results
    [main_batch] hands over, the export raises, nothing is printed and
    nothing is written to the output directory. *)
Theorem batch_command_default_format_raises (args : BatchArgs)
    (schedule : list event) (w w1 : World) (results : list ProcessingResult)
    (output : option string) (out : gmap string string) :
  main_batch env args schedule w = Some (Returned (Some results), w1) ->
  exists e,
    main_batch_export env fmt results batch_default_format output out w1
      = (Raised e, mkConsole out [] w1) /\
    is_type_error e.
Proof.
  unfold main_batch. cbv zeta.
  destruct (negb _); [discriminate|].
  destruct (concat _) as [|fp fps] eqn:Hpaths; [discriminate|].
  match goal with
  | |- context [bind ?m ?k w] => destruct (bind m k w) as [o0 w0]
  end.
  match goal with
  | |- context [process_batch env ?F ?O ?C schedule ?W] =>
      destruct (process_batch env F O C schedule W) as [[[rs|e] w2]|] eqn:Hrun;
        [|discriminate|discriminate]
  end.
  intros [= <- <-].
  destruct (process_batch_results env
              (fun o => forall r, o = Returned r -> status_member r)
              _ _ _ _ _ _ _
              ltac:(intros ? ? ? ?; by eapply process_file_status_member) Hrun)
    as (Hlen & Hnth).
  destruct rs as [|r rs]; [done|].
  destruct (Hnth 0%nat r eq_refl) as (fp' & o & _ & -> & Ho).
  destruct (export_json_member (as_result env fp' o :: rs) (as_result env fp' o)
              output out w2 ltac:(by left)
              (as_result_status_member env fp' o Ho)) as (e & He & Htype).
  exists e. unfold main_batch_export, batch_default_format. by rewrite He.
Qed.

End CommandProperties.

(** ** The system prompt, the digest and the cache directory *)

Section MaintenanceProperties.

Context (env : Env).

(** *** The system prompt *)

Lemma prompt_of_switches (o1 o2 : list (string * json)) :
  prompt_switches o1 = prompt_switches o2 ->
  _build_system_prompt o1 = _build_system_prompt o2.
Proof. unfold prompt_switches, _build_system_prompt. by intros [= -> -> -> ->]. Qed.

Lemma switches_of_prompt (o1 o2 : list (string * json)) :
  _build_system_prompt o1 = _build_system_prompt o2 ->
  prompt_switches o1 = prompt_switches o2.
Proof.
  unfold prompt_switches, _build_system_prompt. cbv zeta.
  destruct (truthy (dict_get_default "extract_images" (JBool false) o1)),
           (truthy (dict_get_default "preserve_formatting" (JBool true) o1)),
           (truthy (dict_get_default "extract_tables" (JBool true) o1)),
           (truthy (dict_get_default "auto_translate" (JBool false) o1)),
           (truthy (dict_get_default "extract_images" (JBool false) o2)),
           (truthy (dict_get_default "preserve_formatting" (JBool true) o2)),
           (truthy (dict_get_default "extract_tables" (JBool true) o2)),
           (truthy (dict_get_default "auto_translate" (JBool false) o2));
    intros H; try reflexivity;
    apply String.eqb_eq in H; vm_compute in H; discriminate H.
Qed.

(** X11. The system prompt is a function of four switches and of nothing
    else in the options: [extract_images] and [auto_translate], off when
    absent, and [preserve_formatting] and [extract_tables], on when absent,
    each read for its truth value. Two dictionaries of options give the same
    prompt exactly when they agree on the four. *)
Theorem system_prompt_switches (o1 o2 : list (string * json)) :
  _build_system_prompt o1 = _build_system_prompt o2 <->
  prompt_switches o1 = prompt_switches o2.
Proof. split; [apply switches_of_prompt | apply prompt_of_switches]. Qed.

(** *** The digest, chunk by chunk *)

Lemma file_read_spec (n : nat) (unread chunk rest : string) :
  file_read n unread = (chunk, rest) ->
  chunk +:+ rest = unread /\
  String.length unread = (String.length chunk + String.length rest)%nat /\
  (chunk = "" -> n = 0%nat \/ unread = "").
Proof.
  revert unread chunk rest. induction n as [|n IH]; intros unread chunk rest.
  - simpl. intros [= <- <-]. by repeat split; auto.
  - destruct unread as [|c unread]; simpl.
    + intros [= <- <-]. by repeat split; auto.
    + destruct (file_read n unread) as [chunk' rest'] eqn:Hread.
      intros [= <- <-]. destruct (IH _ _ _ Hread) as (Happ & Hlen & _).
      split; [by subst unread|]. split; [simpl; lia | done].
Qed.

Lemma fed_snoc (h : Hashlib) (chunks : list string) (chunk : string) :
  update h (fed h chunks) chunk = fed h (chunks ++ [chunk]).
Proof. unfold fed. by rewrite foldl_app. Qed.

(** The loop feeds the hash object chunks that make up the file. *)
Lemma hash_chunks_fed (h : Hashlib) (turns : nat) :
  forall (unread : string) (chunks : list string),
    (String.length unread < turns)%nat ->
    exists more,
      hash_chunks h turns unread (fed h chunks) = fed h (chunks ++ more) /\
      foldr String.app "" more = unread /\
      Forall (fun chunk => 0 < String.length chunk <= chunk_size)%nat more.
Proof.
  induction turns as [|turns IH]; intros unread chunks Hlen; [lia|].
  cbn [hash_chunks].
  destruct (file_read chunk_size unread) as [chunk rest] eqn:Hread.
  destruct (file_read_spec _ _ _ _ Hread) as (Happ & Hlength & Hempty).
  case_bool_decide as Hchunk.
  - exists []. rewrite app_nil_r. split; [done|]. split; [|done].
    destruct (Hempty Hchunk) as [Hsize | ->]; [discriminate Hsize | done].
  - rewrite fed_snoc.
    assert (0 < String.length chunk)%nat as Hpos by (destruct chunk; [done | simpl; lia]).
    destruct (IH rest (chunks ++ [chunk])) as (more & Hrun & Hmore & Hsizes); [lia|].
    exists (chunk :: more). rewrite Hrun, <- app_assoc. split; [done|].
    split; [simpl; by rewrite Hmore|].
    constructor; [|done]. split; [done|].
    clear -Hread. revert unread chunk rest Hread.
    generalize chunk_size. intros n. induction n as [|n IHn]; intros unread chunk rest.
    + simpl. intros [= <- <-]. simpl. lia.
    + destruct unread as [|c unread]; simpl; [intros [= <- <-]; simpl; lia|].
      destruct (file_read n unread) as [chunk' rest'] eqn:Hread.
      intros [= <- <-]. simpl. specialize (IHn _ _ _ Hread). lia.
Qed.

(** X12. The digest computed chunk by chunk is the digest of the file. For
    a hash object that obeys the law of [hashlib] (feeding chunks is feeding
    their concatenation), the loop of [_calculate_file_hash] over reads of
    4096 bytes ends and gives the digest of the whole content, for a file of
    any length, and fails where the file cannot be opened. *)
Theorem calculate_file_hash_chunks_agree (h : Hashlib) (file_path : string) (w : World) :
  hashlib_law env h ->
  _calculate_file_hash_chunks env h file_path w = _calculate_file_hash env file_path w.
Proof.
  intros Hlaw. unfold _calculate_file_hash_chunks, _calculate_file_hash, bind.
  destruct (read_bytes env file_path w) as [[data|e] w1]; [|done].
  unfold ret. f_equal. f_equal.
  destruct (hash_chunks_fed h (S (String.length data)) data []) as (more & Hrun & Hmore & _);
    [lia|].
  change (sha256 h) with (fed h []). rewrite Hrun. simpl.
  by rewrite Hlaw, Hmore.
Qed.

(** *** Clearing the cache *)

Lemma elem_of_glob_json (d : CacheDir) (c : gmap string string) (name : string) :
  (forall l, scandir d l ≡ₚ l) ->
  name ∈ glob_json d c <->
  matches_json name = true /\ (is_Some (c !! name) \/ name ∈ subdirectories d).
Proof.
  intros Hperm. unfold glob_json.
  rewrite list_elem_of_filter, (Hperm _), elem_of_app, list_elem_of_fmap.
  split.
  - intros (Hm & [([k v] & -> & Hin) | Hdir]); (split; [done|]); [left | by right].
    apply elem_of_map_to_list in Hin. by exists v.
  - intros (Hm & [[v Hv] | Hdir]); (split; [done|]); [left | by right].
    exists (name, v). split; [done|]. by apply elem_of_map_to_list.
Qed.

Lemma NoDup_glob_json (d : CacheDir) (c : gmap string string) :
  cache_dir_ok d c -> NoDup (glob_json d c).
Proof.
  intros (Hperm & Hdirs & Hnot). unfold glob_json. apply NoDup_filter.
  rewrite (Hperm _). apply NoDup_app. split; [apply NoDup_fst_map_to_list|].
  split; [|done]. intros name Hin Hdir.
  apply list_elem_of_fmap in Hin as ([k v] & -> & Hin).
  apply elem_of_map_to_list in Hin. destruct (Hnot _ Hdir) as [Hnone _].
  simpl in Hnone. congruence.
Qed.

(** The loop over entries that are listed once: it goes on as long as the
    stale entries it meets can be removed, and stops at the first that
    cannot. The stale entries [unlink] removes are files. *)
Lemma clear_loop_run (d : CacheDir) (cutoff_time : Q) (entries : list string) :
  forall (removed_count : Z) (w : World),
    NoDup entries ->
    (forall name, name ∈ entries -> Qlt_bool (st_mtime d name) cutoff_time = true ->
       unlink_error d name = None -> is_Some (cache w !! name)) ->
    exists o w',
      clear_loop d cutoff_time entries removed_count w = (o, w') /\
      files w' = files w /\ stats w' = stats w /\ api_calls w' = api_calls w /\
      sleeps w' = sleeps w /\ log_records w' = log_records w /\
      (forall name,
         cache w' !! name = cache w !! name \/
         name ∈ entries /\ Qlt_bool (st_mtime d name) cutoff_time = true /\
         unlink_error d name = None /\ cache w' !! name = None) /\
      ((exists n,
          o = Returned n /\
          (forall name, name ∈ entries ->
             Qlt_bool (st_mtime d name) cutoff_time = true ->
             unlink_error d name = None /\ cache w' !! name = None) /\
          n - removed_count = Z.of_nat (size (cache w)) - Z.of_nat (size (cache w')) /\
          0 <= n - removed_count)
       \/
       (exists e name,
          o = Raised e /\ name ∈ entries /\
          Qlt_bool (st_mtime d name) cutoff_time = true /\
          unlink_error d name = Some e /\ cache w' !! name = cache w !! name)).
Proof.
  induction entries as [|entry entries IH]; intros removed_count w Hnodup Hfiles.
  - exists (Returned removed_count), w. split; [done|]. do 5 (split; [done|]).
    split; [by left|]. left. exists removed_count. split; [done|].
    split; [by intros name ?%elem_of_nil|]. lia.
  - apply NoDup_cons in Hnodup as [Hfresh Hnodup]. cbn [clear_loop].
    destruct (Qlt_bool (st_mtime d entry) cutoff_time) eqn:Hold.
    + unfold bind at 1. unfold unlink.
      destruct (unlink_error d entry) as [e|] eqn:Herr.
      * exists (Raised e), w. split; [done|]. do 5 (split; [done|]).
        split; [by left|]. right. exists e, entry. split; [done|].
        split; [by left|]. done.
      * unfold modify. cbn beta iota.
        set (w1 := set_cache (delete entry (cache w)) w).
        destruct (Hfiles entry ltac:(by left) Hold Herr) as [v Hv].
        destruct (IH (removed_count + 1) w1 Hnodup)
          as (o & w' & Hrun & Hf & Hs & Ha & Hsl & Hl & Hcache & Hcases).
        { intros name Hin Hname Hn. simpl. rewrite lookup_delete_ne.
          - apply Hfiles; [by right | done | done].
          - intros <-. done. }
        assert (Hsize : size (cache w) = S (size (delete entry (cache w)))).
        { rewrite map_size_delete_Some by (by exists v).
          destruct (size (cache w)) eqn:Hsz; [|done].
          apply map_size_empty_inv in Hsz. rewrite Hsz, lookup_empty in Hv. done. }
        exists o, w'. split; [exact Hrun|]. do 5 (split; [done|]). split.
        -- intros name. destruct (decide (name = entry)) as [-> | Hne].
           ++ right. split; [by left|]. do 2 (split; [done|]).
              destruct (Hcache entry) as [-> | (Hin & _)]; [|done].
              simpl. apply lookup_delete_eq.
           ++ destruct (Hcache name) as [-> | (Hin & ? & ? & ?)].
              ** left. simpl. by apply lookup_delete_ne.
              ** right. split; [by right|]. done.
        -- destruct Hcases as [(n & -> & Hgone & Hcount & Hpos)
                              | (e & name & -> & Hin & Hname & Hn & Hsame)].
           ++ left. exists n. split; [done|]. split; [|simpl in Hcount; lia].
              intros name Hin Hname. apply elem_of_cons in Hin as [-> | Hin].
              ** split; [done|].
                 destruct (Hcache entry) as [-> | (Hin & _)]; [|done].
                 simpl. apply lookup_delete_eq.
              ** by apply Hgone.
           ++ right. exists e, name. split; [done|]. split; [by right|].
              do 2 (split; [done|]). rewrite Hsame. simpl.
              apply lookup_delete_ne. intros <-. done.
    + destruct (IH removed_count w Hnodup)
        as (o & w' & Hrun & Hf & Hs & Ha & Hsl & Hl & Hcache & Hcases).
      { intros name Hin. apply Hfiles. by right. }
      exists o, w'. split; [exact Hrun|]. do 5 (split; [done|]). split.
      * intros name. destruct (Hcache name) as [? | (Hin & ?)]; [by left|].
        right. split; [by right | done].
      * destruct Hcases as [(n & -> & Hgone & Hcount & Hpos)
                           | (e & name & -> & Hin & Hname & Hn & Hsame)].
        -- left. exists n. split; [done|]. split; [|done].
           intros name Hin Hname. apply elem_of_cons in Hin as [-> | Hin];
             [congruence | by apply Hgone].
        -- right. exists e, name. split; [done|]. split; [by right|]. done.
Qed.

(** [clear_cache], in either of the two ways it ends. *)
Lemma clear_cache_run (d : CacheDir) (current_time : Q) (older_than_days : Z)
    (w : World) :
  cache_dir_ok d (cache w) ->
  exists o w',
    clear_cache d current_time older_than_days w = (o, w') /\
    files w' = files w /\ stats w' = stats w /\ api_calls w' = api_calls w /\
    (forall name,
       cache w' !! name = cache w !! name \/
       stale d current_time older_than_days name = true /\
       unlink_error d name = None /\ cache w' !! name = None) /\
    ((exists n,
        o = Returned n /\
        (forall name, ~ blocked d current_time older_than_days (cache w) name) /\
        (forall name,
           cache w' !! name =
             if stale d current_time older_than_days name then None
             else cache w !! name) /\
        n = Z.of_nat (size (cache w)) - Z.of_nat (size (cache w')) /\ 0 <= n /\
        log_records w' =
          log_records w ++
            [(INFO, "Removed " +:+ pretty n +:+ " cache files older than "
                    +:+ pretty older_than_days +:+ " days")])
     \/
     (exists e name,
        o = Raised e /\ unlink_error d name = Some e /\
        blocked d current_time older_than_days (cache w) name /\
        cache w' !! name = cache w !! name /\
        log_records w' = log_records w)).
Proof.
  intros Hok. pose proof Hok as (Hperm & Hdirs & Hnot).
  unfold clear_cache. cbv zeta. unfold bind at 1. unfold gets. cbn beta iota.
  destruct (clear_loop_run d (cutoff current_time older_than_days)
              (glob_json d (cache w)) 0 w (NoDup_glob_json _ _ Hok))
    as (o & w1 & Hrun & Hf & Hs & Ha & Hsl & Hl & Hcache & Hcases).
  { intros name Hin _ Herr. apply (elem_of_glob_json _ _ _ Hperm) in Hin as [_ [? | Hdir]];
      [done|]. destruct (Hnot _ Hdir) as [_ [e He]]. congruence. }
  assert (Hstale : forall name,
            name ∈ glob_json d (cache w) ->
            Qlt_bool (st_mtime d name) (cutoff current_time older_than_days) = true ->
            stale d current_time older_than_days name = true).
  { intros name Hin Hold. apply (elem_of_glob_json _ _ _ Hperm) in Hin as [Hm _].
    unfold stale. by rewrite Hm, Hold. }
  unfold bind at 1. rewrite Hrun.
  destruct Hcases as [(n & -> & Hgone & Hcount & Hpos)
                     | (e & name & -> & Hin & Hname & Hn & Hsame)]; cbn beta iota.
  - eexists (Returned n), _. split; [reflexivity|]. simpl.
    do 3 (split; [done|]). split.
    { intros name. destruct (Hcache name) as [? | (Hin & Hold & ? & ?)]; [by left|].
      right. split; [by apply Hstale | done]. }
    left. exists n. split; [done|]. split; [|split; [|split; [lia|split; [lia|]]]].
    + intros name (Hlisted & Hst & [e He]).
      unfold stale in Hst. apply andb_true_iff in Hst as [Hm Hold].
      destruct (Hgone name) as [Hnone _]; [|done|congruence].
      by apply (elem_of_glob_json _ _ _ Hperm).
    + intros name. destruct (stale d current_time older_than_days name) eqn:Hst.
      * destruct (Hcache name) as [Heq | (_ & _ & _ & ?)]; [|done].
        rewrite Heq. destruct (cache w !! name) as [v|] eqn:Hv; [|done].
        unfold stale in Hst. apply andb_true_iff in Hst as [Hm Hold].
        destruct (Hgone name) as [_ Hnone]; [|done|congruence].
        apply (elem_of_glob_json _ _ _ Hperm). split; [done|]. left. by exists v.
      * destruct (Hcache name) as [? | (Hin & Hold & _)]; [done|].
        rewrite (Hstale name Hin Hold) in Hst. done.
    + by rewrite Hl.
  - exists (Raised e), w1. split; [reflexivity|]. do 3 (split; [done|]). split.
    { intros k. destruct (Hcache k) as [? | (Hink & Hold & ? & ?)]; [by left|].
      right. split; [by apply Hstale | done]. }
    right. exists e, name. split; [done|]. split; [done|]. split; [|done].
    pose proof Hin as Hlisted.
    apply (elem_of_glob_json _ _ _ Hperm) in Hlisted as [_ Hlisted].
    split; [done|]. split; [by apply Hstale | by exists e].
Qed.


(** X26. Clearing the cache a second time, at the same time and with the
    same age, after a first call that returned, finds nothing left to
    remove: it returns 0 and leaves the cache directory as the first call
    left it. *)
Theorem clear_cache_twice (d : CacheDir) (current_time : Q)
    (older_than_days : Z) (w w1 : World) (n : Z) :
  cache_dir_ok d (cache w) ->
  clear_cache d current_time older_than_days w = (Returned n, w1) ->
  exists w2,
    clear_cache d current_time older_than_days w1 = (Returned 0, w2) /\
    cache w2 = cache w1.
Proof.
  intros Hok Hfirst.
  destruct (clear_cache_run d current_time older_than_days w Hok)
    as (o & w1' & Hrun & _ & _ & _ & _ & Hcases).
  rewrite Hfirst in Hrun. injection Hrun as <- <-.
  destruct Hcases as [(n' & [= <-] & Hfree & Hlookup & _) | (e & name & [=] & _)].
  assert (Hok1 : cache_dir_ok d (cache w1)).
  { destruct Hok as (Hperm & Hdirs & Hnot). split; [done|]. split; [done|].
    intros name Hdir. destruct (Hnot name Hdir) as [Hnone Herr]. split; [|done].
    rewrite Hlookup, Hnone. by destruct (stale d current_time older_than_days name). }
  destruct (clear_cache_run d current_time older_than_days w1 Hok1)
    as (o2 & w2 & Hrun2 & _ & _ & _ & _ & Hcases2).
  destruct Hcases2 as [(n2 & -> & _ & Hlookup2 & Hn2 & _)
                      | (e & name & _ & _ & Hblocked & _)].
  - assert (Hsame : cache w2 = cache w1).
    { apply map_eq. intros name. rewrite Hlookup2.
      destruct (stale d current_time older_than_days name) eqn:Hstale; [|done].
      by rewrite Hlookup, Hstale. }
    exists w2. split; [|done]. rewrite Hrun2. do 2 f_equal. rewrite Hn2, Hsame. lia.
  - destruct Hblocked as ([Hfile | Hdir] & Hstale & Herr).
    + rewrite Hlookup, Hstale in Hfile. by destruct Hfile.
    + destruct (Hfree name). split; [by right | done].
Qed.

End MaintenanceProperties.

(** ** Counters, calls and cache entries *)

Section AccountingProperties.

Context (env : Env).

(** What one run of the pipeline does to the counters, to the cache
    directory and to the number of calls, by the kind of its outcome. *)
Lemma process_file_summary (file_path : string)
    (options : option (list (string * json))) (use_cache : bool) (w : World) :
  exists o w',
    process_file env file_path options use_cache w = (o, w') /\
    files w' = files w /\
    ((((exists r, o = Returned r /\ status r = VStatus FAILED) \/
       (exists e, o = Raised e)) /\
      stats w' = stats w /\ cache w' = cache w /\ api_calls w' = api_calls w)
     \/
     ((exists r, o = Returned r /\ status r = VStatus CACHED) /\ use_cache = true /\
      stats w' = plus_stats (stats w) 0 0 0 1 /\ cache w' = cache w /\
      api_calls w' = api_calls w)
     \/
     ((exists r, o = Returned r /\ status r = VStatus COMPLETED) /\
      stats w' = plus_stats (stats w) 1 1 0 0 /\
      (exists cache_path,
         cache w' = if use_cache then <[cache_path := ""]> (cache w) else cache w) /\
      (api_calls w < api_calls w' <= api_calls w + 3)%nat)
     \/
     ((exists r, o = Returned r /\ status r = VStatus FAILED) /\
      stats w' = plus_stats (stats w) 1 0 1 0 /\ cache w' = cache w /\
      (api_calls w < api_calls w' <= api_calls w + 3)%nat)).
Proof.
  destruct (process_file_cases env file_path options use_cache w)
    as (o & w' & Hrun & Hfiles & Hcases).
  exists o, w'. split; [done|]. split; [done|].
  destruct Hcases as [(_ & -> & Hs & Hc & Ha) | (_ & f & _ & Hcases)].
  { left. split; [left; by eexists|]. done. }
  destruct Hcases as [(_ & -> & Hs & Hc & Ha) | (data & _ & Hcases)].
  { left. split; [right; by eexists|]. done. }
  cbv zeta in Hcases.
  destruct Hcases as [(Huc & s & d & r0 & _ & _ & _ & -> & Hs & Hc & Ha) | (_ & Hcases)].
  { right. left. split; [by eexists|]. done. }
  destruct Hcases as [(m & ocr & -> & _ & Hs & Hc & Ha) | (m & e & -> & _ & Hs & Hc & Ha)].
  - right. right. left. split; [by eexists|]. split; [done|]. split; [by eexists|]. done.
  - right. right. right. split; [by eexists|]. done.
Qed.

(** X14. [process_file] keeps the counters in order: if every document
    counted in [total_processed] is counted as successful or as failed and
    no counter is negative, the same holds after the call, whether it
    returns or raises; and no counter ever goes down. *)
Theorem process_file_keeps_counters (file_path : string)
    (options : option (list (string * json))) (use_cache : bool) (w : World) :
  stats_consistent (stats w) ->
  stats_consistent (stats (snd (process_file env file_path options use_cache w))) /\
  stats_le (stats w) (stats (snd (process_file env file_path options use_cache w))).
Proof.
  intros (Htotal & Hs & Hf & Hc).
  destruct (process_file_summary file_path options use_cache w)
    as (o & w' & -> & _ & Hcases). simpl.
  unfold stats_consistent, stats_le.
  destruct Hcases as [(_ & -> & _) | [(_ & _ & -> & _) | [(_ & -> & _) | (_ & -> & _)]]];
    simpl; lia.
Qed.

(** X15. With the counters in that order the success rate [get_statistics]
    reports lies between 0 and 100, and the cache hit rate is not
    negative. *)
Theorem success_rate_is_a_percentage (w : World) :
  stats_consistent (stats w) ->
  exists snap,
    get_statistics w = (Returned snap, w) /\
    (0 <= success_rate snap)%Q /\ (success_rate snap <= 100)%Q /\
    (0 <= cache_hit_rate snap)%Q.
Proof.
  intros (Htotal & Hs & Hf & Hc).
  destruct (get_statistics_run w) as (snap & Hrun & _ & _ & _ & _ & Hr1 & Hr2).
  exists snap. split; [done|]. rewrite Hr1, Hr2.
  assert (Hmax : Z.pos (Z.to_pos (Z.max (total_processed (stats w)) 1))
                 = Z.max (total_processed (stats w)) 1) by (apply Z2Pos.id; lia).
  unfold Qle. simpl. rewrite Hmax. lia.
Qed.

(** *** A batch, step by step *)

Lemma count_tasks_insert (f : task_state -> bool) (ts : list task_state)
    (i : nat) (t t' : task_state) :
  ts !! i = Some t ->
  count_tasks f (<[i := t']> ts) = count_tasks f ts - Z.b2z (f t) + Z.b2z (f t').
Proof.
  unfold count_tasks. revert i. induction ts as [|t0 ts IH]; intros i; [done|].
  destruct i as [|i]; simpl.
  - intros [= ->]. destruct (f t), (f t'); simpl; lia.
  - intros Hi. specialize (IH i Hi). destruct (f t0); simpl; lia.
Qed.

Lemma count_tasks_waiting (f : task_state -> bool) (n : nat) :
  f Waiting = false -> count_tasks f (replicate n Waiting) = 0.
Proof.
  intros Hf. unfold count_tasks. induction n as [|n IH]; simpl; [done|].
  by rewrite Hf.
Qed.

Lemma returned_with_status (st s : ProcessingStatus) (r : ProcessingResult) :
  status r = VStatus s -> returned_with st (Done (Returned r)) = status_eqb s st.
Proof. intros Hs. simpl. unfold status_is. by rewrite Hs. Qed.

Lemma batch_books (file_paths : list string)
    (options : option (list (string * json))) (max_concurrent : Z)
    (schedule : list event) (w : World) (b : Batch) :
  run_schedule env file_paths options schedule
    (batch_init file_paths max_concurrent w) = Some b ->
  books w b.
Proof.
  apply (run_schedule_invariant env (books w)).
  - intros [j|j] b0 b1 Hinv Hstep.
    + apply batch_step_acquire in Hstep as (Hj & _ & ->).
      unfold books in *. simpl.
      rewrite !(count_tasks_insert _ _ _ _ _ Hj). simpl.
      rewrite !Z.sub_0_r, !Z.add_0_r. exact Hinv.
    + apply batch_step_complete in Hstep as (Hj & fp & _ & ->).
      destruct (process_file_summary fp options true (world b0))
        as (o & w' & Hrun & Hfiles' & Hcases).
      rewrite Hrun. unfold books in *. cbv zeta in *. simpl.
      rewrite !(count_tasks_insert _ _ _ _ _ Hj).
      change (returned_with COMPLETED InFlight) with false.
      change (returned_with CACHED InFlight) with false.
      change (returned_with FAILED InFlight) with false.
      destruct Hinv as (Hs & Hc & Hf & Ht & Ha & Hfiles & Hcache).
      destruct Hcases
        as [(Ho & Hst & Hca & Hap)
           | [((r & -> & Hr) & _ & Hst & Hca & Hap)
             | [((r & -> & Hr) & Hst & (cp & Hca) & Hap)
               | ((r & -> & Hr) & Hst & Hca & Hap)]]].
      * assert (returned_with COMPLETED (Done o) = false /\
                returned_with CACHED (Done o) = false) as (-> & ->).
        { destruct Ho as [(r & -> & Hr) | (e & ->)].
          - rewrite !(returned_with_status _ FAILED r Hr). done.
          - done. }
        rewrite Hst, Hap, Hfiles'.
        destruct (returned_with FAILED (Done o)); simpl;
          (do 5 (split; [lia|])); (split; [done|]); intros name; rewrite Hca;
          apply Hcache.
      * rewrite !(returned_with_status _ CACHED r Hr), Hst, Hap, Hfiles'. simpl.
        do 5 (split; [lia|]). split; [done|]. intros name. rewrite Hca. apply Hcache.
      * rewrite !(returned_with_status _ COMPLETED r Hr), Hst, Hfiles'. simpl.
        do 5 (split; [lia|]). split; [done|].
        intros name. rewrite Hca. destruct (decide (cp = name)) as [-> | Hne].
        -- right. apply lookup_insert_eq.
        -- rewrite lookup_insert_ne by done. apply Hcache.
      * rewrite !(returned_with_status _ FAILED r Hr), Hst, Hfiles'. simpl.
        do 5 (split; [lia|]). split; [done|]. intros name. rewrite Hca. apply Hcache.
  - unfold books, batch_init. simpl.
    rewrite !count_tasks_waiting by done.
    do 5 (split; [lia|]). split; [done|]. by left.
Qed.

(** The results of a batch against its tasks. *)
Lemma count_status_as_result (st : ProcessingStatus) (file_paths : list string)
    (os : list (outcome ProcessingResult)) :
  forall (i : nat) (rs : list ProcessingResult),
    length rs = length os ->
    (forall k o, os !! k = Some o ->
       exists file_path, rs !! k = Some (as_result env file_path o)) ->
    (st <> FAILED ->
     Z.of_nat (count_status st rs) = count_tasks (returned_with st) (Done <$> os)) /\
    count_tasks (returned_with st) (Done <$> os) <= Z.of_nat (count_status st rs).
Proof.
  unfold count_status, count_tasks.
  induction os as [|o os IH]; intros i rs Hlen Hnth.
  - destruct rs; [|done]. simpl. split; [done | lia].
  - destruct rs as [|r rs]; [done|].
    destruct (Hnth 0%nat o eq_refl) as (fp & [= ->]).
    destruct (IH i rs) as (Heq & Hle).
    { simpl in Hlen. lia. }
    { intros k o' Hk. apply (Hnth (S k) o' Hk). }
    change (Done <$> o :: os) with (Done o :: (Done <$> os)).
    cbn [List.filter].
    destruct o as [r|e].
    + change (as_result env fp (Returned r)) with r.
      change (returned_with st (Done (Returned r))) with (status_is st r).
      destruct (status_is st r); cbn [length];
        (split; [intros Hst; specialize (Heq Hst); lia | lia]).
    + change (returned_with st (Done (Raised e))) with false.
      change (status_is st (as_result env fp (Raised e))) with (status_eqb FAILED st).
      destruct st; cbn [status_eqb length];
        (split; [intros Hst; try done; specialize (Heq Hst); lia | lia]).
Qed.

Lemma process_batch_unfold (file_paths : list string)
    (options : option (list (string * json))) (max_concurrent : Z)
    (schedule : list event) (w w' : World) (rs : list ProcessingResult) :
  process_batch env file_paths options max_concurrent schedule w
    = Some (Returned rs, w') ->
  exists w1 b results,
    files w1 = files w /\ cache w1 = cache w /\ stats w1 = stats w /\
    api_calls w1 = api_calls w /\
    run_schedule env file_paths options schedule
      (batch_init file_paths max_concurrent w1) = Some b /\
    tasks b = Done <$> results /\
    length rs = length results /\ length rs = length file_paths /\
    (forall k o, results !! k = Some o ->
       exists file_path, file_paths !! k = Some file_path /\
         rs !! k = Some (as_result env file_path o)) /\
    files w' = files (world b) /\ cache w' = cache (world b) /\
    stats w' = stats (world b) /\ api_calls w' = api_calls (world b).
Proof.
  unfold process_batch, logger, modify. cbn beta iota.
  case_bool_decide; [discriminate|].
  match goal with
  | |- context [run_schedule env file_paths options schedule ?B] =>
      destruct (run_schedule env file_paths options schedule B) as [b|] eqn:Hrun
  end; [|discriminate].
  destruct (gather (tasks b)) as [results|] eqn:Hgather; [|discriminate].
  destruct (semaphore_invariant env _ _ _ _ _ _ Hrun) as (_ & _ & Hlen).
  apply gather_spec in Hgather.
  assert (Hlen' : length results = length file_paths).
  { rewrite Hgather, length_fmap in Hlen. done. }
  destruct (handle_exceptions_run env file_paths results 0 (world b))
    as (rs' & w1 & Hh & Hrs & Hnth & Hf & Hc & Hs & Ha & Hsl); [simpl; lia|].
  unfold bind at 1. rewrite Hh. unfold bind, gets, ret. cbn beta iota.
  intros [= <- <-].
  match type of Hrun with
  | run_schedule _ _ _ _ (batch_init _ _ ?W) = _ => exists W, b, results
  end.
  simpl. do 4 (split; [reflexivity|]). split; [exact Hrun|]. split; [done|].
  split; [done|]. split; [lia|]. split; [exact Hnth|]. done.
Qed.

Lemma process_batch_books (file_paths : list string)
    (options : option (list (string * json))) (max_concurrent : Z)
    (schedule : list event) (w w' : World) (rs : list ProcessingResult) :
  process_batch env file_paths options max_concurrent schedule w
    = Some (Returned rs, w') ->
  exists ts results,
    books w (mkBatch ts 0 w') /\
    ts = Done <$> results /\
    length rs = length results /\ length rs = length file_paths /\
    forall k o, results !! k = Some o ->
      exists file_path, rs !! k = Some (as_result env file_path o).
Proof.
  intros Hrun.
  destruct (process_batch_unfold _ _ _ _ _ _ _ Hrun)
    as (w1 & b & results & Hf1 & Hc1 & Hs1 & Ha1 & Hsched & Htasks & Hlen & Hlen'
        & Hnth & Hf' & Hc' & Hs' & Ha').
  pose proof (batch_books _ _ _ _ _ _ Hsched) as Hbooks.
  exists (tasks b), results. split; [|split; [done|split; [done|split; [done|]]]].
  - unfold books in *. cbv zeta in *. simpl.
    rewrite Hs', <- Hs1, Ha', <- Ha1, Hf', <- Hf1.
    destruct Hbooks as (? & ? & ? & ? & ? & ? & Hcache).
    do 6 (split; [done|]). intros name. rewrite Hc', <- Hc1. apply Hcache.
  - intros k o Hk. destruct (Hnth k o Hk) as (fp & _ & ?). eauto.
Qed.

(** X16. The counters after a batch, read off its results: [successful]
    has grown by the number of completed results and [cached] by the
    number of cached results; [failed] has grown by at most the number of
    failed results, the documents turned down by the admission check and the
    pipelines that raised being failed results that are not counted; and
    [total_processed] has grown by the two together. *)
Theorem batch_counters_match_results (file_paths : list string)
    (options : option (list (string * json))) (max_concurrent : Z)
    (schedule : list event) (w w' : World) (rs : list ProcessingResult) :
  process_batch env file_paths options max_concurrent schedule w
    = Some (Returned rs, w') ->
  successful (stats w') = successful (stats w) + Z.of_nat (count_status COMPLETED rs) /\
  cached (stats w') = cached (stats w) + Z.of_nat (count_status CACHED rs) /\
  failed (stats w) <= failed (stats w')
    <= failed (stats w) + Z.of_nat (count_status FAILED rs) /\
  total_processed (stats w') - total_processed (stats w)
    = (successful (stats w') - successful (stats w))
      + (failed (stats w') - failed (stats w)).
Proof.
  intros Hrun.
  destruct (process_batch_books _ _ _ _ _ _ _ Hrun)
    as (ts & results & Hbooks & -> & Hlen & _ & Hnth).
  destruct Hbooks as (Hs & Hc & Hf & Ht & _). simpl in *.
  destruct (count_status_as_result COMPLETED file_paths results 0 rs Hlen Hnth)
    as (Hcompleted & _).
  destruct (count_status_as_result CACHED file_paths results 0 rs Hlen Hnth)
    as (Hcached & _).
  destruct (count_status_as_result FAILED file_paths results 0 rs Hlen Hnth)
    as (_ & Hfailed).
  rewrite Hcompleted, Hcached by done. repeat split; lia.
Qed.

(** X17. The calls a batch makes to the extraction service, against its
    counters: every document it counts in [total_processed] cost one call at
    least and three at most, and no other document cost any. The documents
    themselves are never written. *)
Theorem batch_call_budget (file_paths : list string)
    (options : option (list (string * json))) (max_concurrent : Z)
    (schedule : list event) (w w' : World) (rs : list ProcessingResult) :
  process_batch env file_paths options max_concurrent schedule w
    = Some (Returned rs, w') ->
  total_processed (stats w') - total_processed (stats w)
    <= Z.of_nat (api_calls w') - Z.of_nat (api_calls w)
    <= 3 * (total_processed (stats w') - total_processed (stats w)) /\
  Z.of_nat (api_calls w') - Z.of_nat (api_calls w)
    <= 3 * (Z.of_nat (length file_paths) - Z.of_nat (count_status CACHED rs)) /\
  files w' = files w.
Proof.
  intros Hrun.
  destruct (process_batch_books _ _ _ _ _ _ _ Hrun)
    as (ts & results & Hbooks & -> & Hlen & Hlen' & Hnth).
  destruct Hbooks as (Hs & Hc & Hf & Ht & Ha & Hfiles & _). simpl in *.
  split; [exact Ha|]. split; [|exact Hfiles].
  destruct (count_status_as_result COMPLETED file_paths results 0 rs Hlen Hnth)
    as (Hcompleted & _).
  destruct (count_status_as_result CACHED file_paths results 0 rs Hlen Hnth)
    as (Hcached & _).
  destruct (count_status_as_result FAILED file_paths results 0 rs Hlen Hnth)
    as (_ & Hfailed).
  specialize (Hcompleted ltac:(done)). specialize (Hcached ltac:(done)).
  assert (Hsum : Z.of_nat (count_status COMPLETED rs) + Z.of_nat (count_status CACHED rs)
                 + Z.of_nat (count_status FAILED rs) <= Z.of_nat (length rs)).
  { clear. unfold count_status. induction rs as [|r rs IH]; [simpl; lia|].
    cbn [List.filter].
    destruct (status_is COMPLETED r) eqn:H1, (status_is CACHED r) eqn:H2,
             (status_is FAILED r) eqn:H3; cbn [length]; try lia;
      unfold status_is in *; destruct (status r) as [j|s|m|o]; try done;
      by destruct s. }
  lia.
Qed.

(** X18. The cache directory after a batch: no entry is removed, and an
    entry that differs from what it was before, or that is new, is an empty
    file. *)
Theorem cache_entries_kept_or_emptied (file_paths : list string)
    (options : option (list (string * json))) (max_concurrent : Z)
    (schedule : list event) (w w' : World) (rs : list ProcessingResult) :
  process_batch env file_paths options max_concurrent schedule w
    = Some (Returned rs, w') ->
  forall name,
    cache w' !! name = cache w !! name \/ cache w' !! name = Some "".
Proof.
  intros Hrun.
  destruct (process_batch_books _ _ _ _ _ _ _ Hrun) as (ts & results & Hbooks & _).
  destruct Hbooks as (_ & _ & _ & _ & _ & _ & Hcache). exact Hcache.
Qed.

(** X19. With [use_cache] off, [process_file] neither reads nor writes the
    cache directory: the directory is as it was, the [cached] counter is as
    it was, and the result, if there is one, does not have the status
    [CACHED]. With [use_cache] on, the one entry it may write is an empty
    file. *)
Theorem process_file_without_cache (file_path : string)
    (options : option (list (string * json))) (use_cache : bool) (w : World) :
  let o := fst (process_file env file_path options use_cache w) in
  let w' := snd (process_file env file_path options use_cache w) in
  (use_cache = false ->
   cache w' = cache w /\ cached (stats w') = cached (stats w) /\
   forall r, o = Returned r -> status r <> VStatus CACHED) /\
  (forall name, cache w' !! name = cache w !! name \/ cache w' !! name = Some "").
Proof.
  cbv zeta.
  destruct (process_file_summary file_path options use_cache w)
    as (o & w' & -> & _ & Hcases). simpl.
  destruct Hcases
    as [(Ho & Hst & Hca & _)
       | [((r & -> & Hr) & Huc & Hst & Hca & _)
         | [((r & -> & Hr) & Hst & (cp & Hca) & _)
           | ((r & -> & Hr) & Hst & Hca & _)]]].
  - split; [|intros name; left; by rewrite Hca].
    intros _. rewrite Hst, Hca. do 2 (split; [done|]).
    intros r ->. destruct Ho as [(r' & [= <-] & Hr) | (e & [=])]. congruence.
  - split; [congruence|]. intros name; left; by rewrite Hca.
  - split.
    + intros ->. rewrite Hst, Hca. simpl. split; [done|]. split; [lia|].
      intros r' [= <-]. congruence.
    + intros name. rewrite Hca. destruct use_cache; [|by left].
      destruct (decide (cp = name)) as [-> | Hne].
      * right. apply lookup_insert_eq.
      * left. by rewrite lookup_insert_ne.
  - split; [|intros name; left; by rewrite Hca].
    intros _. rewrite Hst, Hca. simpl. split; [done|]. split; [lia|].
    intros r' [= <-]. congruence.
Qed.

(** X20. [_call_mistral_ocr_api] calls the extraction service exactly when
    it can read the document. On a path that does not exist or that cannot
    be opened it raises the error of the operating system and leaves
    everything as it was: no call, no wait, no record in the log. On a
    document it can read it makes between one and three calls, and the first
    thing it logs is the first attempt. *)
Theorem call_api_needs_the_document (file_path : string)
    (options : option (list (string * json))) (w : World) :
  let o := fst (_call_mistral_ocr_api env file_path options w) in
  let w' := snd (_call_mistral_ocr_api env file_path options w) in
  let readable :=
    exists f data, files w !! file_path = Some f /\ content f = Some data in
  (api_calls w' = api_calls w <-> ~ readable) /\
  (~ readable -> o = Raised (os_error env file_path) /\ w' = w) /\
  (readable ->
   (api_calls w < api_calls w' <= api_calls w + 3)%nat /\
   exists rest,
     log_records w' =
       log_records w ++ (INFO, "Calling Mistral OCR API (attempt 1/3)") :: rest).
Proof.
  cbv zeta.
  destruct (files w !! file_path) as [f|] eqn:Hf.
  2: { assert (Hrun : _call_mistral_ocr_api env file_path options w
                      = (Raised (os_error env file_path), w)).
       { unfold _call_mistral_ocr_api, read_bytes, path_stat, bind, gets, ret, raise.
         cbn beta iota zeta. by rewrite Hf. }
       rewrite Hrun. simpl. split; [|split].
       - split; [|done]. intros _ (f & data & [=] & _).
       - done.
       - intros (f & data & [=] & _). }
  destruct (content f) as [data|] eqn:Hdata.
  2: { assert (Hrun : _call_mistral_ocr_api env file_path options w
                      = (Raised (os_error env file_path), w)).
       { unfold _call_mistral_ocr_api, read_bytes, path_stat, bind, gets, ret, raise.
         cbn beta iota zeta. rewrite Hf. cbn beta iota. by rewrite Hdata. }
       rewrite Hrun. simpl. split; [|split].
       - split; [|done]. intros _ (f' & data & [= <-] & ?). congruence.
       - done.
       - intros (f' & data & [= <-] & ?). congruence. }
  pose proof (call_api_once env file_path options w f data Hf Hdata) as Honce.
  pose proof (call_api_frame env file_path options w) as (_ & _ & _ & Hcalls & _).
  split; [|split].
  - split; [lia|]. intros Hno. destruct Hno. by exists f, data.
  - intros Hno. destruct Hno. by exists f, data.
  - intros _. split; [lia|].
    unfold _call_mistral_ocr_api, bind.
    rewrite (read_bytes_run env _ _ _ _ Hf Hdata).
    change (seq 0 API_RETRY_ATTEMPTS) with [0; 1; 2]%nat.
    unfold retry_loop, try_except, bind, logger, modify, chat_complete, ret, raise,
           asyncio_sleep.
    simpl.
    repeat (match goal with
            | |- context [client env ?n ?r] => destruct (client env n r); simpl
            end);
      rewrite <- ?app_assoc; eexists; reflexivity.
Qed.

(** X25. A batch keeps the counters in order, as one call of
    [process_file] does: counters that were consistent before the batch are
    consistent after it, and none has gone down. *)
Theorem batch_keeps_counters (file_paths : list string)
    (options : option (list (string * json))) (max_concurrent : Z)
    (schedule : list event) (w w' : World) (rs : list ProcessingResult) :
  stats_consistent (stats w) ->
  process_batch env file_paths options max_concurrent schedule w
    = Some (Returned rs, w') ->
  stats_consistent (stats w') /\ stats_le (stats w) (stats w').
Proof.
  intros (Htotal & Hs & Hf & Hc) Hrun.
  destruct (process_batch_books _ _ _ _ _ _ _ Hrun) as (ts & results & Hbooks & _).
  destruct Hbooks as (Hs' & Hc' & Hf' & Ht' & _). simpl in *.
  assert (Hnonneg : forall f, 0 <= count_tasks f ts) by (intros f; unfold count_tasks; lia).
  pose proof (Hnonneg (returned_with COMPLETED)).
  pose proof (Hnonneg (returned_with CACHED)).
  unfold stats_consistent, stats_le. lia.
Qed.

End AccountingProperties.

(** ** The attributes of a result *)

Section AttributeProperties.

Context (env : Env).




(** *** The name of a cache entry *)

Lemma string_app_length (s1 s2 : string) :
  String.length (s1 +:+ s2) = (String.length s1 + String.length s2)%nat.
Proof. induction s1 as [|c s1 IH]; simpl; [done | by rewrite IH]. Qed.

Lemma string_app_inv_tail (s1 s2 suffix : string) :
  s1 +:+ suffix = s2 +:+ suffix -> s1 = s2.
Proof.
  revert s2. induction s1 as [|c s1 IH]; intros [|c' s2] H; simpl in H.
  - done.
  - apply (f_equal String.length) in H. simpl in H.
    rewrite !string_app_length in H. simpl in H. lia.
  - apply (f_equal String.length) in H. simpl in H.
    rewrite !string_app_length in H. simpl in H. lia.
  - injection H as -> H. f_equal. by apply IH.
Qed.

Lemma substring_suffix (s suffix : string) :
  String.substring (String.length (s +:+ suffix) - String.length suffix)
                   (String.length suffix) (s +:+ suffix) = suffix.
Proof.
  induction s as [|c s IH].
  - change ("" +:+ suffix) with suffix. rewrite Nat.sub_diag. clear.
    induction suffix as [|c suffix IH]; [done|].
    cbn [String.length String.substring]. by rewrite IH.
  - change (String c s +:+ suffix) with (String c (s +:+ suffix)).
    cbn [String.length]. rewrite string_app_length in *.
    replace (S (String.length s + String.length suffix) - String.length suffix)%nat
      with (S (String.length s + String.length suffix - String.length suffix)) by lia.
    cbn [String.substring]. exact IH.
Qed.

(** X22. The name of a cache entry determines the digest: two digests
    that differ never share an entry. And every entry the pipeline names is
    one the pattern of [clear_cache] matches. *)
Theorem cache_path_of_digest (h1 h2 : string) :
  (_get_cache_path h1 = _get_cache_path h2 <-> h1 = h2) /\
  matches_json (_get_cache_path h1) = true.
Proof.
  unfold _get_cache_path. split; [split|].
  - apply string_app_inv_tail.
  - by intros ->.
  - unfold matches_json. rewrite andb_true_iff, !bool_decide_eq_true. split.
    + rewrite string_app_length. simpl. lia.
    + apply (substring_suffix h1 ".json").
Qed.

End AttributeProperties.

(** ** The maintenance commands *)

Section MaintenanceCommands.

Context (env : Env) (fmt : Formatting).

(** X23. The [clear-cache] command reads [args.api_key], an attribute its
    parser does not declare: on a namespace without it the command raises
    [AttributeError] before it looks at the cache directory, and removes
    nothing. *)
Theorem clear_cache_command_raises (d : CacheDir) (current_time : Q)
    (args : Namespace) (w : World) :
  dict_get "api_key" args = None ->
  main_clear_cache env d current_time args w
    = (Raised (attribute_error "api_key"), w).
Proof.
  intros Hkey. unfold main_clear_cache, bind, lift, getattr. by rewrite Hkey.
Qed.

(** X24. The [stats] command creates an instance of its own and reads the
    counters of that instance: whatever was processed before, it prints
    four counters at zero and two rates at zero, and without a key it prints
    nothing. *)
Theorem stats_command_prints_zeros (api_key : option string) (w : World) :
  exists c,
    main_stats fmt api_key w = (Returned tt, c) /\
    outputs c = ∅ /\ files (state c) = files w /\ cache (state c) = cache w /\
    (no_output api_key = true -> printed c = []) /\
    (no_output api_key = false ->
     printed c =
       [str_mul "=" 30; "Total Processed: 0"; "Successful: 0"; "Failed: 0";
        "Cached: 0"; "Success Rate: " +:+ format_1f fmt 0 +:+ "%";
        "Cache Hit Rate: " +:+ format_1f fmt 0 +:+ "%"]).
Proof.
  unfold main_stats. destruct (no_output api_key); simpl.
  - eexists. split; [reflexivity|]. simpl. by repeat split.
  - eexists. split; [reflexivity|]. simpl. by repeat split.
Qed.

End MaintenanceCommands.

(** ** The [process] command without the cache *)

Section ProcessWithoutCache.

Context (env : Env) (fmt : Formatting).

(** X27. The [process] command honours [--no-cache], unlike [batch]: with
    the flag and a report format the cache directory is the same after the
    command as before, the command never fails on a cached result, and it
    ends in one of three ways only: it returns, having counted one document
    at most; or the document cannot be read and it raises the error of the
    operating system; or the output file it is given cannot be opened for
    writing and it raises the error of [open]. In the last two cases nothing
    is printed or written. *)
Theorem process_command_without_cache (args : ProcessArgs)
    (out : gmap string string) (w : World) :
  parg_no_cache args = true -> parg_format args <> JSON ->
  exists o c,
    main_process env fmt args out w = (o, c) /\
    cache (state c) = cache w /\ files (state c) = files w /\
    (o = Returned tt /\ 0 <= total_processed (stats (state c)) <= 1 \/
     o = Raised (os_error env (parg_file args)) /\
     printed c = [] /\ outputs c = out \/
     exists name e,
       parg_output args = Some name /\ name <> "" /\
       write_error fmt name = Some e /\
       o = Raised e /\ printed c = [] /\ outputs c = out).
Proof.
  intros Hflag Hformat. unfold main_process. cbv zeta. rewrite new_instance_run.
  rewrite Hflag. simpl negb.
  match goal with
  | |- context [process_file env ?fp ?o false ?W] =>
      destruct (process_file_summary env fp o false W)
        as (o1 & w1 & Hrun & Hfiles & Hcases);
      pose proof (returns_process_file env fp o false W) as Hkind
  end.
  rewrite Hrun.
  assert (Hstats : cache w1 = cache w /\ 0 <= total_processed (stats w1) <= 1).
  { destruct Hcases
      as [(_ & -> & -> & _) | [(_ & [=] & _) | [(_ & -> & (cp & ->) & _)
         | (_ & -> & -> & _)]]]; simpl; split; done || lia. }
  destruct Hstats as (Hcache & Htotal). simpl in Hfiles.
  destruct o1 as [r|e].
  - destruct (Hkind _ _ Hrun) as [([=] & _) | (Hexp & _)].
    destruct (export_content_exportable env fmt [r] (parg_format args))
      as (content & Hcontent); [by constructor | done | done |].
    unfold export_results. rewrite Hcontent.
    destruct (parg_output args) as [name|] eqn:Hout; simpl.
    + case_bool_decide as Hname.
      * destruct (get_statistics_run w1) as (snap & Hsnap & _).
        unfold bind at 1. rewrite Hsnap. simpl.
        eexists _, _. split; [reflexivity|]. simpl. do 2 (split; [done|]). by left.
      * destruct (write_error fmt name) as [e|] eqn:Hw.
        -- eexists _, _. split; [reflexivity|]. simpl. do 2 (split; [done|]).
           right. right. by exists name, e.
        -- match goal with
           | |- context [bind get_statistics _ ?W] =>
               destruct (get_statistics_run W) as (snap & Hsnap & _)
           end.
           unfold bind at 1. rewrite Hsnap. simpl.
           eexists _, _. split; [reflexivity|]. simpl. do 2 (split; [done|]). by left.
    + destruct (get_statistics_run w1) as (snap & Hsnap & _).
      unfold bind at 1. rewrite Hsnap. simpl.
      eexists _, _. split; [reflexivity|]. simpl. do 2 (split; [done|]). by left.
  - apply process_file_raises in Hrun as (-> & _).
    eexists _, _. split; [reflexivity|]. simpl. do 2 (split; [done|]).
    right. by left.
Qed.

End ProcessWithoutCache.

(** ** Examples for the reports, the commands and the counters *)

(** A failed result exported as JSON. *)
Lemma export_json_raises_witness :
  exists e,
    export_results (Demo.env Demo.up) DemoReport.fmt [DemoReport.turned_down] JSON
      (Some "report.json") ∅ Demo.w0 = (Raised e, ∅, Demo.w0) /\
    is_type_error e.
Proof.
  apply (export_json_raises (Demo.env Demo.up) DemoReport.fmt
           [DemoReport.turned_down] DemoReport.turned_down FAILED).
  - by left.
  - reflexivity.
Defined.

Lemma demo_served_from_cache : served_from_cache DemoReport.served.
Proof. exists Demo.stored, Demo.stored_result. split; reflexivity. Qed.

(** The entry of [scan.pdf] once served: no format exports it. *)
Lemma cached_result_is_not_exportable_witness :
  exists e,
    export_results (Demo.env Demo.up) DemoReport.fmt [DemoReport.served] MARKDOWN
      None ∅ Demo.w_cached = (Raised e, ∅, Demo.w_cached) /\
    (MARKDOWN = JSON -> is_type_error e) /\
    (MARKDOWN <> JSON -> is_attribute_error e).
Proof.
  apply (cached_result_is_not_exportable (Demo.env Demo.up) DemoReport.fmt
           DemoReport.served [DemoReport.served] MARKDOWN None ∅ Demo.w_cached).
  - exact demo_served_from_cache.
  - by left.
Defined.

Lemma demo_turned_down_exportable : exportable DemoReport.turned_down.
Proof. eexists _, FAILED. split; [reflexivity|]. split; [reflexivity|]. done. Qed.

(** The report of a document that was turned down, written to a file. *)
Lemma export_report_saves_content_witness :
  exists content,
    export_content (Demo.env Demo.up) DemoReport.fmt [DemoReport.turned_down] TXT
      = Returned content /\
    (Some "report.txt" = None \/ Some "report.txt" = Some "" ->
     export_results (Demo.env Demo.up) DemoReport.fmt [DemoReport.turned_down] TXT
       (Some "report.txt") ∅ Demo.w0 = (Returned content, ∅, Demo.w0)) /\
    (forall name, Some "report.txt" = Some name -> name <> "" ->
       write_error DemoReport.fmt name = None ->
       exists w',
         export_results (Demo.env Demo.up) DemoReport.fmt [DemoReport.turned_down] TXT
           (Some "report.txt") ∅ Demo.w0
           = (Returned content, <[name := content]> ∅, w') /\
         files w' = files Demo.w0 /\ cache w' = cache Demo.w0 /\
         stats w' = stats Demo.w0 /\ api_calls w' = api_calls Demo.w0 /\
         log_records w' =
           log_records Demo.w0
             ++ [(INFO, "Results exported to: " +:+ output_path DemoReport.fmt name)]) /\
    (forall name e, Some "report.txt" = Some name -> name <> "" ->
       write_error DemoReport.fmt name = Some e ->
       export_results (Demo.env Demo.up) DemoReport.fmt [DemoReport.turned_down] TXT
         (Some "report.txt") ∅ Demo.w0 = (Raised e, ∅, Demo.w0)).
Proof.
  apply (export_report_saves_content (Demo.env Demo.up) DemoReport.fmt
           [DemoReport.turned_down] TXT (Some "report.txt") ∅ Demo.w0).
  - constructor; [exact demo_turned_down_exportable | constructor].
  - discriminate.
  - discriminate.
Defined.

(** A result made of plain data: it has a JSON export and no HTML report. *)
Lemma json_export_excludes_reports_witness :
  exists e,
    export_results (Demo.env Demo.up) DemoReport.fmt [Demo.stored_result] HTML
      None ∅ Demo.w0 = (Raised e, ∅, Demo.w0) /\
    is_attribute_error e.
Proof.
  apply (json_export_excludes_reports (Demo.env Demo.up) DemoReport.fmt
           [Demo.stored_result] "<encoded>" HTML None ∅ Demo.w0).
  - discriminate.
  - reflexivity.
  - discriminate.
Defined.

(** [scan.pdf], extracted: a result of the second kind. *)
Lemma process_file_result_kind_witness :
  (true = true /\ served_from_cache (DemoCommand.result_of DemoReport.extracted) /\
   status (DemoCommand.result_of DemoReport.extracted) = VStatus CACHED /\
   raw_metadata (DemoCommand.result_of DemoReport.extracted)) \/
  (exportable (DemoCommand.result_of DemoReport.extracted) /\
   (status (DemoCommand.result_of DemoReport.extracted) = VStatus COMPLETED \/
    status (DemoCommand.result_of DemoReport.extracted) = VStatus FAILED)).
Proof.
  apply (process_file_result_kind (Demo.env Demo.up) "scan.pdf" None true Demo.w0
           (snd (process_file (Demo.env Demo.up) "scan.pdf" None true Demo.w0))
           (DemoCommand.result_of DemoReport.extracted)).
  vm_compute. reflexivity.
Defined.

(** [process scan.pdf --format json] *)
Lemma process_command_json_raises_witness :
  exists e w',
    main_process (Demo.env Demo.up) DemoReport.fmt (DemoCommand.process_args JSON false)
      ∅ Demo.w0 = (Raised e, mkConsole ∅ [] w') /\
    (is_type_error e \/ e = Demo.os_error "scan.pdf").
Proof.
  apply (process_command_json_raises (Demo.env Demo.up) DemoReport.fmt
           (DemoCommand.process_args JSON false) ∅ Demo.w0).
  reflexivity.
Defined.

(** [process scan.pdf --format markdown], with and without a cache entry. *)
Lemma process_command_report_witness :
  (status (DemoCommand.result_of (fst (DemoCommand.command_run Demo.w_cached)))
     = VStatus CACHED ->
   exists e,
     main_process (Demo.env Demo.up) DemoReport.fmt
       (DemoCommand.process_args MARKDOWN false) ∅ Demo.w_cached
       = (Raised e, mkConsole ∅ [] (snd (DemoCommand.command_run Demo.w_cached))) /\
     is_attribute_error e) /\
  (status (DemoCommand.result_of (fst (DemoCommand.command_run Demo.w_cached)))
     <> VStatus CACHED ->
   exists content,
     export_content (Demo.env Demo.up) DemoReport.fmt
       [DemoCommand.result_of (fst (DemoCommand.command_run Demo.w_cached))] MARKDOWN
       = Returned content /\
     (no_output None = true ->
      exists c,
        main_process (Demo.env Demo.up) DemoReport.fmt
          (DemoCommand.process_args MARKDOWN false) ∅ Demo.w_cached = (Returned tt, c) /\
        printed c = [content] /\ outputs c = ∅) /\
     (forall name, None = Some name -> name <> "" ->
        write_error DemoReport.fmt name = None ->
        exists c,
          main_process (Demo.env Demo.up) DemoReport.fmt
            (DemoCommand.process_args MARKDOWN false) ∅ Demo.w_cached
            = (Returned tt, c) /\
          printed c = [] /\ outputs c = <[name := content]> ∅) /\
     (forall name e, None = Some name -> name <> "" ->
        write_error DemoReport.fmt name = Some e ->
        main_process (Demo.env Demo.up) DemoReport.fmt
          (DemoCommand.process_args MARKDOWN false) ∅ Demo.w_cached
          = (Raised e, mkConsole ∅ [] (snd (DemoCommand.command_run Demo.w_cached))))).
Proof.
  apply (process_command_report (Demo.env Demo.up) DemoReport.fmt
           (DemoCommand.process_args MARKDOWN false) ∅ Demo.w_cached
           (DemoCommand.result_of (fst (DemoCommand.command_run Demo.w_cached)))
           (snd (DemoCommand.command_run Demo.w_cached))).
  - discriminate.
  - vm_compute. reflexivity.
Defined.

(** [batch inbox], the format left to its default. *)
Lemma batch_command_default_format_raises_witness :
  exists e,
    main_batch_export (Demo.env Demo.up) DemoReport.fmt DemoCommand.command_results
      batch_default_format None ∅ DemoCommand.command_world
      = (Raised e, mkConsole ∅ [] DemoCommand.command_world) /\
    is_type_error e.
Proof.
  apply (batch_command_default_format_raises (Demo.env Demo.up) DemoReport.fmt
           (Demo.args false) [Acquire 0; Complete 0]%nat Demo.w0
           DemoCommand.command_world DemoCommand.command_results None ∅).
  vm_compute. reflexivity.
Defined.

Lemma string_app_assoc (s1 s2 s3 : string) : (s1 +:+ s2) +:+ s3 = s1 +:+ (s2 +:+ s3).
Proof.
  induction s1 as [|c s1 IH]; [done|].
  change (String c ((s1 +:+ s2) +:+ s3) = String c (s1 +:+ (s2 +:+ s3))). by rewrite IH.
Qed.

Lemma demo_hashlib_law (cl : nat -> Request -> outcome string) :
  hashlib_law (Demo.env cl) DemoCommand.hasher.
Proof.
  intros chunks. unfold fed. simpl. f_equal.
  assert (H : forall acc, foldl (fun fed chunk => fed +:+ chunk) acc chunks
                          = acc +:+ foldr String.app "" chunks).
  { induction chunks as [|chunk chunks IH]; intros acc; simpl.
    - clear. induction acc as [|c acc IH]; [done|].
      change (String c acc = String c (acc +:+ "")). by rewrite <- IH.
    - rewrite IH. apply string_app_assoc. }
  apply (H "").
Qed.

(** The digest of [scan.pdf], chunk by chunk and at once. *)
Lemma calculate_file_hash_chunks_agree_witness :
  _calculate_file_hash_chunks (Demo.env Demo.up) DemoCommand.hasher "scan.pdf" Demo.w0
    = _calculate_file_hash (Demo.env Demo.up) "scan.pdf" Demo.w0.
Proof.
  apply (calculate_file_hash_chunks_agree (Demo.env Demo.up) DemoCommand.hasher
           "scan.pdf" Demo.w0).
  exact (demo_hashlib_law Demo.up).
Defined.

Lemma demo_stats_consistent : stats_consistent (stats Demo.w0).
Proof. unfold stats_consistent. simpl. lia. Qed.

Lemma process_file_keeps_counters_witness :
  stats_consistent
    (stats (snd (process_file (Demo.env Demo.down) "scan.pdf" None true Demo.w0))) /\
  stats_le (stats Demo.w0)
    (stats (snd (process_file (Demo.env Demo.down) "scan.pdf" None true Demo.w0))).
Proof.
  apply (process_file_keeps_counters (Demo.env Demo.down) "scan.pdf" None true Demo.w0).
  exact demo_stats_consistent.
Defined.

Lemma success_rate_is_a_percentage_witness :
  exists snap,
    get_statistics Demo.w0 = (Returned snap, Demo.w0) /\
    (0 <= success_rate snap)%Q /\ (success_rate snap <= 100)%Q /\
    (0 <= cache_hit_rate snap)%Q.
Proof.
  apply (success_rate_is_a_percentage Demo.w0). exact demo_stats_consistent.
Defined.

Lemma demo_batch_run :
  process_batch (Demo.env Demo.up) Demo.inbox None 2 (sequential_schedule 0 3) Demo.w0
    = Some (Returned DemoCommand.batch_results, DemoCommand.batch_world).
Proof. vm_compute. reflexivity. Qed.

(** The batch of [scan.pdf], [folder.pdf] and [notes.docx]: one document
    extracted, one that cannot be read, one turned down. *)
Lemma batch_counters_match_results_witness :
  successful (stats DemoCommand.batch_world)
    = successful (stats Demo.w0)
      + Z.of_nat (count_status COMPLETED DemoCommand.batch_results) /\
  cached (stats DemoCommand.batch_world)
    = cached (stats Demo.w0) + Z.of_nat (count_status CACHED DemoCommand.batch_results) /\
  failed (stats Demo.w0) <= failed (stats DemoCommand.batch_world)
    <= failed (stats Demo.w0) + Z.of_nat (count_status FAILED DemoCommand.batch_results) /\
  total_processed (stats DemoCommand.batch_world) - total_processed (stats Demo.w0)
    = (successful (stats DemoCommand.batch_world) - successful (stats Demo.w0))
      + (failed (stats DemoCommand.batch_world) - failed (stats Demo.w0)).
Proof.
  apply (batch_counters_match_results (Demo.env Demo.up) Demo.inbox None 2
           (sequential_schedule 0 3) Demo.w0 DemoCommand.batch_world
           DemoCommand.batch_results).
  exact demo_batch_run.
Defined.

Lemma batch_call_budget_witness :
  total_processed (stats DemoCommand.batch_world) - total_processed (stats Demo.w0)
    <= Z.of_nat (api_calls DemoCommand.batch_world) - Z.of_nat (api_calls Demo.w0)
    <= 3 * (total_processed (stats DemoCommand.batch_world)
            - total_processed (stats Demo.w0)) /\
  Z.of_nat (api_calls DemoCommand.batch_world) - Z.of_nat (api_calls Demo.w0)
    <= 3 * (Z.of_nat (length Demo.inbox)
            - Z.of_nat (count_status CACHED DemoCommand.batch_results)) /\
  files DemoCommand.batch_world = files Demo.w0.
Proof.
  apply (batch_call_budget (Demo.env Demo.up) Demo.inbox None 2
           (sequential_schedule 0 3) Demo.w0 DemoCommand.batch_world
           DemoCommand.batch_results).
  exact demo_batch_run.
Defined.

Lemma cache_entries_kept_or_emptied_witness :
  cache DemoCommand.batch_world !! "sha256:%PDF-.json"
    = cache Demo.w0 !! "sha256:%PDF-.json" \/
  cache DemoCommand.batch_world !! "sha256:%PDF-.json" = Some "".
Proof.
  apply (cache_entries_kept_or_emptied (Demo.env Demo.up) Demo.inbox None 2
           (sequential_schedule 0 3) Demo.w0 DemoCommand.batch_world
           DemoCommand.batch_results).
  exact demo_batch_run.
Defined.

Lemma batch_keeps_counters_witness :
  stats_consistent (stats DemoCommand.batch_world) /\
  stats_le (stats Demo.w0) (stats DemoCommand.batch_world).
Proof.
  apply (batch_keeps_counters (Demo.env Demo.up) Demo.inbox None 2
           (sequential_schedule 0 3) Demo.w0 DemoCommand.batch_world
           DemoCommand.batch_results).
  - exact demo_stats_consistent.
  - exact demo_batch_run.
Defined.


(** [clear-cache --days 7] *)
Lemma clear_cache_command_raises_witness :
  main_clear_cache (Demo.env Demo.up) DemoCommand.cache_dir 1000000%Q
    (parse_clear_cache 7) Demo.w_cached
    = (Raised (attribute_error "api_key"), Demo.w_cached).
Proof.
  apply (clear_cache_command_raises (Demo.env Demo.up) DemoCommand.cache_dir 1000000%Q
           (parse_clear_cache 7) Demo.w_cached).
  reflexivity.
Defined.

Lemma demo_cache_dir_ok (c : gmap string string) : cache_dir_ok DemoCommand.cache_dir c.
Proof.
  split; [done|]. split; [constructor|]. by intros name ?%elem_of_nil.
Qed.



(** The entry of [scan.pdf] removed, and a second call that finds
    nothing. *)
Lemma clear_cache_twice_witness :
  exists w2,
    clear_cache DemoCommand.cache_dir 1000000%Q 7
      (snd (clear_cache DemoCommand.cache_dir 1000000%Q 7 Demo.w_cached))
      = (Returned 0, w2) /\
    cache w2 = cache (snd (clear_cache DemoCommand.cache_dir 1000000%Q 7 Demo.w_cached)).
Proof.
  apply (clear_cache_twice DemoCommand.cache_dir 1000000%Q 7 Demo.w_cached
           (snd (clear_cache DemoCommand.cache_dir 1000000%Q 7 Demo.w_cached)) 1).
  - apply demo_cache_dir_ok.
  - vm_compute. reflexivity.
Defined.

(** [process scan.pdf --no-cache], with an entry for it in the cache. *)
Lemma process_command_without_cache_witness :
  exists o c,
    main_process (Demo.env Demo.up) DemoReport.fmt
      (DemoCommand.process_args MARKDOWN true) ∅ Demo.w_cached = (o, c) /\
    cache (state c) = cache Demo.w_cached /\ files (state c) = files Demo.w_cached /\
    (o = Returned tt /\ 0 <= total_processed (stats (state c)) <= 1 \/
     o = Raised (Demo.os_error "scan.pdf") /\
     printed c = [] /\ outputs c = ∅ \/
     exists name e,
       None = Some name /\ name <> "" /\
       write_error DemoReport.fmt name = Some e /\
       o = Raised e /\ printed c = [] /\ outputs c = ∅).
Proof.
  apply (process_command_without_cache (Demo.env Demo.up) DemoReport.fmt
           (DemoCommand.process_args MARKDOWN true) ∅ Demo.w_cached).
  - reflexivity.
  - discriminate.
Defined.

(** A report written under a directory that does not exist: [open] raises,
    and nothing is written or logged. *)
Example export_to_missing_directory :
  exists e,
    export_results (Demo.env Demo.up) DemoReport.fmt [DemoReport.turned_down] TXT
      (Some "missing/report.txt") ∅ Demo.w0 = (Raised e, ∅, Demo.w0) /\
    DemoReport.write_error "missing/report.txt" = Some e.
Proof. eexists. split; vm_compute; reflexivity. Qed.

(** The length of a text is counted in code points: five Arabic letters,
    which take ten bytes, are too short a text to detect a language in. *)
Example detect_language_counts_code_points :
  String.length "مرحبا" = 10%nat /\ len "مرحبا" = 5%nat /\
  _detect_language (Demo.env Demo.up) (Some "مرحبا") = "unknown".
Proof. split; [|split]; vm_compute; reflexivity. Qed.
